(** * CreoleCentric API examples: webhook receiver, job waiter, polling script

    A shallow embedding of
    - [examples/webhook_server.js]   (module [Webhook]),
    - [nodejs/creolecentric-api.js]  (module [Client]: [waitForJob], [downloadAudio];
      module [ClientApi]: the constructor, the request builders, step 6 of [main]),
    - [examples/tts_job_with_polling.sh] (module [PollScript]: the polling loop;
      module [PollScriptMain]: the script from its first line),
    over a small model of the JavaScript values that [JSON.parse] produces
    (module [JS]). *)

From Stdlib Require Import ZArith List String Ascii Bool Lia DecimalString.
Import ListNotations.
Open Scope string_scope.

(** [++] joins strings throughout; lists are joined with [+++]. *)
Infix "+++" := List.app (right associativity, at level 60).

(* ================================================================== *)
(** ** JavaScript values and the operations the sources apply to them  *)
(* ================================================================== *)

Module JS.

(** Values reachable from a parsed JSON body, plus [undefined] (the result of
    reading a missing property).  Numbers are the integers that a double
    holds exactly and prints in plain decimal notation; an object is its list
    of own properties in property order. *)
#[warnings="-register-all"]
Inductive value : Type :=
| JUndefined
| JNull
| JBool (b : bool)
| JNum (n : Z)
| JStr (s : string)
| JArr (items : list value)
| JObj (props : list (string * value)).

(** A thrown JavaScript [Error]: its constructor name and its [message]. *)
Record js_error : Type := mkError { err_name : string; err_message : string }.

(** Completion of an evaluation: a value, or a thrown error. *)
Inductive completion (A : Type) : Type :=
| Normal (a : A)
| Throw (e : js_error).
Arguments Normal {A} a.
Arguments Throw {A} e.

Definition cbind {A B} (c : completion A) (k : A -> completion B) : completion B :=
  match c with
  | Normal a => k a
  | Throw e => Throw e
  end.

(** ToBoolean: [undefined], [null], [false], [0] and the empty string are falsy;
    every object and array (also an empty one) is truthy. *)
Definition truthy (v : value) : bool :=
  match v with
  | JUndefined | JNull => false
  | JBool b => b
  | JNum n => negb (Z.eqb n 0)
  | JStr s => negb (String.eqb s "")
  | JArr _ | JObj _ => true
  end.

(** [a || b] *)
Definition js_or (a b : value) : value := if truthy a then a else b.

(** Own-property lookup in a property list. *)
Fixpoint lookup (k : string) (props : list (string * value)) : option value :=
  match props with
  | [] => None
  | (k', v) :: rest => if String.eqb k k' then Some v else lookup k rest
  end.

Definition has_own (k : string) (props : list (string * value)) : bool :=
  match lookup k props with Some _ => true | None => false end.

Definition TypeError (msg : string) : js_error := mkError "TypeError" msg.

(** [v.k] for the property names the sources read ([event], [job_id],
    [status], [audio_file_url], ...): none of them is an array index,
    [length], or a name found on a prototype, so on arrays and primitives the
    read gives [undefined]; on [null] and [undefined] it throws. *)
Definition get (v : value) (k : string) : completion value :=
  match v with
  | JObj props => Normal (match lookup k props with Some x => x | None => JUndefined end)
  | JUndefined =>
      Throw (TypeError ("Cannot read properties of undefined (reading '" ++ k ++ "')"))
  | JNull =>
      Throw (TypeError ("Cannot read properties of null (reading '" ++ k ++ "')"))
  | _ => Normal JUndefined
  end.

(** Decimal rendering of an integer-valued number. *)
Definition show_Z (z : Z) : string := NilZero.string_of_int (Z.to_int z).

Definition cannot_convert : js_error :=
  TypeError "Cannot convert object to primitive value".

(** ToString, as applied by a template literal [`${v}`].
    - An array goes through [Array.prototype.join]: [null] and [undefined]
      elements print as the empty string, the others through ToString.
    - A plain object goes through OrdinaryToPrimitive with hint string: it
      reads [toString], then [valueOf].  Without an own [toString] the
      inherited [Object.prototype.toString] answers ["[object Object]"].  An
      own [toString] coming from JSON is never callable, so it is skipped;
      [valueOf] is then either an own (non-callable) property or the inherited
      one, which returns the object itself: no primitive is obtained and a
      TypeError is thrown. *)
Fixpoint to_string (v : value) : completion string :=
  match v with
  | JUndefined => Normal "undefined"
  | JNull => Normal "null"
  | JBool true => Normal "true"
  | JBool false => Normal "false"
  | JNum n => Normal (show_Z n)
  | JStr s => Normal s
  | JArr items =>
      (fix join (l : list value) : completion string :=
         match l with
         | [] => Normal ""
         | x :: rest =>
             cbind (match x with
                    | JUndefined | JNull => Normal ""
                    | _ => to_string x
                    end)
                   (fun sx =>
                      match rest with
                      | [] => Normal sx
                      | _ :: _ => cbind (join rest) (fun sr => Normal (sx ++ "," ++ sr))
                      end)
         end) items
  | JObj props =>
      if has_own "toString" props then Throw cannot_convert
      else Normal "[object Object]"
  end.

(** [v === s] for a string [s]: only the string value [s] itself. *)
Definition strict_eq_string (v : value) (s : string) : bool :=
  match v with
  | JStr s' => String.eqb s' s
  | _ => false
  end.

(** [o[k] = v] on a property list: an existing own property keeps its place,
    a new one goes last. *)
Fixpoint set_prop (k : string) (v : value) (props : list (string * value))
  : list (string * value) :=
  match props with
  | [] => [(k, v)]
  | (k', v') :: rest =>
      if String.eqb k k' then (k', v) :: rest else (k', v') :: set_prop k v rest
  end.

Fixpoint index_props (i : nat) (l : list value) : list (string * value) :=
  match l with
  | [] => []
  | x :: rest => (show_Z (Z.of_nat i), x) :: index_props (S i) rest
  end.

Fixpoint chars_of (s : string) : list value :=
  match s with
  | EmptyString => []
  | String c rest => JStr (String c EmptyString) :: chars_of rest
  end.

(** The own enumerable properties copied by an object spread [{...v}]:
    those of an object, the indexed elements of an array or of a string,
    nothing for the other primitives. *)
Definition spread (v : value) : list (string * value) :=
  match v with
  | JObj props => props
  | JArr items => index_props 0 items
  | JStr s => index_props 0 (chars_of s)
  | _ => []
  end.

(** How an axios request for a stream settles, and how the write stream it is
    piped into ends. *)
Inductive settled : Type :=
| Resolved (writer_error : option js_error)
    (* the request succeeded; the write stream then fires 'finish' (None)
       or 'error' *)
| Rejected (e : js_error).
    (* network error, or a status outside 2xx such as 404 *)

End JS.

(* ================================================================== *)
(** ** examples/webhook_server.js                                      *)
(* ================================================================== *)

Module Webhook.
Import JS.

(** The process-wide store [const webhookEvents = []]. *)
Record server : Type := mkServer { webhookEvents : list value }.

Inductive level : Type := Log | Warn | Error.

(** What a handler does to the outside world, in program order. *)
Inductive effect : Type :=
| Console (l : level) (line : string)
    (* console.log / console.warn / console.error *)
| AxiosGet (url : value)
    (* axios({ method: 'GET', url, responseType: 'stream' }) *)
| CreateWriteStream (file : string)
    (* fs.createWriteStream(filename), filename = path.join(downloadsDir, file) *)
| Pipe
    (* response.data.pipe(writer) *)
| LogSaved (file : string).
    (* console.log(`💾 Audio saved to ${filename}`) for the same filename:
       the line shows the joined path, which depends on the directory of the
       script; the trace keeps the file name given to path.join *)

Record response : Type := mkResponse { status_code : nat; body : value }.

(** Handlers run over the store, may throw, and leave a trace; a store
    update made before a throw stays. *)
Definition M (A : Type) : Type := server -> completion A * server * list effect.

Definition ret {A} (a : A) : M A := fun s => (Normal a, s, []).

Definition bind {A B} (m : M A) (k : A -> M B) : M B :=
  fun s =>
    match m s with
    | (Normal a, s1, t1) =>
        match k a s1 with
        | (r, s2, t2) => (r, s2, t1 +++ t2)
        end
    | (Throw e, s1, t1) => (Throw e, s1, t1)
    end.

Declare Scope js_scope.
Delimit Scope js_scope with js.
Notation "x <- m ;; k" := (bind m (fun x => k))
  (at level 100, m at next level, right associativity) : js_scope.
Notation "m ;;; k" := (bind m (fun _ => k))
  (at level 100, right associativity) : js_scope.
Open Scope js_scope.

Definition lift {A} (c : completion A) : M A := fun s => (c, s, []).
Definition emit (e : effect) : M unit := fun s => (Normal tt, s, [e]).
Definition emits (es : list effect) : M unit := fun s => (Normal tt, s, es).
Definition console (l : level) (line : string) : M unit := emit (Console l line).

(** [webhookEvents.push(entry)] *)
Definition push (entry : value) : M unit :=
  fun s => (Normal tt, mkServer (webhookEvents s +++ [entry]), []).

(** [try { body } catch (error) { handler }] *)
Definition try_catch {A} (body : M A) (handler : js_error -> M A) : M A :=
  fun s =>
    match body s with
    | (Normal a, s1, t1) => (Normal a, s1, t1)
    | (Throw e, s1, t1) =>
        match handler e s1 with
        | (r, s2, t2) => (r, s2, t1 +++ t2)
        end
    end.

Definition nl : string := String (ascii_of_nat 10) EmptyString.

(** [data.k] followed by the template-literal conversion is what every
    handler does with the fields it prints. *)
Definition field (data : value) (k : string) : M value := lift (get data k).
Definition str (v : value) : M string := lift (to_string v).

(** *** downloadAudio(jobId, audioUrl)

    An [async] function called without [await]: [downloadAudio_start] is the
    part that runs inside the caller, up to [await axios(...)];
    [downloadAudio_resume] is the rest, which runs once the request has
    settled.  Its own try/catch swallows every error. *)
Definition downloadAudio_start (jobId audioUrl : value) : list effect :=
  match to_string jobId with
  | Normal j => [Console Log ("📥 Downloading audio for job " ++ j); AxiosGet audioUrl]
  | Throw e => [Console Error ("❌ Failed to download audio: " ++ err_message e)]
  end.

Definition downloadAudio_resume (jobId : value) (o : settled) : list effect :=
  match o with
  | Rejected e => [Console Error ("❌ Failed to download audio: " ++ err_message e)]
  | Resolved w =>
      match to_string jobId with
      | Throw e => [Console Error ("❌ Failed to download audio: " ++ err_message e)]
      | Normal j =>
          let file := j ++ ".mp3" in
          [CreateWriteStream file; Pipe] +++
          match w with
          | None => [LogSaved file]
          | Some e => [Console Error ("❌ Error saving audio: " ++ err_message e)]
          end
      end
  end.

(** The whole of one call, given how its request settles. *)
Definition downloadAudio (axios : value -> settled) (jobId audioUrl : value)
  : list effect :=
  match to_string jobId with
  | Normal _ => downloadAudio_start jobId audioUrl
                +++ downloadAudio_resume jobId (axios audioUrl)
  | Throw _ => downloadAudio_start jobId audioUrl
  end.

(** *** The event handlers *)

Definition handleQueued (data : value) : M unit :=
  jobId <- field data "job_id" ;;
  queuePosition <- field data "queue_position" ;;
  j <- str jobId ;; q <- str queuePosition ;;
  console Log ("📋 Job " ++ j ++ " queued at position " ++ q).

Definition handleStarted (data : value) : M unit :=
  jobId <- field data "job_id" ;;
  j <- str jobId ;;
  console Log ("🚀 Job " ++ j ++ " processing started").

Definition handleSynthesized (data : value) : M unit :=
  jobId <- field data "job_id" ;;
  duration <- field data "duration_seconds" ;;
  j <- str jobId ;; d <- str duration ;;
  console Log ("🎵 Job " ++ j ++ " synthesized, duration: " ++ d ++ "s").

Definition handleUploaded (data : value) : M unit :=
  jobId <- field data "job_id" ;;
  s3Url <- field data "s3_url" ;;
  j <- str jobId ;; u <- str s3Url ;;
  console Log ("☁️  Job " ++ j ++ " uploaded to S3: " ++ u).

Definition handleDelivered (data : value) : M unit :=
  jobId <- field data "job_id" ;;
  audioUrl <- field data "audio_file_url" ;;
  s3Url <- field data "s3_url" ;;
  creditsUsed <- field data "credits_used" ;;
  duration <- field data "duration_seconds" ;;
  j <- str jobId ;;
  console Log ("✅ Job " ++ j ++ " completed successfully!") ;;;
  a <- str audioUrl ;;
  console Log ("   Audio URL: " ++ a) ;;;
  u <- str s3Url ;;
  console Log ("   S3 URL: " ++ u) ;;;
  d <- str duration ;;
  console Log ("   Duration: " ++ d ++ "s") ;;;
  c <- str creditsUsed ;;
  console Log ("   Credits used: " ++ c) ;;;
  if truthy audioUrl then emits (downloadAudio_start jobId audioUrl) else ret tt.

Definition handleFailed (data : value) : M unit :=
  jobId <- field data "job_id" ;;
  em <- field data "error_message" ;;
  let errorMessage := js_or em (JStr "Unknown error") in
  j <- str jobId ;; m <- str errorMessage ;;
  console Error ("❌ Job " ++ j ++ " failed: " ++ m).

(** [switch (eventType) { case '...': ...; default: ... }], by [===]. *)
Definition dispatch (eventType data : value) : M unit :=
  if strict_eq_string eventType "tts_queued" then handleQueued data
  else if strict_eq_string eventType "tts_started" then handleStarted data
  else if strict_eq_string eventType "tts_synthesized" then handleSynthesized data
  else if strict_eq_string eventType "tts_uploaded" then handleUploaded data
  else if strict_eq_string eventType "tts_delivered" then handleDelivered data
  else if strict_eq_string eventType "tts_failed" then handleFailed data
  else
    e <- str eventType ;;
    console Warn ("⚠️  Unknown event type: " ++ e).

(** *** app.post('/webhook', ...)

    [data] is [req.body]; [received_at] is what
    [new Date().toISOString()] answers during this request. *)
Definition post_webhook (received_at : string) (data : value) : M response :=
  try_catch
    (if negb (truthy data) then
       console Warn "Received webhook with no data" ;;;
       ret (mkResponse 400 (JObj [("error", JStr "No data provided")]))
     else
       ev <- field data "event" ;;
       let eventType := js_or ev (JStr "unknown") in
       jid <- field data "job_id" ;;
       let jobId := js_or jid (JStr "unknown") in
       st <- field data "status" ;;
       let status := js_or st (JStr "unknown") in
       e <- str eventType ;; j <- str jobId ;; t <- str status ;;
       console Log (nl ++ "📨 Received webhook: " ++ e ++ " for job " ++ j
                       ++ " (status: " ++ t ++ ")") ;;;
       push (JObj (set_prop "received_at" (JStr received_at) (spread data))) ;;;
       dispatch eventType data ;;;
       e' <- str eventType ;;
       ret (mkResponse 200
              (JObj [("status", JStr "success");
                     ("message", JStr ("Webhook " ++ e' ++ " processed"));
                     ("job_id", jobId)])))
    (fun error =>
       (* console.error('...', error): the error is printed as name and
          message, without its stack *)
       console Error ("❌ Error processing webhook: " ++ err_name error ++ ": "
                         ++ err_message error) ;;;
       ret (mkResponse 500 (JObj [("error", JStr (err_message error))]))).

(** *** The read-only routes *)

(** app.get('/events') *)
Definition get_events (s : server) : value := JArr (webhookEvents s).

(** [e.job_id === jobId] on a stored entry. *)
Definition job_id_is (jobId : string) (e : value) : bool :=
  match get e "job_id" with
  | Normal v => strict_eq_string v jobId
  | Throw _ => false
  end.

(** app.get('/events/:jobId') *)
Definition get_events_job (jobId : string) (s : server) : value :=
  JArr (filter (job_id_is jobId) (webhookEvents s)).

(** app.get('/health') *)
Definition get_health (s : server) : value :=
  JObj [("status", JStr "healthy");
        ("events_received", JNum (Z.of_nat (List.length (webhookEvents s))))].

(** Webhook requests handled one after the other, each to completion, as the
    single-threaded event loop runs them. *)
Fixpoint deliver (posts : list (string * value)) : M (list response) :=
  match posts with
  | [] => ret []
  | (received_at, data) :: rest =>
      r <- post_webhook received_at data ;;
      rs <- deliver rest ;;
      ret (r :: rs)
  end.

(** Observations on a trace. *)
Definition is_request (e : effect) : bool :=
  match e with AxiosGet _ => true | _ => false end.

Definition requests (t : list effect) : list effect := filter is_request t.

(** The store a run ends with. *)
Definition store {A} (r : completion A * server * list effect) : server := snd (fst r).

Definition empty_server : server := mkServer [].

(** Reading a field of a request body that passed the [!data] test. *)
Definition prop (data : value) (k : string) : value :=
  match get data k with Normal v => v | Throw _ => JUndefined end.

(** The template-literal conversion of [v] does not throw. *)
Definition printable (v : value) : bool :=
  match to_string v with Normal _ => true | Throw _ => false end.

Definition shown (v : value) : string :=
  match to_string v with Normal s => s | Throw _ => "" end.

(** [eventType], [jobId] and [status] as the route computes them. *)
Definition eventType_of (data : value) : value := js_or (prop data "event") (JStr "unknown").
Definition jobId_of (data : value) : value := js_or (prop data "job_id") (JStr "unknown").
Definition status_of (data : value) : value := js_or (prop data "status") (JStr "unknown").

(** The three values printed by the route's first log line convert to strings. *)
Definition envelope_prints (data : value) : bool :=
  printable (eventType_of data) && printable (jobId_of data) && printable (status_of data).

(** Every own top-level field of the body converts to a string. *)
Definition fields_print (data : value) : bool :=
  forallb (fun kv => printable (snd kv)) (spread data).

(** The event types with a [case] of their own in the [switch]. *)
Definition recognized (eventType : value) : bool :=
  strict_eq_string eventType "tts_queued" || strict_eq_string eventType "tts_started"
  || strict_eq_string eventType "tts_synthesized" || strict_eq_string eventType "tts_uploaded"
  || strict_eq_string eventType "tts_delivered" || strict_eq_string eventType "tts_failed".

(** [{ ...data, received_at }] *)
Definition entry (received_at : string) (data : value) : value :=
  JObj (set_prop "received_at" (JStr received_at) (spread data)).

(** A body gets past the first log line, and so into the store. *)
Definition logged (data : value) : bool := truthy data && envelope_prints data.

Definition received_line (data : value) : string :=
  nl ++ "📨 Received webhook: " ++ shown (eventType_of data) ++ " for job "
     ++ shown (jobId_of data) ++ " (status: " ++ shown (status_of data) ++ ")".

Definition success (data : value) : response :=
  mkResponse 200
    (JObj [("status", JStr "success");
           ("message", JStr ("Webhook " ++ shown (eventType_of data) ++ " processed"));
           ("job_id", jobId_of data)]).

Definition failure (e : js_error) : response :=
  mkResponse 500 (JObj [("error", JStr (err_message e))]).

(** A computation that neither reads nor writes the store. *)
Definition stateless {A} (m : M A) : Prop :=
  forall s, m s = (fst (fst (m empty_server)), s, snd (m empty_server)).

Definition failure_line (e : js_error) : effect :=
  Console Error ("❌ Error processing webhook: " ++ err_name e ++ ": " ++ err_message e).

(** What the dispatch of a body does, seen from an empty store. *)
Definition dispatched (data : value) : completion unit * list effect :=
  let r := dispatch (eventType_of data) data empty_server in (fst (fst r), snd r).

(** Which dispatches start a download: only [handleDelivered], only on a
    truthy [audio_file_url], and then one request for that URL. *)
Definition starts_download (data : value) : bool :=
  strict_eq_string (eventType_of data) "tts_delivered"
  && truthy (prop data "audio_file_url").

(** The entries a run of requests adds to the store. *)
Definition entries (posts : list (string * value)) : list value :=
  map (fun p => entry (fst p) (snd p)) (filter (fun p => logged (snd p)) posts).

(** The requests of a run that reach GET /events/:jobId. *)
Definition kept_for (jobId : string) (p : string * value) : bool :=
  logged (snd p) && strict_eq_string (prop (snd p) "job_id") jobId.

(** The log lines of [handleDelivered], before its download test. *)
Definition delivered_lines (data : value) : list effect :=
  [Console Log ("✅ Job " ++ shown (prop data "job_id") ++ " completed successfully!");
   Console Log ("   Audio URL: " ++ shown (prop data "audio_file_url"));
   Console Log ("   S3 URL: " ++ shown (prop data "s3_url"));
   Console Log ("   Duration: " ++ shown (prop data "duration_seconds") ++ "s");
   Console Log ("   Credits used: " ++ shown (prop data "credits_used"))].

(** The log line of [handleFailed]. *)
Definition failed_line (data : value) : effect :=
  Console Error ("❌ Job " ++ shown (prop data "job_id") ++ " failed: "
                   ++ shown (js_or (prop data "error_message") (JStr "Unknown error"))).

End Webhook.

(* ================================================================== *)
(** ** nodejs/creolecentric-api.js                                     *)
(* ================================================================== *)

Module Client.
Import JS.

(** The outside world of one [waitForJob] call: what successive readings of
    [Date.now()] give, and how successive status queries settle
    ([getJobStatus] rethrows what the axios interceptor rethrows). *)
Record world : Type := mkWorld {
  now : nat -> Z;
  getJobStatus : string -> nat -> completion value
}.

Inductive effect : Type :=
| StatusQuery (jobId : string)          (* GET /tts/jobs/${jobId}/status/ *)
| ConsoleLog (line : string)
| SetTimeout (ms : Z)                   (* await new Promise(r => setTimeout(r, ms)) *)
| AxiosGet (url : value)
| CreateWriteStream (path : string)
| Pipe.

(** [['completed', 'failed', 'cancelled'].includes(v)] *)
Definition is_terminal (v : value) : bool :=
  strict_eq_string v "completed" || strict_eq_string v "failed"
  || strict_eq_string v "cancelled".

Definition timeout_error (jobId : string) (timeout : Z) : js_error :=
  mkError "Error" ("Job " ++ jobId ++ " did not complete within "
                     ++ show_Z timeout ++ " seconds").

(** One outcome of the promise returned by [waitForJob]; [None] stands for a
    loop that has not finished within the steps allowed to the model. *)
Definition outcome : Type := option (completion value).

(** The [while] loop; [i] counts the iterations already made, so the loop
    test of iteration [i] is reading [S i] of the clock (reading [0] is
    [startTime]) and its query is query [i]. *)
Fixpoint wait_loop (steps : nat) (w : world) (jobId : string)
    (timeout startTime timeoutMs pollIntervalMs : Z) (i : nat)
  : outcome * list effect :=
  match steps with
  | O => (None, [])
  | S steps' =>
      if (now w (S i) - startTime <? timeoutMs)%Z then
        match getJobStatus w jobId i with
        | Throw e => (Some (Throw e), [StatusQuery jobId])
        | Normal status =>
            match get status "status" with
            | Throw e => (Some (Throw e), [StatusQuery jobId])
            | Normal st =>
                if is_terminal st then (Some (Normal status), [StatusQuery jobId])
                else
                  match to_string (js_or st (JStr "unknown")) with
                  | Throw e => (Some (Throw e), [StatusQuery jobId])
                  | Normal shown =>
                      let '(r, t) :=
                        wait_loop steps' w jobId timeout startTime timeoutMs
                                  pollIntervalMs (S i) in
                      (r, StatusQuery jobId
                          :: ConsoleLog ("Job " ++ jobId ++ " status: " ++ shown)
                          :: SetTimeout pollIntervalMs :: t)
                  end
            end
        end
      else (Some (Throw (timeout_error jobId timeout)), [])
  end.

(** async waitForJob(jobId, timeout = 300, pollInterval = 2) *)
Definition waitForJob (steps : nat) (w : world) (jobId : string)
    (timeout pollInterval : Z) : outcome * list effect :=
  let startTime := now w 0 in
  let timeoutMs := (timeout * 1000)%Z in
  let pollIntervalMs := (pollInterval * 1000)%Z in
  wait_loop steps w jobId timeout startTime timeoutMs pollIntervalMs 0.

Definition default_timeout : Z := 300.
Definition default_pollInterval : Z := 2.

(** async downloadAudio(audioUrl, outputPath): one request; its rejection,
    or the write stream's error, rejects the returned promise. *)
Definition downloadAudio (axios_get : value -> settled) (audioUrl : value)
    (outputPath : string) : completion unit * list effect :=
  match axios_get audioUrl with
  | Rejected e => (Throw e, [AxiosGet audioUrl])
  | Resolved None =>
      (Normal tt, [AxiosGet audioUrl; CreateWriteStream outputPath; Pipe])
  | Resolved (Some e) =>
      (Throw e, [AxiosGet audioUrl; CreateWriteStream outputPath; Pipe])
  end.

Definition is_query (e : effect) : bool :=
  match e with StatusQuery _ => true | _ => false end.
Definition is_request (e : effect) : bool :=
  match e with AxiosGet _ => true | _ => false end.

(** [e] is thrown while handling query [i]: by the query itself, by reading
    [status.status], or by printing it. *)
Definition thrown_at (w : world) (jobId : string) (i : nat) (e : js_error) : Prop :=
  getJobStatus w jobId i = Throw e
  \/ exists status,
       getJobStatus w jobId i = Normal status
       /\ (get status "status" = Throw e
           \/ exists st, get status "status" = Normal st /\ is_terminal st = false
                         /\ to_string (js_or st (JStr "unknown")) = Throw e).

(** A clock that advances by one second per reading, and a service that is
    unreachable. *)
Definition ticking (k : nat) : Z := (1000 * Z.of_nat k)%Z.
Definition network_error : js_error := mkError "AxiosError" "Network Error".
Definition unreachable : world := mkWorld ticking (fun _ _ => Throw network_error).

(** A service that answers [processing] twice and then [failed]. *)
Definition status_body (s : string) : value := JObj [("status", JStr s)].
Definition fails_third : world :=
  mkWorld ticking
    (fun _ i => match i with
                | 0 | 1 => Normal (status_body "processing")
                | _ => Normal (status_body "failed")
                end).

End Client.

(* ================================================================== *)
(** ** examples/tts_job_with_polling.sh: the polling loop              *)
(* ================================================================== *)

Module PollScript.

(** The shell variables set from one status response (by [jq], or by the
    [grep]/[sed] fallback). *)
Record vars : Type := mkVars {
  STATUS : string;
  QUEUE_POSITION : string;
  AUDIO_URL : string;
  ERROR_MESSAGE : string;
  DURATION : string;
  S3_URL : string
}.

(** What the script does, in order. *)
Inductive action : Type :=
| CurlStatus (attempt : nat)      (* curl -s -X GET "$API_BASE_URL/tts/jobs/$JOB_ID/" *)
| Echo (line : string)
| CurlDownload (output url : string)  (* curl -s -o "$OUTPUT_FILE" "$AUDIO_URL" *)
| Sleep (seconds : nat).

(** The outside world of one run: the variables extracted from the response
    to attempt number [n], whether the download command succeeds, and what
    [du -h] prints when it is installed. *)
Record world : Type := mkWorld {
  status_response : nat -> vars;
  curl_download_ok : bool;
  du : option string
}.

Definition MAX_ATTEMPTS : nat := 30.
Definition POLL_INTERVAL : nat := 2.

Definition show_nat (n : nat) : string := JS.show_Z (Z.of_nat n).

(** [[ -n "$x" ]] && [[ "$x" != "null" ]] *)
Definition present (x : string) : bool :=
  negb (String.eqb x "") && negb (String.eqb x "null").

(** How the loop was left. *)
Inductive leave : Type :=
| Exit (code : nat)     (* exit inside the loop *)
| Break                 (* break *)
| Exhausted.            (* the loop test failed *)

Definition attempt_line (max attempt : nat) (v : vars) : string :=
  "  Attempt " ++ show_nat attempt ++ "/" ++ show_nat max ++ " - Status: " ++ STATUS v
  ++ (if negb (String.eqb (QUEUE_POSITION v) "N/A") && present (QUEUE_POSITION v)
      then " (Queue position: " ++ QUEUE_POSITION v ++ ")" else "").

(** [if [[ -n "$x" ]] && [[ "$x" != "null" ]]; then echo line; fi] *)
Definition opt_line (x line : string) : list action :=
  if present x then [Echo line] else [].

(** The [completed] branch, up to [break]. *)
Definition completed_branch (w : world) (JOB_ID : string) (v : vars) : list action :=
  [Echo ""; Echo "✓ Job completed successfully!"]
  +++ opt_line (DURATION v) ("  Duration: " ++ DURATION v ++ " seconds")
  +++ opt_line (AUDIO_URL v) ("  Audio URL: " ++ AUDIO_URL v)
  +++ opt_line (S3_URL v) ("  S3 URL: " ++ S3_URL v)
  +++ (if present (AUDIO_URL v) then
         let OUTPUT_FILE := "output_" ++ String.substring 0 8 JOB_ID ++ ".mp3" in
         [Echo ""; Echo "3. Downloading audio file...";
          CurlDownload OUTPUT_FILE (AUDIO_URL v)]
         +++ (if curl_download_ok w then
                Echo ("✓ Audio saved as: " ++ OUTPUT_FILE)
                :: match du w with
                   | Some size => [Echo ("  File size: " ++ size)]
                   | None => []
                   end
              else [Echo "✗ Failed to download audio file"])
       else []).

Definition failed_branch (v : vars) : list action :=
  [Echo ""; Echo "✗ Job failed!"]
  +++ opt_line (ERROR_MESSAGE v) ("  Error: " ++ ERROR_MESSAGE v).

Definition cancelled_branch : list action :=
  [Echo ""; Echo "✗ Job was cancelled"].

(** [while [ $ATTEMPT -lt $MAX_ATTEMPTS ]; do ... done]; [remaining] is
    [MAX_ATTEMPTS - ATTEMPT].  Returns how the loop was left, the final
    [ATTEMPT], and what was done. *)
Fixpoint poll_loop (w : world) (JOB_ID : string) (max interval : nat)
    (remaining ATTEMPT : nat) : leave * nat * list action :=
  match remaining with
  | O => (Exhausted, ATTEMPT, [])
  | S remaining' =>
      let ATTEMPT := ATTEMPT + 1 in
      let v := status_response w ATTEMPT in
      let head := [CurlStatus ATTEMPT; Echo (attempt_line max ATTEMPT v)] in
      if String.eqb (STATUS v) "completed" then
        (Break, ATTEMPT, head +++ completed_branch w JOB_ID v)
      else if String.eqb (STATUS v) "failed" then
        (Exit 1, ATTEMPT, head +++ failed_branch v)
      else if String.eqb (STATUS v) "cancelled" then
        (Exit 1, ATTEMPT, head +++ cancelled_branch)
      else
        let '(l, a, t) := poll_loop w JOB_ID max interval remaining' ATTEMPT in
        (l, a, head +++ Sleep interval :: t)
  end.

(** The double-quote character. *)
Definition dq : string := String (ascii_of_nat 34) EmptyString.

Definition timeout_lines (API_BASE_URL JOB_ID : string) : list action :=
  [Echo ""; Echo "✗ Timeout: Job did not complete within expected time";
   Echo "  You can check the status later using:";
   Echo ("  curl -X GET " ++ dq ++ API_BASE_URL ++ "/tts/jobs/" ++ JOB_ID ++ "/" ++ dq ++ " \");
   Echo ("    -H " ++ dq ++ "Authorization: ApiKey $CREOLECENTRIC_API_KEY" ++ dq)].

(** Step 2 of the script to its end, for given [MAX_ATTEMPTS] and
    [POLL_INTERVAL]: the exit status and what was done. *)
Definition poll (w : world) (API_BASE_URL JOB_ID : string) (max interval : nat)
  : nat * list action :=
  let '(l, ATTEMPT, t) := poll_loop w JOB_ID max interval max 0 in
  match l with
  | Exit code => (code, t)
  | Break | Exhausted =>
      if Nat.eqb ATTEMPT max then (1, t +++ timeout_lines API_BASE_URL JOB_ID)
      else (0, t +++ [Echo ""; Echo "==========================================";
                       Echo "Example completed successfully!";
                       Echo "=========================================="])
  end.

(** The script as written. *)
Definition script (w : world) (API_BASE_URL JOB_ID : string) : nat * list action :=
  poll w API_BASE_URL JOB_ID MAX_ATTEMPTS POLL_INTERVAL.

Definition is_query (a : action) : bool :=
  match a with CurlStatus _ => true | _ => false end.
Definition is_download (a : action) : bool :=
  match a with CurlDownload _ _ => true | _ => false end.
Definition is_sleep (a : action) : bool :=
  match a with Sleep _ => true | _ => false end.

Definition terminal (s : string) : bool :=
  String.eqb s "completed" || String.eqb s "failed" || String.eqb s "cancelled".

Definition queries (t : list action) : list action := filter is_query t.
Definition downloads (t : list action) : list action := filter is_download t.
Definition sleeps (t : list action) : list action := filter is_sleep t.

(** The status of attempt [k] is the first terminal one. *)
Definition first_terminal (w : world) (k : nat) : Prop :=
  1 <= k /\ terminal (STATUS (status_response w k)) = true
  /\ forall j, 1 <= j < k -> terminal (STATUS (status_response w j)) = false.

(** No attempt up to [max] sees a terminal status. *)
Definition never_terminal (w : world) (max : nat) : Prop :=
  forall j, 1 <= j <= max -> terminal (STATUS (status_response w j)) = false.

(** One attempt that sees no terminal status: the query, its status line,
    the pause. *)
Definition attempt_round (w : world) (max interval attempt : nat) : list action :=
  [CurlStatus attempt; Echo (attempt_line max attempt (status_response w attempt));
   Sleep interval].

(** Sample responses. *)
Definition answer (status error_message : string) : vars :=
  mkVars status "N/A" "" error_message "" "".

Definition always (v : vars) : world := mkWorld (fun _ => v) true None.

End PollScript.

(* ================================================================== *)
(** ** Sample request bodies                                           *)
(* ================================================================== *)

Module Samples.
Import JS.

Definition audio_url : value := JStr "https://x/a.mp3".

Definition delivered_J1 : value :=
  JObj [("event", JStr "tts_delivered"); ("job_id", JStr "J1");
        ("status", JStr "completed"); ("audio_file_url", audio_url)].

Definition failed_J1 : value :=
  JObj [("event", JStr "tts_failed"); ("job_id", JStr "J1");
        ("status", JStr "failed"); ("error_message", JStr "synthesis error")].

Definition archived_J1 : value :=
  JObj [("event", JStr "tts_archived"); ("job_id", JStr "J1");
        ("status", JStr "archived")].

(** [tts_delivered] with neither [job_id] nor [status]. *)
Definition bare_delivered : value :=
  JObj [("event", JStr "tts_delivered"); ("audio_file_url", audio_url)].

(** The object that [JSON.parse] builds from [{"toString": 1}]: its own
    [toString] property hides the inherited method. *)
Definition shadowing : value := JObj [("toString", JNum 1)].

Definition odd_event : value := JObj [("event", shadowing)].

(** [tts_queued] whose [queue_position] is such an object. *)
Definition queued_odd_position : value :=
  JObj [("event", JStr "tts_queued"); ("job_id", JStr "J1");
        ("status", JStr "pending"); ("queue_position", shadowing)].

Definition delivered_odd_url : value :=
  JObj [("event", JStr "tts_delivered"); ("job_id", JStr "J1");
        ("status", JStr "completed"); ("audio_file_url", shadowing)].

(** A request answered 404, as axios reports it. *)
Definition not_found : js_error :=
  mkError "AxiosError" "Request failed with status code 404".

End Samples.

(* ================================================================== *)
(** ** webhook_server.js: observations on a single request             *)
(* ================================================================== *)

Module WebhookMore.
Import JS Webhook.

(** The handler selected for a body returns without throwing. *)
Definition handler_returns (data : value) : bool :=
  match fst (dispatched data) with Normal _ => true | Throw _ => false end.

(** The HTTP status the route answers with. *)
Definition answered (r : completion response * server * list effect) : nat :=
  match fst (fst r) with Normal resp => status_code resp | Throw _ => 0 end.

(** What one request answers and does, on an empty store. *)
Definition alone (p : string * value) : completion response * server * list effect :=
  post_webhook (fst p) (snd p) empty_server.

Definition response_of (p : string * value) : response :=
  match fst (fst (alone p)) with Normal r => r | Throw e => failure e end.

End WebhookMore.

(* ================================================================== *)
(** ** creolecentric-api.js: the constructor and the request builders  *)
(* ================================================================== *)

Module ClientApi.
Import JS.

(** [s.replace(/\/$/, '')]: without the [m] flag [$] matches at the end of
    the string only, so the one slash that ends the string, if any, goes. *)
Fixpoint strip_trailing_slash (s : string) : string :=
  match s with
  | EmptyString => EmptyString
  | String c EmptyString => if Ascii.eqb c "/" then EmptyString else s
  | String c rest => String c (strip_trailing_slash rest)
  end.

(** A parameter with a default value: the default is taken when the argument
    is [undefined] (not when it is [null]). *)
Definition default_to (d v : value) : value :=
  match v with JUndefined => d | _ => v end.

Definition default_baseUrl : string := "https://creolecentric.com/api/v1".

(** What the constructor leaves on [this] and gives to [axios.create]. *)
Record client : Type := mkClient {
  apiKey : value;
  baseUrl : string;
  authorization : string;         (* headers.Authorization *)
  content_type : string;          (* headers['Content-Type'] *)
  request_timeout : Z
}.

(** constructor(apiKey, baseUrl = 'https://creolecentric.com/api/v1') *)
Definition constructor (apiKey baseUrl : value) : completion client :=
  match default_to (JStr default_baseUrl) baseUrl with
  | JStr s =>
      cbind (to_string apiKey) (fun k =>
        Normal (mkClient apiKey (strip_trailing_slash s) ("ApiKey " ++ k)
                         "application/json" 30000))
  | JNull => Throw (TypeError "Cannot read properties of null (reading 'replace')")
  | _ => Throw (TypeError "baseUrl.replace is not a function")
  end.

Inductive verb : Type := GET | POST.

(** A call on [this.client]: verb, URL relative to [baseURL], query
    parameters, body, and the [responseType] asked for. *)
Record request : Type := mkRequest {
  method : verb;
  url : string;
  params : list (string * value);
  data : option value;
  responseType : option string
}.

Definition get_ (u : string) : request := mkRequest GET u [] None None.

Definition checkHealth : request := get_ "/health/".
Definition getUserInfo : request := get_ "/users/profile/".
Definition getCreditBalance : request := get_ "/credits/balance/".
Definition getVoices : request := get_ "/tts/voices/".
Definition getModels : request := get_ "/tts/models/".
Definition getVoiceSettings : request := get_ "/tts/voice-settings/".

(** *** Property order

    The own keys of an object are listed with the array indices first, in
    ascending numeric order, then the other strings in the order of their
    creation.  An array index is the canonical decimal numeral of an integer
    from 0 to 2^32 - 2: ["0"], ["7"], ["42"], but not ["07"], ["-1"] or
    ["4294967295"]. *)
Definition digit (c : ascii) : option N :=
  let n := N_of_ascii c in
  if ((48 <=? n) && (n <=? 57))%N then Some (n - 48)%N else None.

Fixpoint numeral (s : string) (acc : N) : option N :=
  match s with
  | EmptyString => Some acc
  | String c rest =>
      match digit c with
      | Some d => numeral rest (10 * acc + d)%N
      | None => None
      end
  end.

Definition array_index (k : string) : option N :=
  match k with
  | EmptyString => None
  | String c rest =>
      if Ascii.eqb c "0" then (if String.eqb rest "" then Some 0%N else None)
      else match numeral k 0 with
           | Some n => if (n <? 4294967295)%N then Some n else None
           | None => None
           end
  end.

Definition is_index (k : string) : bool :=
  match array_index k with Some _ => true | None => false end.

(** A new array index [k], of value [n], takes its place among the array
    indices that lead the list. *)
Fixpoint insert_index (n : N) (k : string) (v : value) (props : list (string * value))
  : list (string * value) :=
  match props with
  | [] => [(k, v)]
  | (k', v') :: rest =>
      match array_index k' with
      | Some n' => if (n' <? n)%N then (k', v') :: insert_index n k v rest
                   else (k, v) :: props
      | None => (k, v) :: props
      end
  end.

(** CreateDataProperty on a property list: an existing own property keeps its
    place and takes the new value; a new array index goes among the array
    indices; any other new key goes last. *)
Definition define_prop (k : string) (v : value) (props : list (string * value))
  : list (string * value) :=
  match array_index k with
  | Some n => if has_own k props then set_prop k v props else insert_index n k v props
  | None => set_prop k v props
  end.

(** [{ ...base, ...v }]: the own properties of [v] are defined one after the
    other, in their order, on what the literal holds so far. *)
Definition spread_onto (base : list (string * value)) (v : value) : list (string * value) :=
  fold_left (fun o kv => define_prop (fst kv) (snd kv) o) (spread v) base.

(** The body built by
    createTTSJob(text, voiceId = 'voice_1', modelId = 'model_1', options = {}):
    [{ text, voice_id: voiceId, model_id: modelId, ...options }]. *)
Definition createTTSJob_data (text voiceId modelId options : value) : list (string * value) :=
  spread_onto [("text", text);
               ("voice_id", default_to (JStr "voice_1") voiceId);
               ("model_id", default_to (JStr "model_1") modelId)]
              (default_to (JObj []) options).

Definition createTTSJob (text voiceId modelId options : value) : request :=
  mkRequest POST "/tts/jobs/" []
            (Some (JObj (createTTSJob_data text voiceId modelId options))) None.

(** The three URLs built from a job id by a template literal. *)
Definition status_url (jobId : string) : string := "/tts/jobs/" ++ jobId ++ "/status/".
Definition details_url (jobId : string) : string := "/tts/jobs/" ++ jobId ++ "/".
Definition cancel_url (jobId : string) : string := "/tts/jobs/" ++ jobId ++ "/cancel/".

Definition getJobStatus (jobId : value) : completion request :=
  cbind (to_string jobId) (fun j => Normal (get_ (status_url j))).
Definition getJobDetails (jobId : value) : completion request :=
  cbind (to_string jobId) (fun j => Normal (get_ (details_url j))).
Definition cancelJob (jobId : value) : completion request :=
  cbind (to_string jobId) (fun j => Normal (mkRequest POST (cancel_url j) [] None None)).

(** listJobs(limit = 10, offset = 0) *)
Definition listJobs (limit offset : value) : request :=
  mkRequest GET "/tts/jobs/list/"
            [("limit", default_to (JNum 10) limit); ("offset", default_to (JNum 0) offset)]
            None None.

(** expressTTS(text, voiceId = 'voice_1') *)
Definition expressTTS (text voiceId : value) : request :=
  mkRequest POST "/tts/express/" []
            (Some (JObj [("text", text); ("voice_id", default_to (JStr "voice_1") voiceId)]))
            (Some "arraybuffer").

(** *** Step 6 of main(): wait for the job and report

    [if (jobId) { try { finalStatus = await client.waitForJob(jobId, 60); ... }
                  catch (error) { console.error(`Job timed out: ...`) } }
     console.log()]. *)
Inductive output : Type :=
| Waiting (e : Client.effect)       (* what [waitForJob] does *)
| ConsoleLog (line : string)
| ConsoleError (line : string)
| ConsoleErrorWith (label : string) (arg : value).
    (* console.error(label, arg): two arguments *)

(** What axios attaches to the error of a failed request; the response
    interceptor set up by the constructor reads it before it rethrows. *)
Inductive failure : Type :=
| BadStatus (status : Z) (statusText : string) (data : value)
    (* error.response: the server answered outside 2xx *)
| NoResponse
    (* error.request without error.response: no answer arrived *)
| NotSent.
    (* neither: the request could not be set up *)

(** The rejection handler of [this.client.interceptors.response.use]: what it
    prints before [throw error]. *)
Definition interceptor (f : failure) (e : js_error) : list output :=
  match f with
  | BadStatus status statusText data =>
      [ConsoleError ("API Error: " ++ show_Z status ++ " - " ++ statusText);
       ConsoleErrorWith "Response:" data]
  | NoResponse => [ConsoleErrorWith "No response received:" (JStr (err_message e))]
  | NotSent => [ConsoleErrorWith "Request error:" (JStr (err_message e))]
  end.

(** [waitForJob(jobId, 60)] for the value [job.job_id]: the id enters the
    status URL and the messages through template literals, so an id that does
    not convert to a string rejects the wait before any query. *)
Definition wait_for (steps : nat) (w : Client.world) (jobId : value)
  : Client.outcome * list Client.effect :=
  match to_string jobId with
  | Normal j => Client.waitForJob steps w j 60 Client.default_pollInterval
  | Throw e => (Some (Throw e), [])
  end.

(** The body of the [try] after the wait has resolved: the lines printed, and
    how the block ends. *)
Definition report (finalStatus : value) : list output * completion unit :=
  let t0 := [ConsoleLog "Job completed!"] in
  match cbind (get finalStatus "status") to_string with
  | Throw e => (t0, Throw e)
  | Normal st =>
      let t1 := t0 +++ [ConsoleLog ("Final status: " ++ st)] in
      match get finalStatus "audio_url" with
      | Throw e => (t1, Throw e)
      | Normal audio_url =>
          match (if truthy audio_url
                 then cbind (to_string audio_url)
                            (fun a => Normal [ConsoleLog ("Audio URL: " ++ a)])
                 else Normal []) with
          | Throw e => (t1, Throw e)
          | Normal la =>
              let t2 := t1 +++ la in
              match get finalStatus "duration_seconds" with
              | Throw e => (t2, Throw e)
              | Normal duration =>
                  match (if truthy duration
                         then cbind (to_string duration)
                                (fun d => Normal [ConsoleLog ("Duration: " ++ d ++ " seconds")])
                         else Normal []) with
                  | Throw e => (t2, Throw e)
                  | Normal ld => (t2 +++ ld, Normal tt)
                  end
              end
          end
      end
  end.

Definition timed_out (e : js_error) : output :=
  ConsoleError ("Job timed out: " ++ err_message e).

(** What the interceptor prints during a wait that did [t], [axios_error i]
    being what axios attaches to the error of status query [i].  A failed
    query ends the wait, so only the last query of [t] can have failed, and
    the interceptor runs inside it: its lines follow everything else the
    wait did.  Errors thrown while reading or printing a response do not
    pass through the interceptor. *)
Definition count_queries (t : list Client.effect) : nat :=
  List.length (filter Client.is_query t).

Definition intercepted (w : Client.world) (axios_error : nat -> failure) (jobId : value)
    (t : list Client.effect) : list output :=
  match to_string jobId, count_queries t with
  | Normal j, S i =>
      match Client.getJobStatus w j i with
      | Throw e => interceptor (axios_error i) e
      | Normal _ => []
      end
  | _, _ => []
  end.

(** Step 6; [None] when the wait has not settled within [steps]. *)
Definition wait_and_report (steps : nat) (w : Client.world) (axios_error : nat -> failure)
    (jobId : value) : option (list output) :=
  if truthy jobId then
    match wait_for steps w jobId with
    | (None, _) => None
    | (Some (Throw e), t) =>
        Some (map Waiting t +++ intercepted w axios_error jobId t
              +++ [timed_out e; ConsoleLog ""])
    | (Some (Normal finalStatus), t) =>
        match report finalStatus with
        | (lines, Normal _) => Some (map Waiting t +++ lines +++ [ConsoleLog ""])
        | (lines, Throw e) => Some (map Waiting t +++ lines +++ [timed_out e; ConsoleLog ""])
        end
    end
  else Some [ConsoleLog ""].

(** The response of query [i] is not terminal and its status prints. *)
Definition goes_on (w : Client.world) (jobId : string) (i : nat) : Prop :=
  exists status st shown,
    Client.getJobStatus w jobId i = Normal status /\ get status "status" = Normal st
    /\ Client.is_terminal st = false
    /\ to_string (js_or st (JStr "unknown")) = Normal shown.

(** Query [i] is the first to see a terminal status, and the loop is still
    within its deadline when it makes it. *)
Definition first_terminal_at (w : Client.world) (jobId : string) (timeout : Z)
    (i : nat) (status : value) : Prop :=
  (forall k, k <= i -> (Client.now w (S k) - Client.now w 0 < timeout * 1000)%Z)
  /\ (forall k, k < i -> goes_on w jobId k)
  /\ Client.getJobStatus w jobId i = Normal status
  /\ exists st, get status "status" = Normal st /\ Client.is_terminal st = true.

(** One round of the loop that goes on: query, log line, pause. *)
Definition rounds (jobId : string) (ms : Z) (lines : list string) : list Client.effect :=
  flat_map (fun l => [Client.StatusQuery jobId; Client.ConsoleLog l; Client.SetTimeout ms])
           lines.

Definition is_pause (e : Client.effect) : bool :=
  match e with Client.SetTimeout _ => true | _ => false end.

Definition count_pauses (t : list Client.effect) : nat :=
  List.length (filter is_pause t).

(** The loop test of iteration [n] is the first to find the deadline reached:
    the [n] queries made before it got printable non-terminal responses. *)
Definition deadline_at (w : Client.world) (jobId : string) (timeout : Z) (n : nat) : Prop :=
  (forall k, k < n ->
     (Client.now w (S k) - Client.now w 0 < timeout * 1000)%Z /\ goes_on w jobId k)
  /\ (timeout * 1000 <= Client.now w (S n) - Client.now w 0)%Z.

(** Query [i] is the first whose handling throws, with [e], and the loop is
    still within its deadline when it makes it. *)
Definition fails_at (w : Client.world) (jobId : string) (timeout : Z)
    (i : nat) (e : js_error) : Prop :=
  (forall k, k <= i -> (Client.now w (S k) - Client.now w 0 < timeout * 1000)%Z)
  /\ (forall k, k < i -> goes_on w jobId k)
  /\ Client.thrown_at w jobId i e.

(** A job that stays [processing], on a clock that advances by two seconds
    per loop iteration (the pause alone). *)
Definition steady : Client.world :=
  Client.mkWorld (fun k => (2000 * Z.of_nat k)%Z)
                 (fun _ _ => Normal (Client.status_body "processing")).

End ClientApi.

(* ================================================================== *)
(** ** examples/tts_job_with_polling.sh: the whole script              *)
(* ================================================================== *)

Module PollScriptMain.

Definition placeholder_key : string := "cc_your_api_key_here".
Definition API_BASE_URL : string := "https://creolecentric.com/api/v1".
Definition VOICE_ID : string := "qW6MAd7f5iuYw7bAH96wC".
Definition MODEL_ID : string := "ccl_ht_v100".

(** The outside world of one run: the environment variable, whether [jq] is
    installed, what the creation request prints ([RESPONSE]), what [jq] (or
    the [grep]/[sed] fallback) extracts from it, and the world of the
    polling loop. *)
Record setup : Type := mkSetup {
  env_API_KEY : option string;
  has_jq : bool;
  RESPONSE : string;
  JOB_ID : string;
  created_STATUS : string;
  CREDITS_USED : string;
  polling : PollScript.world
}.

Inductive action : Type :=
| Echo (line : string)
| CurlCreate (key : string)    (* curl -s -X POST "$API_BASE_URL/tts/jobs/" ... *)
| JqPrint (json : string)      (* echo "$RESPONSE" | jq . *)
| Step2 (a : PollScript.action).

(** ["${CREOLECENTRIC_API_KEY:-cc_your_api_key_here}"]: the default stands in
    for a variable that is unset or empty. *)
Definition api_key (s : setup) : string :=
  match env_API_KEY s with
  | None => placeholder_key
  | Some k => if String.eqb k "" then placeholder_key else k
  end.

Definition jq_warning (s : setup) : list action :=
  if has_jq s then []
  else [Echo "Warning: jq is not installed. JSON parsing will be limited.";
        Echo "Install with: apt-get install jq (Debian/Ubuntu) or brew install jq (macOS)"].

Definition banner : list action :=
  [Echo "=========================================="; Echo "CreoleCentric TTS API Example";
   Echo "=========================================="; Echo "";
   Echo "1. Creating TTS job..."; Echo "   Text: Bonjou! Kijan ou ye?";
   Echo ("   Voice: Nicolas Innocent (" ++ VOICE_ID ++ ")");
   Echo ("   Model: CCL Haitian v100 (" ++ MODEL_ID ++ ")"); Echo ""].

Definition created_lines (s : setup) : list action :=
  [Echo "✓ Job created successfully!"; Echo ("  Job ID: " ++ JOB_ID s);
   Echo ("  Initial Status: " ++ created_STATUS s);
   Echo ("  Credits Used: " ++ CREDITS_USED s); Echo "";
   Echo "2. Polling for job completion...";
   Echo "   (This may take 10-30 seconds depending on text length)"; Echo ""].

(** The script from its first line: exit status and what was done. *)
Definition run (s : setup) : nat * list action :=
  if String.eqb (api_key s) placeholder_key then
    (1, [Echo "Error: Please set your API key";
         Echo "export CREOLECENTRIC_API_KEY='cc_your_actual_key'"])
  else
    let t1 := jq_warning s +++ banner +++ [CurlCreate (api_key s)] in
    if String.eqb (RESPONSE s) "" then
      (1, t1 +++ [Echo "Error: No response from API"])
    else if has_jq s && String.eqb (JOB_ID s) "null" then
      (1, t1 +++ [Echo "Error: Failed to create job"; JqPrint (RESPONSE s)])
    else
      let '(code, t2) := PollScript.script (polling s) API_BASE_URL (JOB_ID s) in
      (code, t1 +++ created_lines s +++ map Step2 t2).

(** [OUTPUT_FILE="output_${JOB_ID:0:8}.mp3"] *)
Definition output_file (JOB_ID : string) : string :=
  "output_" ++ String.substring 0 8 JOB_ID ++ ".mp3".

Definition is_step2 (a : action) : bool :=
  match a with Step2 _ => true | _ => false end.
Definition is_create (a : action) : bool :=
  match a with CurlCreate _ => true | _ => false end.

(** The run gets as far as the polling loop. *)
Definition reaches_polling (s : setup) : bool :=
  negb (String.eqb (api_key s) placeholder_key)
  && negb (String.eqb (RESPONSE s) "")
  && negb (has_jq s && String.eqb (JOB_ID s) "null").

End PollScriptMain.

(* ================================================================== *)
(** ** The value model on small inputs                                 *)
(* ================================================================== *)

Module JSFacts.
Import JS.

Example to_string_array :
  to_string (JArr [JNum 1; JNull; JArr [JNum 2; JStr "x"]; JBool true]) = Normal "1,,2,x,true".
Proof. reflexivity. Qed.

Example to_string_plain_object : to_string (JObj [("a", JNum 1)]) = Normal "[object Object]".
Proof. reflexivity. Qed.

Example to_string_shadowing : to_string Samples.shadowing = Throw cannot_convert.
Proof. reflexivity. Qed.

Example to_string_array_of_shadowing :
  to_string (JArr [JStr "a"; Samples.shadowing]) = Throw cannot_convert.
Proof. reflexivity. Qed.

Example truthy_empty_object : truthy (JObj []) = true /\ truthy (JArr []) = true.
Proof. split; reflexivity. Qed.

Example falsy_values :
  map truthy [JUndefined; JNull; JBool false; JNum 0; JStr ""] = repeat false 5.
Proof. reflexivity. Qed.

Example spread_array :
  spread (JArr [JStr "a"; JNum 7]) = [("0", JStr "a"); ("1", JNum 7)].
Proof. reflexivity. Qed.

Example set_prop_existing :
  set_prop "b" (JNum 9) [("a", JNum 1); ("b", JNum 2); ("c", JNum 3)]
  = [("a", JNum 1); ("b", JNum 9); ("c", JNum 3)].
Proof. reflexivity. Qed.

End JSFacts.

(* ================================================================== *)
(** ** Properties of the webhook receiver                              *)
(* ================================================================== *)

Module WebhookFacts.
Import JS Webhook.

Lemma stateless_ret {A} (a : A) : stateless (ret a).
Proof. intros s; reflexivity. Qed.

Lemma stateless_lift {A} (c : completion A) : stateless (lift c).
Proof. intros s; reflexivity. Qed.

Lemma stateless_emits es : stateless (emits es).
Proof. intros s; reflexivity. Qed.

Lemma stateless_console l line : stateless (console l line).
Proof. intros s; reflexivity. Qed.

Lemma stateless_bind {A B} (m : M A) (k : A -> M B) :
  stateless m -> (forall a, stateless (k a)) -> stateless (bind m k).
Proof.
  intros Hm Hk s. unfold bind.
  rewrite (Hm s).
  destruct (m empty_server) as [[[a | e] s0] t0]; cbn [fst snd].
  - rewrite (Hk a s), (Hk a s0).
    destruct (k a empty_server) as [[r s1] t1]; reflexivity.
  - reflexivity.
Qed.

Lemma stateless_if {A} (b : bool) (m1 m2 : M A) :
  stateless m1 -> stateless m2 -> stateless (if b then m1 else m2).
Proof. destruct b; auto. Qed.

Ltac stateless_tac :=
  repeat first
    [ apply stateless_bind; [| intro]
    | apply stateless_if
    | apply stateless_ret
    | apply stateless_lift
    | apply stateless_emits
    | apply stateless_console ].

Lemma stateless_dispatch eventType data : stateless (dispatch eventType data).
Proof.
  unfold dispatch, handleQueued, handleStarted, handleSynthesized, handleUploaded,
    handleDelivered, handleFailed, field, str.
  stateless_tac.
Qed.

Lemma get_truthy data k : truthy data = true -> get data k = Normal (prop data k).
Proof. destruct data; cbn; intros H; try discriminate; reflexivity. Qed.

Lemma printable_shown v : printable v = true -> to_string v = Normal (shown v).
Proof. unfold printable, shown. destruct (to_string v); [reflexivity | discriminate]. Qed.

Example post_delivered :
  post_webhook "12:00:13" Samples.delivered_J1 empty_server
  = (Normal (mkResponse 200
               (JObj [("status", JStr "success");
                      ("message", JStr "Webhook tts_delivered processed");
                      ("job_id", JStr "J1")])),
     mkServer [JObj [("event", JStr "tts_delivered"); ("job_id", JStr "J1");
                     ("status", JStr "completed");
                     ("audio_file_url", JStr "https://x/a.mp3");
                     ("received_at", JStr "12:00:13")]],
     [Console Log (nl ++ "📨 Received webhook: tts_delivered for job J1 (status: completed)");
      Console Log "✅ Job J1 completed successfully!";
      Console Log "   Audio URL: https://x/a.mp3";
      Console Log "   S3 URL: undefined";
      Console Log "   Duration: undefineds";
      Console Log "   Credits used: undefined";
      Console Log "📥 Downloading audio for job J1";
      AxiosGet (JStr "https://x/a.mp3")]).
Proof. reflexivity. Qed.

Example post_failed :
  snd (post_webhook "12:00:10" Samples.failed_J1 empty_server)
  = [Console Log (nl ++ "📨 Received webhook: tts_failed for job J1 (status: failed)");
     Console Error "❌ Job J1 failed: synthesis error"].
Proof. reflexivity. Qed.

Example post_empty_object :
  post_webhook "12:00:00" (JObj []) empty_server
  = (Normal (mkResponse 200
               (JObj [("status", JStr "success");
                      ("message", JStr "Webhook unknown processed");
                      ("job_id", JStr "unknown")])),
     mkServer [JObj [("received_at", JStr "12:00:00")]],
     [Console Log (nl ++ "📨 Received webhook: unknown for job unknown (status: unknown)");
      Console Warn "⚠️  Unknown event type: unknown"]).
Proof. reflexivity. Qed.

(** A falsy body: 400, nothing stored, nothing dispatched. *)
Lemma post_webhook_no_data t data s :
  truthy data = false ->
  post_webhook t data s =
    (Normal (mkResponse 400 (JObj [("error", JStr "No data provided")])), s,
     [Console Warn "Received webhook with no data"]).
Proof.
  intros H. unfold post_webhook, try_catch, bind. rewrite H. reflexivity.
Qed.

(** A truthy body whose envelope prints: stored, dispatched, and answered
    200 or, when the handler throws, 500. *)
Lemma post_webhook_logged t data s :
  truthy data = true -> envelope_prints data = true ->
  post_webhook t data s =
    match dispatched data with
    | (Normal _, td) =>
        (Normal (success data), mkServer (webhookEvents s +++ [entry t data]),
         Console Log (received_line data) :: td)
    | (Throw e, td) =>
        (Normal (failure e), mkServer (webhookEvents s +++ [entry t data]),
         Console Log (received_line data) :: td +++ [failure_line e])
    end.
Proof.
  intros Ht He. unfold envelope_prints in He.
  apply andb_prop in He as [He Hs]. apply andb_prop in He as [He Hj].
  apply printable_shown in He, Hj, Hs.
  unfold post_webhook, try_catch, bind, field, str, lift, dispatched.
  rewrite Ht. cbn [negb].
  rewrite !(get_truthy _ _ Ht).
  fold (eventType_of data) (jobId_of data) (status_of data).
  rewrite He, Hj, Hs. cbn [console emit push webhookEvents].
  rewrite (stateless_dispatch (eventType_of data) data _).
  destruct (dispatch (eventType_of data) data empty_server) as [[[u | e] s0] td];
    cbn [fst snd ret app]; rewrite ?app_nil_r; reflexivity.
Qed.

(** A truthy body whose envelope does not print: 500 before anything is
    stored. *)
Lemma post_webhook_unprintable t data :
  truthy data = true -> envelope_prints data = false ->
  exists e, forall s, post_webhook t data s = (Normal (failure e), s, [failure_line e]).
Proof.
  intros Ht He. unfold envelope_prints, printable in He.
  unfold post_webhook, try_catch, bind, field, str, lift.
  rewrite Ht. cbn [negb].
  rewrite !(get_truthy _ _ Ht).
  fold (eventType_of data) (jobId_of data) (status_of data).
  destruct (to_string (eventType_of data)) as [e1 | x1]; [| eexists; reflexivity].
  destruct (to_string (jobId_of data)) as [e2 | x2]; [| eexists; reflexivity].
  destruct (to_string (status_of data)) as [e3 | x3]; [discriminate | eexists; reflexivity].
Qed.

Lemma requests_app t1 t2 : requests (t1 +++ t2) = requests t1 +++ requests t2.
Proof. apply filter_app. Qed.

Ltac step_handler :=
  match goal with
  | |- context [get ?d ?k] => destruct (get d k) eqn:?; cbn
  | |- context [to_string ?v] => destruct (to_string v) eqn:?; cbn
  end.

Lemma requests_handleDelivered data s :
  requests (snd (handleDelivered data s)) = [] \/
  (truthy (prop data "audio_file_url") = true /\
   fst (fst (handleDelivered data s)) = Normal tt /\
   requests (snd (handleDelivered data s)) = [AxiosGet (prop data "audio_file_url")]).
Proof.
  unfold handleDelivered, bind, field, str, lift, console, emit, emits, ret, prop.
  destruct (get data "job_id") as [jobId |] eqn:Ej; cbn; [| now left].
  destruct (get data "audio_file_url") as [audioUrl |] eqn:Ea; cbn; [| now left].
  destruct (get data "s3_url") as [s3Url |]; cbn; [| now left].
  destruct (get data "credits_used") as [creditsUsed |]; cbn; [| now left].
  destruct (get data "duration_seconds") as [duration |]; cbn; [| now left].
  destruct (to_string jobId) as [j |] eqn:Sj; cbn; [| now left].
  destruct (to_string audioUrl); cbn; [| now left].
  destruct (to_string s3Url); cbn; [| now left].
  destruct (to_string duration); cbn; [| now left].
  destruct (to_string creditsUsed); cbn; [| now left].
  destruct (truthy audioUrl) eqn:Tu; cbn; [| now left].
  right. unfold downloadAudio_start. rewrite Sj. cbn. auto.
Qed.

Lemma requests_dispatch data s :
  requests (snd (dispatch (eventType_of data) data s)) =
    (if starts_download data then requests (snd (handleDelivered data s)) else []).
Proof.
  unfold starts_download, dispatch.
  destruct (strict_eq_string (eventType_of data) "tts_queued") eqn:E1.
  { destruct (eventType_of data); try discriminate. cbn in E1.
    apply String.eqb_eq in E1; subst. cbn.
    unfold handleQueued, bind, field, str, lift, console, emit.
    repeat step_handler; reflexivity. }
  destruct (strict_eq_string (eventType_of data) "tts_started") eqn:E2.
  { destruct (eventType_of data); try discriminate. cbn in E2.
    apply String.eqb_eq in E2; subst. cbn.
    unfold handleStarted, bind, field, str, lift, console, emit.
    repeat step_handler; reflexivity. }
  destruct (strict_eq_string (eventType_of data) "tts_synthesized") eqn:E3.
  { destruct (eventType_of data); try discriminate. cbn in E3.
    apply String.eqb_eq in E3; subst. cbn.
    unfold handleSynthesized, bind, field, str, lift, console, emit.
    repeat step_handler; reflexivity. }
  destruct (strict_eq_string (eventType_of data) "tts_uploaded") eqn:E4.
  { destruct (eventType_of data); try discriminate. cbn in E4.
    apply String.eqb_eq in E4; subst. cbn.
    unfold handleUploaded, bind, field, str, lift, console, emit.
    repeat step_handler; reflexivity. }
  destruct (strict_eq_string (eventType_of data) "tts_delivered") eqn:E5.
  { cbn. destruct (truthy (prop data "audio_file_url")) eqn:Tu; [reflexivity |].
    destruct (requests_handleDelivered data s) as [H | (H & _)];
      [exact H | rewrite H in Tu; discriminate]. }
  destruct (strict_eq_string (eventType_of data) "tts_failed") eqn:E6.
  { cbn. unfold handleFailed, bind, field, str, lift, console, emit.
    repeat step_handler; reflexivity. }
  cbn. unfold bind, str, lift, console, emit.
  repeat step_handler; reflexivity.
Qed.

(** The route always answers: its try/catch leaves no exception. *)
Lemma post_webhook_answers t data s :
  exists r, fst (fst (post_webhook t data s)) = Normal r.
Proof.
  destruct (truthy data) eqn:Ht.
  - destruct (envelope_prints data) eqn:He.
    + rewrite (post_webhook_logged _ _ _ Ht He).
      destruct (dispatched data) as [[u | e] td]; eexists; reflexivity.
    + destruct (post_webhook_unprintable t data Ht He) as [e ->]. eexists; reflexivity.
  - rewrite (post_webhook_no_data _ _ _ Ht). eexists; reflexivity.
Qed.

(** One request appends its entry exactly when it is [logged]; what was
    stored before stays as it was. *)
Lemma post_webhook_store t data s :
  webhookEvents (store (post_webhook t data s)) =
    webhookEvents s +++ (if logged data then [entry t data] else []).
Proof.
  unfold logged, store.
  destruct (truthy data) eqn:Ht; cbn [andb].
  - destruct (envelope_prints data) eqn:He.
    + rewrite (post_webhook_logged _ _ _ Ht He).
      destruct (dispatched data) as [[u | e] td]; reflexivity.
    + destruct (post_webhook_unprintable t data Ht He) as [e ->].
      cbn. now rewrite app_nil_r.
  - rewrite (post_webhook_no_data _ _ _ Ht). cbn. now rewrite app_nil_r.
Qed.

Lemma requests_post_webhook t data s :
  requests (snd (post_webhook t data s)) =
    (if logged data && starts_download data
     then requests (snd (handleDelivered data empty_server)) else []).
Proof.
  unfold logged.
  destruct (truthy data) eqn:Ht; cbn [andb].
  - destruct (envelope_prints data) eqn:He; cbn [andb].
    + rewrite (post_webhook_logged _ _ _ Ht He). unfold dispatched.
      pose proof (requests_dispatch data empty_server) as Hd.
      destruct (dispatch (eventType_of data) data empty_server) as [[[u | e] s0] td];
        cbn [fst snd] in *.
      * exact Hd.
      * change (Console Log (received_line data) :: td +++ [failure_line e])
          with ([Console Log (received_line data)] +++ td +++ [failure_line e]).
        rewrite !requests_app. cbn. rewrite app_nil_r. exact Hd.
    + destruct (post_webhook_unprintable t data Ht He) as [e ->]. reflexivity.
  - rewrite (post_webhook_no_data _ _ _ Ht). reflexivity.
Qed.

Lemma deliver_store posts : forall s,
  webhookEvents (store (deliver posts s)) = webhookEvents s +++ entries posts.
Proof.
  induction posts as [| [t data] rest IH]; intros s.
  - cbn. now rewrite app_nil_r.
  - cbn [deliver]. unfold bind, store.
    pose proof (post_webhook_store t data s) as Hs. unfold store in Hs.
    destruct (post_webhook_answers t data s) as [r Hr].
    destruct (post_webhook t data s) as [[c s1] t1]. cbn [fst snd] in *. subst c.
    specialize (IH s1). unfold store in IH.
    destruct (deliver rest s1) as [[[rs | e] s2] t2]; cbn [fst snd ret] in *;
      rewrite IH, Hs; unfold entries; cbn [filter fst snd];
      destruct (logged data); cbn [map app fst snd];
      now rewrite <- ?app_assoc, ?app_nil_r.
Qed.

Lemma deliver_requests posts : forall s,
  requests (snd (deliver posts s)) =
    flat_map (fun p => requests (snd (post_webhook (fst p) (snd p) empty_server))) posts.
Proof.
  induction posts as [| [t data] rest IH]; intros s.
  - reflexivity.
  - cbn [deliver flat_map fst snd]. unfold bind.
    pose proof (requests_post_webhook t data s) as Hq.
    rewrite (requests_post_webhook t data empty_server).
    destruct (post_webhook_answers t data s) as [r Hr].
    destruct (post_webhook t data s) as [[c s1] t1]. cbn [fst snd] in *. subst c.
    specialize (IH s1).
    destruct (deliver rest s1) as [[[rs | e] s2] t2]; cbn [fst snd ret] in *;
      rewrite ?app_nil_r, requests_app, IH, Hq; reflexivity.
Qed.

(** *** Bodies whose fields all convert to strings *)

Lemma lookup_In k props v : lookup k props = Some v -> In (k, v) props.
Proof.
  induction props as [| [k' v'] rest IH]; cbn; [discriminate |].
  destruct (String.eqb k k') eqn:E.
  - apply String.eqb_eq in E. subst. intros [= ->]. now left.
  - intros H. right. auto.
Qed.

Lemma fields_print_prop data k : fields_print data = true -> printable (prop data k) = true.
Proof.
  unfold fields_print, prop. intros H.
  destruct data; cbn; try reflexivity.
  destruct (lookup k props) as [v |] eqn:E; [| reflexivity].
  apply lookup_In in E. cbn in H. rewrite forallb_forall in H.
  exact (H _ E).
Qed.

Lemma printable_or v d : printable v = true -> printable (JStr d) = true ->
  printable (js_or v (JStr d)) = true.
Proof. unfold js_or. destruct (truthy v); auto. Qed.

Lemma fields_print_envelope data : fields_print data = true -> envelope_prints data = true.
Proof.
  intros H. unfold envelope_prints, eventType_of, jobId_of, status_of.
  rewrite !printable_or; auto using fields_print_prop.
Qed.

Ltac run_handler Ht Hf :=
  unfold bind, field, str, lift, console, emit;
  rewrite ?(get_truthy _ _ Ht);
  repeat (rewrite (printable_shown _ (fields_print_prop _ _ Hf)); cbn [app]).

Lemma handleDelivered_prints data s :
  truthy data = true -> fields_print data = true ->
  handleDelivered data s =
    (Normal tt, s,
     delivered_lines data +++
     (if truthy (prop data "audio_file_url")
      then [Console Log ("📥 Downloading audio for job " ++ shown (prop data "job_id"));
            AxiosGet (prop data "audio_file_url")]
      else [])).
Proof.
  intros Ht Hf. unfold handleDelivered, delivered_lines.
  run_handler Ht Hf.
  destruct (truthy (prop data "audio_file_url")); cbn; [| reflexivity].
  unfold downloadAudio_start.
  rewrite (printable_shown _ (fields_print_prop _ "job_id" Hf)). reflexivity.
Qed.

Lemma handleFailed_prints data s :
  truthy data = true -> fields_print data = true ->
  handleFailed data s = (Normal tt, s, [failed_line data]).
Proof.
  intros Ht Hf. unfold handleFailed, failed_line.
  run_handler Ht Hf.
  rewrite (printable_shown (js_or _ _)); [reflexivity |].
  apply printable_or; [now apply fields_print_prop | reflexivity].
Qed.

(** With printable fields no handler throws. *)
Lemma dispatch_prints data :
  truthy data = true -> fields_print data = true ->
  exists td, dispatched data = (Normal tt, td).
Proof.
  intros Ht Hf. unfold dispatched, dispatch.
  destruct (strict_eq_string (eventType_of data) "tts_queued").
  { unfold handleQueued. run_handler Ht Hf. eexists; reflexivity. }
  destruct (strict_eq_string (eventType_of data) "tts_started").
  { unfold handleStarted. run_handler Ht Hf. eexists; reflexivity. }
  destruct (strict_eq_string (eventType_of data) "tts_synthesized").
  { unfold handleSynthesized. run_handler Ht Hf. eexists; reflexivity. }
  destruct (strict_eq_string (eventType_of data) "tts_uploaded").
  { unfold handleUploaded. run_handler Ht Hf. eexists; reflexivity. }
  destruct (strict_eq_string (eventType_of data) "tts_delivered").
  { rewrite (handleDelivered_prints _ _ Ht Hf). eexists; reflexivity. }
  destruct (strict_eq_string (eventType_of data) "tts_failed").
  { rewrite (handleFailed_prints _ _ Ht Hf). eexists; reflexivity. }
  pose proof (fields_print_envelope _ Hf) as He. unfold envelope_prints in He.
  apply andb_prop in He as [He _]. apply andb_prop in He as [He _].
  unfold bind, str, lift, console, emit.
  rewrite (printable_shown _ He). eexists; reflexivity.
Qed.

(** A truthy body with printable fields is stored and answered 200. *)
Lemma post_webhook_prints t data s :
  truthy data = true -> fields_print data = true ->
  post_webhook t data s =
    (Normal (success data), mkServer (webhookEvents s +++ [entry t data]),
     Console Log (received_line data) :: snd (dispatched data)).
Proof.
  intros Ht Hf.
  rewrite (post_webhook_logged _ _ _ Ht (fields_print_envelope _ Hf)).
  destruct (dispatch_prints _ Ht Hf) as [td ->]. reflexivity.
Qed.

(** *** Duplicate deliveries *)

(** C1, counterexample: the same [tts_delivered] event delivered twice starts
    two downloads, not one. *)
Lemma same_event_twice_downloads_twice :
  requests (snd (deliver [("12:00:13", Samples.delivered_J1);
                          ("12:00:14", Samples.delivered_J1)] empty_server))
    = [AxiosGet Samples.audio_url; AxiosGet Samples.audio_url]
  /\ List.length
       (requests (snd (deliver [("12:00:13", Samples.delivered_J1);
                                ("12:00:14", Samples.delivered_J1)] empty_server)))
     <> 1.
Proof. split; [reflexivity | cbn; lia]. Qed.

Lemma flat_map_const {A B} (l : list A) (x : B) :
  flat_map (fun _ => [x]) l = repeat x (List.length l).
Proof. induction l; cbn; congruence. Qed.

(** C1, as the code has it: a [tts_delivered] body with a truthy
    [audio_file_url] and printable fields, delivered N times (with whatever
    reception times, on whatever store), starts N downloads of that URL and
    adds N entries to the store: one per delivery, none suppressed. *)
Theorem every_delivery_downloads data stamps s :
  truthy data = true -> fields_print data = true -> starts_download data = true ->
  let run := deliver (map (fun t => (t, data)) stamps) s in
  requests (snd run) = repeat (AxiosGet (prop data "audio_file_url")) (List.length stamps)
  /\ webhookEvents (store run) = webhookEvents s +++ map (fun t => entry t data) stamps.
Proof.
  intros Ht Hf Hd run. subst run. split.
  - rewrite deliver_requests, flat_map_concat_map, map_map, <- flat_map_concat_map.
    cbn [fst snd].
    rewrite <- (length_map (fun t => (t, data)) stamps) at 1.
    rewrite length_map.
    rewrite <- flat_map_const. apply flat_map_ext. intros t.
    rewrite requests_post_webhook. unfold logged.
    rewrite Ht, (fields_print_envelope _ Hf), Hd. cbn [andb].
    rewrite (handleDelivered_prints _ _ Ht Hf).
    apply andb_prop in Hd as [_ Hu]. rewrite Hu. reflexivity.
  - rewrite deliver_store. f_equal. unfold entries.
    induction stamps as [| t rest IH]; [reflexivity |].
    cbn [map filter fst snd]. unfold logged at 1.
    rewrite Ht, (fields_print_envelope _ Hf). cbn [andb map fst snd]. now rewrite IH.
Qed.

Lemma every_delivery_downloads_witness :
  requests (snd (deliver (map (fun t => (t, Samples.delivered_J1)) ["a"; "b"; "c"])
                         empty_server))
    = repeat (AxiosGet Samples.audio_url) 3.
Proof.
  exact (proj1 (every_delivery_downloads Samples.delivered_J1 ["a"; "b"; "c"] empty_server
                  eq_refl eq_refl eq_refl)).
Defined.

(** *** Events after a terminal event *)

(** C2, counterexample: after [tts_failed] has been recorded for job J1, a
    later [tts_delivered] for J1 is stored like any other event, is returned
    by GET /events/J1 after the failure, and starts the download. *)
Lemma completed_after_failed_is_processed :
  let s1 := store (post_webhook "12:00:10" Samples.failed_J1 empty_server) in
  let r := post_webhook "12:00:13" Samples.delivered_J1 s1 in
  get_events_job "J1" (store r)
    = JArr [entry "12:00:10" Samples.failed_J1; entry "12:00:13" Samples.delivered_J1]
  /\ requests (snd r) = [AxiosGet Samples.audio_url]
  /\ webhookEvents (store r) <> webhookEvents s1.
Proof. cbn. repeat split; discriminate. Qed.

(** C2, as the code has it: the route handles a request without looking at
    what was stored before.  Whatever the store holds (a [tts_failed] entry
    for the same job included), the response and the side effects are those
    given on an empty store, and what the request stores is put after the
    existing entries, which stay as they were. *)
Theorem earlier_events_never_gate_later_ones t data s :
  fst (fst (post_webhook t data s)) = fst (fst (post_webhook t data empty_server))
  /\ snd (post_webhook t data s) = snd (post_webhook t data empty_server)
  /\ webhookEvents (store (post_webhook t data s))
     = webhookEvents s +++ webhookEvents (store (post_webhook t data empty_server)).
Proof.
  destruct (truthy data) eqn:Ht.
  - destruct (envelope_prints data) eqn:He.
    + rewrite !(post_webhook_logged _ _ _ Ht He).
      destruct (dispatched data) as [[u | e] td]; repeat split.
    + destruct (post_webhook_unprintable t data Ht He) as [e Hs].
      rewrite !Hs. cbn. rewrite app_nil_r. repeat split.
  - rewrite !(post_webhook_no_data _ _ _ Ht). cbn. rewrite app_nil_r. repeat split.
Qed.

(** *** Unrecognized event types *)

(** C5, counterexample: a body whose [event] holds the unrecognized value
    parsed from [{"toString": 1}] is answered 500: the first log line throws
    while converting it, before anything is stored. *)
Lemma unprintable_event_is_answered_500 :
  post_webhook "12:00:00" Samples.odd_event empty_server
  = (Normal (failure cannot_convert), empty_server, [failure_line cannot_convert])
  /\ recognized (eventType_of Samples.odd_event) = false
  /\ status_code (failure cannot_convert) = 500.
Proof. repeat split. Qed.

(** C5, as the code has it: a truthy body whose [event], [job_id] and
    [status] convert to strings and whose event type has no [case] of its own
    is logged, warned about, stored, and acknowledged with the 200 success
    response; no handler runs, so nothing else happens. *)
Theorem unknown_event_is_acknowledged t data s :
  truthy data = true -> envelope_prints data = true ->
  recognized (eventType_of data) = false ->
  post_webhook t data s =
    (Normal (success data), mkServer (webhookEvents s +++ [entry t data]),
     [Console Log (received_line data);
      Console Warn ("⚠️  Unknown event type: " ++ shown (eventType_of data))])
  /\ status_code (success data) = 200.
Proof.
  intros Ht He Hr. split; [| reflexivity].
  rewrite (post_webhook_logged _ _ _ Ht He). unfold dispatched, dispatch.
  unfold recognized in Hr. repeat (apply orb_false_elim in Hr as [Hr ?H]).
  rewrite Hr, H3, H2, H1, H0, H.
  unfold envelope_prints in He.
  apply andb_prop in He as [He _]. apply andb_prop in He as [He _].
  unfold bind, str, lift, console, emit.
  rewrite (printable_shown _ He). reflexivity.
Qed.

Lemma unknown_event_is_acknowledged_witness :
  fst (fst (post_webhook "12:00:00" Samples.archived_J1 empty_server))
  = Normal (success Samples.archived_J1).
Proof.
  exact (f_equal (fun r => fst (fst r))
           (proj1 (unknown_event_is_acknowledged "12:00:00" Samples.archived_J1
                     empty_server eq_refl eq_refl eq_refl))).
Defined.

(** *** Rejection and acknowledgement *)

(** C6, counterexample: a [tts_delivered] body with neither [job_id] nor
    [status] is not rejected: it is stored, reaches [handleDelivered], starts
    the download, and is answered 200 with [job_id] defaulted to ['unknown']. *)
Lemma body_missing_fields_is_accepted :
  let r := post_webhook "12:00:00" Samples.bare_delivered empty_server in
  fst (fst r)
    = Normal (mkResponse 200
                (JObj [("status", JStr "success");
                       ("message", JStr "Webhook tts_delivered processed");
                       ("job_id", JStr "unknown")]))
  /\ webhookEvents (store r) = [entry "12:00:00" Samples.bare_delivered]
  /\ requests (snd r) = [AxiosGet Samples.audio_url].
Proof. repeat split. Qed.

(** C6, as the code has it: the only body rejected with a client error
    is a falsy one ([!data]): 400, nothing stored, nothing dispatched.  A
    truthy body is never answered 400, whichever fields it lacks; when its
    fields convert to strings it is stored, dispatched and answered 200, with
    a missing [event], [job_id] or [status] read as ['unknown']. *)
Theorem only_a_falsy_body_is_rejected t data s :
  (truthy data = false ->
     post_webhook t data s =
       (Normal (mkResponse 400 (JObj [("error", JStr "No data provided")])), s,
        [Console Warn "Received webhook with no data"]))
  /\ (truthy data = true ->
      exists r, fst (fst (post_webhook t data s)) = Normal r /\ status_code r <> 400)
  /\ (truthy data = true -> fields_print data = true ->
      fst (fst (post_webhook t data s)) = Normal (success data)
      /\ status_code (success data) = 200
      /\ webhookEvents (store (post_webhook t data s)) = webhookEvents s +++ [entry t data]).
Proof.
  split; [| split].
  - apply post_webhook_no_data.
  - intros Ht. destruct (envelope_prints data) eqn:He.
    + rewrite (post_webhook_logged _ _ _ Ht He).
      destruct (dispatched data) as [[u | e] td]; eexists; (split; [reflexivity |]);
        cbn; discriminate.
    + destruct (post_webhook_unprintable t data Ht He) as [e ->].
      eexists; (split; [reflexivity |]); cbn; discriminate.
  - intros Ht Hf. rewrite (post_webhook_prints _ _ _ Ht Hf). repeat split.
Qed.

Lemma only_a_falsy_body_is_rejected_witness :
  post_webhook "12:00:00" JNull empty_server =
    (Normal (mkResponse 400 (JObj [("error", JStr "No data provided")])), empty_server,
     [Console Warn "Received webhook with no data"])
  /\ fst (fst (post_webhook "12:00:00" (JObj []) empty_server)) = Normal (success (JObj [])).
Proof.
  split.
  - exact (proj1 (only_a_falsy_body_is_rejected "12:00:00" JNull empty_server) eq_refl).
  - exact (proj1 (proj2 (proj2 (only_a_falsy_body_is_rejected "12:00:00" (JObj [])
                                  empty_server)) eq_refl eq_refl)).
Defined.

(** *** The event log *)

Lemma lookup_set_prop_other k k' v props :
  String.eqb k k' = false -> lookup k (set_prop k' v props) = lookup k props.
Proof.
  intros Hk. induction props as [| [k0 v0] rest IH]; cbn.
  - now rewrite Hk.
  - destruct (String.eqb k' k0) eqn:E; cbn.
    + apply String.eqb_eq in E. subst k0. now rewrite Hk.
    + now rewrite IH.
Qed.

(** An index key is never the name [job_id]. *)
Lemma job_id_not_an_index n : String.eqb "job_id" (show_Z (Z.of_nat n)) = false.
Proof.
  unfold show_Z. destruct (Z.of_nat n) as [| q | q]; cbn; try reflexivity.
  destruct (Pos.to_uint q); reflexivity.
Qed.

Lemma lookup_job_id_index_props l : forall i, lookup "job_id" (index_props i l) = None.
Proof.
  induction l as [| x rest IH]; intros i; cbn [index_props lookup]; [reflexivity |].
  now rewrite job_id_not_an_index, IH.
Qed.

(** The [job_id] of a stored entry is the [job_id] of the body. *)
Lemma job_id_of_entry t data jobId :
  truthy data = true ->
  job_id_is jobId (entry t data) = strict_eq_string (prop data "job_id") jobId.
Proof.
  intros Ht. unfold job_id_is, entry, prop. cbn [get].
  rewrite lookup_set_prop_other by reflexivity.
  destruct data; cbn [spread get lookup]; try reflexivity; try discriminate.
  - now rewrite lookup_job_id_index_props.
  - now rewrite lookup_job_id_index_props.
Qed.

(** A body without a [received_at] of its own is stored with the timestamp
    added after its fields. *)
Lemma set_prop_fresh k v props :
  has_own k props = false -> set_prop k v props = props +++ [(k, v)].
Proof.
  unfold has_own. induction props as [| [k' v'] rest IH]; cbn; [reflexivity |].
  destruct (String.eqb k k'); [discriminate |]. intros H. now rewrite IH.
Qed.

Lemma filter_entries jobId posts :
  filter (job_id_is jobId) (entries posts)
  = map (fun p => entry (fst p) (snd p)) (filter (kept_for jobId) posts).
Proof.
  unfold entries, kept_for.
  induction posts as [| [t data] rest IH]; [reflexivity |].
  cbn [filter map fst snd].
  destruct (logged data) eqn:Hl; cbn [andb filter map fst snd].
  - rewrite job_id_of_entry by (unfold logged in Hl; now apply andb_prop in Hl).
    destruct (strict_eq_string (prop data "job_id") jobId); cbn [map fst snd];
      now rewrite IH.
  - exact IH.
Qed.

(** C9, counterexample: a body that parses to a non-empty JSON value and is
    answered 500 without being stored; and one that is stored although its
    handler throws and the request is answered 500. *)
Lemma nonempty_body_not_stored :
  truthy Samples.odd_event = true
  /\ webhookEvents (store (post_webhook "12:00:00" Samples.odd_event empty_server)) = []
  /\ get_health (store (post_webhook "12:00:00" Samples.odd_event empty_server))
     = JObj [("status", JStr "healthy"); ("events_received", JNum 0)]
  /\ fst (fst (post_webhook "12:00:01" Samples.queued_odd_position empty_server))
     = Normal (failure cannot_convert)
  /\ get_health (store (post_webhook "12:00:01" Samples.queued_odd_position empty_server))
     = JObj [("status", JStr "healthy"); ("events_received", JNum 1)].
Proof. repeat split. Qed.

(** C9, as the code has it.  For any run of webhook requests on any store:
    - the store afterwards is the store before followed by one entry for each
      request whose body is truthy and whose [event], [job_id] and [status]
      convert to strings, in arrival order (no entry is changed or removed);
    - GET /health reports the length of the store;
    - GET /events/:jobId returns, in arrival order, the earlier entries with
      that [job_id] followed by the entries of the stored requests whose body
      has that string as [job_id];
    - the entry of a body is its fields with [received_at] set, added last
      when the body has no [received_at] of its own. *)
Theorem event_log_is_append_only posts s :
  let s' := store (deliver posts s) in
  webhookEvents s' = webhookEvents s +++ entries posts
  /\ List.length (entries posts) = List.length (filter (fun p => logged (snd p)) posts)
  /\ get_health s'
     = JObj [("status", JStr "healthy");
             ("events_received",
              JNum (Z.of_nat (List.length (webhookEvents s)
                              + List.length (filter (fun p => logged (snd p)) posts))))]
  /\ (forall jobId,
        get_events_job jobId s'
        = JArr (filter (job_id_is jobId) (webhookEvents s)
                +++ map (fun p => entry (fst p) (snd p)) (filter (kept_for jobId) posts)))
  /\ (forall t props, has_own "received_at" props = false ->
        entry t (JObj props) = JObj (props +++ [("received_at", JStr t)])).
Proof.
  intros s'. subst s'.
  assert (Hlen : List.length (entries posts)
                 = List.length (filter (fun p => logged (snd p)) posts))
    by (unfold entries; apply length_map).
  repeat split.
  - apply deliver_store.
  - exact Hlen.
  - unfold get_health. rewrite deliver_store, length_app, Hlen. reflexivity.
  - intros jobId. unfold get_events_job.
    rewrite deliver_store, filter_app, filter_entries. reflexivity.
  - intros t props H. unfold entry. cbn [spread]. now rewrite set_prop_fresh.
Qed.

Lemma event_log_is_append_only_witness :
  entry "12:00:13" Samples.delivered_J1
  = JObj [("event", JStr "tts_delivered"); ("job_id", JStr "J1");
          ("status", JStr "completed"); ("audio_file_url", Samples.audio_url);
          ("received_at", JStr "12:00:13")].
Proof.
  exact (proj2 (proj2 (proj2 (proj2
           (event_log_is_append_only [] empty_server))))
           "12:00:13"
           [("event", JStr "tts_delivered"); ("job_id", JStr "J1");
            ("status", JStr "completed"); ("audio_file_url", Samples.audio_url)]
           eq_refl).
Defined.

(** *** The download test of [handleDelivered] *)

(** C10, counterexample: a [tts_delivered] body whose [audio_file_url] is
    present and truthy, and no download: the handler throws while printing
    the URL, before its [if (audioUrl)], and the request is answered 500. *)
Lemma truthy_url_without_download :
  let r := post_webhook "12:00:13" Samples.delivered_odd_url empty_server in
  truthy (prop Samples.delivered_odd_url "audio_file_url") = true
  /\ strict_eq_string (eventType_of Samples.delivered_odd_url) "tts_delivered" = true
  /\ requests (snd r) = []
  /\ fst (fst r) = Normal (failure cannot_convert).
Proof. repeat split. Qed.

(** C10, as the code has it.  Without a truthy [audio_file_url] no request
    starts a download, whatever its body.  A [tts_delivered] body that is
    truthy and whose fields convert to strings starts exactly one download,
    of that URL, when [audio_file_url] is truthy, and none otherwise. *)
Theorem download_iff_truthy_audio_url t data s :
  (truthy (prop data "audio_file_url") = false -> requests (snd (post_webhook t data s)) = [])
  /\ (truthy data = true -> fields_print data = true ->
      strict_eq_string (eventType_of data) "tts_delivered" = true ->
      requests (snd (post_webhook t data s))
      = if truthy (prop data "audio_file_url")
        then [AxiosGet (prop data "audio_file_url")] else []).
Proof.
  split.
  - intros Hu. rewrite requests_post_webhook. unfold starts_download. rewrite Hu.
    now rewrite !andb_false_r.
  - intros Ht Hf He. rewrite requests_post_webhook. unfold logged, starts_download.
    rewrite Ht, (fields_print_envelope _ Hf), He. cbn [andb].
    rewrite (handleDelivered_prints _ _ Ht Hf).
    destruct (truthy (prop data "audio_file_url")); reflexivity.
Qed.

Lemma download_iff_truthy_audio_url_witness :
  requests (snd (post_webhook "12:00:13" Samples.delivered_J1 empty_server))
  = [AxiosGet Samples.audio_url]
  /\ requests (snd (post_webhook "12:00:10" Samples.failed_J1 empty_server)) = [].
Proof.
  split.
  - exact (proj2 (download_iff_truthy_audio_url "12:00:13" Samples.delivered_J1 empty_server)
             eq_refl eq_refl eq_refl).
  - exact (proj1 (download_iff_truthy_audio_url "12:00:10" Samples.failed_J1 empty_server)
             eq_refl).
Defined.

(** *** [tts_failed] *)

(** A [tts_failed] request starts no download; with printable fields it logs
    the error message, or ['Unknown error'] when there is none. *)
Lemma failed_event_handling t data s :
  strict_eq_string (eventType_of data) "tts_failed" = true ->
  requests (snd (post_webhook t data s)) = []
  /\ (truthy data = true -> fields_print data = true ->
      snd (post_webhook t data s) = [Console Log (received_line data); failed_line data]).
Proof.
  intros He.
  assert (Hev : exists x, eventType_of data = JStr x /\ x = "tts_failed").
  { destruct (eventType_of data); try discriminate. cbn in He.
    apply String.eqb_eq in He. eauto. }
  destruct Hev as (x & Hx & ->).
  split.
  - rewrite requests_post_webhook. unfold starts_download. rewrite Hx. cbn.
    now rewrite andb_false_r.
  - intros Ht Hf. rewrite (post_webhook_prints _ _ _ Ht Hf).
    unfold dispatched. rewrite Hx.
    change (dispatch (JStr "tts_failed") data) with (handleFailed data).
    now rewrite (handleFailed_prints _ _ Ht Hf).
Qed.

End WebhookFacts.

(* ================================================================== *)
(** ** Properties of the client's [waitForJob]                         *)
(* ================================================================== *)

Module ClientFacts.
Import JS Client.

Section Wait.
Variables (w : world) (jobId : string) (timeout startTime timeoutMs pollIntervalMs : Z).

(** Once a reading of the clock is past the deadline, the loop has settled
    by then. *)
Lemma wait_loop_finishes n : forall i,
  (timeoutMs <= now w (S (i + n)) - startTime)%Z ->
  exists r t,
    wait_loop (S n) w jobId timeout startTime timeoutMs pollIntervalMs i = (Some r, t).
Proof.
  induction n as [| n IH]; intros i Hpast.
  - rewrite Nat.add_0_r in Hpast. cbn [wait_loop].
    destruct (Z.ltb_spec (now w (S i) - startTime) timeoutMs); [lia |].
    eauto.
  - remember (S n) as m. cbn [wait_loop]. subst m.
    destruct (now w (S i) - startTime <? timeoutMs)%Z; [| eauto].
    destruct (getJobStatus w jobId i) as [status | e]; [| eauto].
    destruct (get status "status") as [st | e]; [| eauto].
    destruct (is_terminal st); [eauto |].
    destruct (to_string (js_or st (JStr "unknown"))) as [shown | e]; [| eauto].
    destruct (IH (S i)) as (r & t & ->).
    { replace (S i + n) with (i + S n) by lia. exact Hpast. }
    eauto.
Qed.

(** Every pause of the loop lasts [pollIntervalMs]. *)
Lemma wait_loop_pauses steps : forall i ms,
  In (SetTimeout ms)
     (snd (wait_loop steps w jobId timeout startTime timeoutMs pollIntervalMs i)) ->
  ms = pollIntervalMs.
Proof.
  induction steps as [| steps IH]; intros i ms; cbn [wait_loop]; [intros [] |].
  destruct (now w (S i) - startTime <? timeoutMs)%Z; [| intros []].
  destruct (getJobStatus w jobId i) as [status | e]; [| cbn; intuition discriminate].
  destruct (get status "status") as [st | e]; [| cbn; intuition discriminate].
  destruct (is_terminal st); [cbn; intuition discriminate |].
  destruct (to_string (js_or st (JStr "unknown"))) as [shown | e];
    [| cbn; intuition discriminate].
  specialize (IH (S i) ms).
  destruct (wait_loop steps w jobId timeout startTime timeoutMs pollIntervalMs (S i))
    as [r' t'].
  cbn. intros [H | [H | [H | H]]]; try discriminate; [congruence | auto].
Qed.

End Wait.

Example wait_for_a_failing_job :
  waitForJob 10 fails_third "J1" default_timeout default_pollInterval
  = (Some (Normal (status_body "failed")),
     [StatusQuery "J1"; ConsoleLog "Job J1 status: processing"; SetTimeout 2000;
      StatusQuery "J1"; ConsoleLog "Job J1 status: processing"; SetTimeout 2000;
      StatusQuery "J1"]).
Proof. reflexivity. Qed.

Example wait_times_out :
  waitForJob 10 (mkWorld ticking (fun _ _ => Normal (status_body "processing"))) "J1" 2 1
  = (Some (Throw (timeout_error "J1" 2)),
     [StatusQuery "J1"; ConsoleLog "Job J1 status: processing"; SetTimeout 1000]).
Proof. reflexivity. Qed.

Example timeout_message :
  err_message (timeout_error "J1" 300) = "Job J1 did not complete within 300 seconds".
Proof. reflexivity. Qed.

(** C3, counterexample: the first status query fails with a network error;
    the promise is rejected with that error at once: no terminal status, and
    no timeout either (nothing has elapsed). *)
Lemma query_error_rejects_the_wait :
  waitForJob 10 unreachable "J1" default_timeout default_pollInterval
  = (Some (Throw network_error), [StatusQuery "J1"])
  /\ network_error <> timeout_error "J1" default_timeout.
Proof. split; [reflexivity | discriminate]. Qed.

End ClientFacts.

(* ================================================================== *)
(** ** Properties of the polling script                                *)
(* ================================================================== *)

Module PollScriptFacts.
Import PollScript.

Section Loop.
Variables (w : world) (JOB_ID : string) (max interval : nat).

Lemma queries_app t1 t2 : queries (t1 +++ t2) = queries t1 +++ queries t2.
Proof. apply filter_app. Qed.

Lemma sleeps_app t1 t2 : sleeps (t1 +++ t2) = sleeps t1 +++ sleeps t2.
Proof. apply filter_app. Qed.

Lemma downloads_app t1 t2 : downloads (t1 +++ t2) = downloads t1 +++ downloads t2.
Proof. apply filter_app. Qed.

Lemma queries_opt_line x line : queries (opt_line x line) = [].
Proof. unfold opt_line. now destruct (present x). Qed.

Lemma sleeps_opt_line x line : sleeps (opt_line x line) = [].
Proof. unfold opt_line. now destruct (present x). Qed.

Lemma downloads_opt_line x line : downloads (opt_line x line) = [].
Proof. unfold opt_line. now destruct (present x). Qed.

Lemma queries_completed v : queries (completed_branch w JOB_ID v) = [].
Proof.
  unfold completed_branch. rewrite !queries_app, !queries_opt_line.
  destruct (present (AUDIO_URL v)); [| reflexivity].
  destruct (curl_download_ok w); [destruct (du w) |]; reflexivity.
Qed.

Lemma sleeps_completed v : sleeps (completed_branch w JOB_ID v) = [].
Proof.
  unfold completed_branch. rewrite !sleeps_app, !sleeps_opt_line.
  destruct (present (AUDIO_URL v)); [| reflexivity].
  destruct (curl_download_ok w); [destruct (du w) |]; reflexivity.
Qed.

Lemma queries_failed v : queries (failed_branch v) = [].
Proof. unfold failed_branch. now rewrite queries_app, queries_opt_line. Qed.

Lemma sleeps_failed v : sleeps (failed_branch v) = [].
Proof. unfold failed_branch. now rewrite sleeps_app, sleeps_opt_line. Qed.

Lemma downloads_failed v : downloads (failed_branch v) = [].
Proof. unfold failed_branch. now rewrite downloads_app, downloads_opt_line. Qed.

Lemma terminal_cases s :
  terminal s = (String.eqb s "completed" || String.eqb s "failed" || String.eqb s "cancelled").
Proof. reflexivity. Qed.

Lemma queries_head a l t : queries ([CurlStatus a; Echo l] +++ t) = CurlStatus a :: queries t.
Proof. reflexivity. Qed.

Lemma sleeps_head a l t : sleeps ([CurlStatus a; Echo l] +++ t) = sleeps t.
Proof. reflexivity. Qed.

Lemma downloads_head a l t : downloads ([CurlStatus a; Echo l] +++ t) = downloads t.
Proof. reflexivity. Qed.

(** The loop, attempt by attempt: it queries attempts [a0+1 .. a] in order and
    nothing else, pauses [interval] seconds after each attempt that saw no
    terminal status, and stops at the first terminal status or when
    [remaining] attempts are spent. *)
Lemma poll_loop_spec remaining : forall a0,
  let '(l, a, t) := poll_loop w JOB_ID max interval remaining a0 in
  a0 <= a <= a0 + remaining
  /\ queries t = map CurlStatus (seq (a0 + 1) (a - a0))
  /\ (forall j, a0 < j < a -> terminal (STATUS (status_response w j)) = false)
  /\ match l with
     | Exhausted =>
         a = a0 + remaining
         /\ (forall j, a0 < j <= a -> terminal (STATUS (status_response w j)) = false)
         /\ sleeps t = repeat (Sleep interval) remaining
     | Break =>
         a0 < a /\ STATUS (status_response w a) = "completed"
         /\ sleeps t = repeat (Sleep interval) (a - a0 - 1)
     | Exit code =>
         a0 < a /\ code = 1
         /\ (STATUS (status_response w a) = "failed"
             \/ STATUS (status_response w a) = "cancelled")
         /\ sleeps t = repeat (Sleep interval) (a - a0 - 1)
         /\ downloads t = []
     end.
Proof.
  induction remaining as [| remaining IH]; intros a0; cbn [poll_loop].
  - repeat split; try lia. now rewrite Nat.sub_diag.
  - destruct (String.eqb (STATUS (status_response w (a0 + 1))) "completed") eqn:Ec.
    { apply String.eqb_eq in Ec. replace (a0 + 1 - a0) with 1 by lia.
      replace (a0 + 1 - a0 - 1) with 0 by lia.
      rewrite queries_head, sleeps_head, queries_completed, sleeps_completed.
      repeat split; try lia; try assumption; try reflexivity. }
    destruct (String.eqb (STATUS (status_response w (a0 + 1))) "failed") eqn:Ef.
    { apply String.eqb_eq in Ef. replace (a0 + 1 - a0) with 1 by lia.
      replace (a0 + 1 - a0 - 1) with 0 by lia.
      rewrite queries_head, sleeps_head, downloads_head,
        queries_failed, sleeps_failed, downloads_failed.
      repeat split; try lia; auto. }
    destruct (String.eqb (STATUS (status_response w (a0 + 1))) "cancelled") eqn:Ek.
    { apply String.eqb_eq in Ek. replace (a0 + 1 - a0) with 1 by lia.
      replace (a0 + 1 - a0 - 1) with 0 by lia.
      repeat split; try lia; auto. }
    specialize (IH (a0 + 1)).
    destruct (poll_loop w JOB_ID max interval remaining (a0 + 1)) as [[l a] t].
    destruct IH as (Hr & Hq & Hn & Hl).
    assert (Hhere : terminal (STATUS (status_response w (a0 + 1))) = false)
      by (rewrite terminal_cases, Ec, Ef, Ek; reflexivity).
    assert (Hbefore : forall j, a0 < j < a -> terminal (STATUS (status_response w j)) = false).
    { intros j Hj. destruct (Nat.eq_dec j (a0 + 1)) as [-> | Hne]; [exact Hhere |].
      apply Hn. lia. }
    rewrite queries_head, sleeps_head.
    change (queries (Sleep interval :: t)) with (queries t).
    change (sleeps (Sleep interval :: t)) with (Sleep interval :: sleeps t).
    assert (Hqs : CurlStatus (a0 + 1) :: queries t = map CurlStatus (seq (a0 + 1) (a - a0))).
    { rewrite Hq. replace (a - a0) with (S (a - (a0 + 1))) by lia.
      cbn [seq map]. now replace (S (a0 + 1)) with (a0 + 1 + 1) by lia. }
    split; [lia |]. split; [exact Hqs |]. split; [exact Hbefore |].
    destruct l as [code | |].
    + destruct Hl as (Hlt & Hc & Hst & Hs & Hd).
      rewrite downloads_head.
      change (downloads (Sleep interval :: t)) with (downloads t).
      repeat split; try lia; auto.
      replace (a - a0 - 1) with (S (a - (a0 + 1) - 1)) by lia. now rewrite Hs.
    + destruct Hl as (Hlt & Hst & Hs).
      repeat split; try lia; auto.
      replace (a - a0 - 1) with (S (a - (a0 + 1) - 1)) by lia. now rewrite Hs.
    + destruct Hl as (Ha & Hall & Hs).
      repeat split; try lia.
      * intros j Hj. destruct (Nat.eq_dec j (a0 + 1)) as [-> | Hne]; [exact Hhere |].
        apply Hall. lia.
      * now rewrite Hs.
Qed.

(** How the trace ends when the loop is left on a terminal status. *)
Lemma poll_loop_tail remaining : forall a0,
  let '(l, a, t) := poll_loop w JOB_ID max interval remaining a0 in
  match l with
  | Exit _ =>
      exists t0, t = t0 +++ (if String.eqb (STATUS (status_response w a)) "failed"
                             then failed_branch (status_response w a)
                             else cancelled_branch)
  | Break => exists t0, t = t0 +++ completed_branch w JOB_ID (status_response w a)
  | Exhausted => True
  end.
Proof.
  induction remaining as [| remaining IH]; intros a0; cbn [poll_loop]; [exact I |].
  destruct (String.eqb (STATUS (status_response w (a0 + 1))) "completed") eqn:Ec.
  { eexists; reflexivity. }
  destruct (String.eqb (STATUS (status_response w (a0 + 1))) "failed") eqn:Ef.
  { rewrite Ef. eexists; reflexivity. }
  destruct (String.eqb (STATUS (status_response w (a0 + 1))) "cancelled") eqn:Ek.
  { rewrite Ef. eexists; reflexivity. }
  specialize (IH (a0 + 1)).
  destruct (poll_loop w JOB_ID max interval remaining (a0 + 1)) as [[l a] t].
  destruct l as [code | |]; [| | exact I]; destruct IH as [t0 ->];
    eexists; rewrite app_comm_cons, app_assoc; reflexivity.
Qed.

End Loop.

Lemma terminal_true s :
  terminal s = true -> s = "completed" \/ s = "failed" \/ s = "cancelled".
Proof.
  unfold terminal. intros H.
  apply orb_prop in H as [H | H]; [apply orb_prop in H as [H | H] |];
    apply String.eqb_eq in H; auto.
Qed.

(** The loop of a whole run, from attempt 0 with [max] attempts allowed. *)
Lemma poll_loop_first_terminal w JOB_ID max interval k :
  k <= max -> first_terminal w k ->
  exists l t,
    poll_loop w JOB_ID max interval max 0 = (l, k, t) /\ l <> Exhausted
    /\ queries t = map CurlStatus (seq 1 k)
    /\ sleeps t = repeat (Sleep interval) (k - 1).
Proof.
  intros Hk (H1 & Hterm & Hfirst).
  pose proof (poll_loop_spec w JOB_ID max interval max 0) as Hs.
  destruct (poll_loop w JOB_ID max interval max 0) as [[l a] t].
  destruct Hs as (Hr & Hq & Hn & Hl). cbn in Hq. rewrite Nat.sub_0_r in *.
  assert (Ha : a = k).
  { destruct l as [code | |].
    - destruct Hl as (Hlt & _ & Hst & _).
      assert (terminal (STATUS (status_response w a)) = true)
        by (destruct Hst as [-> | ->]; reflexivity).
      destruct (Nat.lt_trichotomy a k) as [Hlt' | [-> | Hgt]]; [| reflexivity |].
      + rewrite Hfirst in H by lia. discriminate.
      + rewrite Hn in Hterm by lia. discriminate.
    - destruct Hl as (Hlt & Hst & _).
      assert (terminal (STATUS (status_response w a)) = true) by (now rewrite Hst).
      destruct (Nat.lt_trichotomy a k) as [Hlt' | [-> | Hgt]]; [| reflexivity |].
      + rewrite Hfirst in H by lia. discriminate.
      + rewrite Hn in Hterm by lia. discriminate.
    - destruct Hl as (-> & Hall & _). rewrite Hall in Hterm by lia. discriminate. }
  subst a. exists l, t. split; [reflexivity |].
  destruct l as [code | |].
  - destruct Hl as (_ & _ & _ & Hsl & _). repeat split; try discriminate; auto.
  - destruct Hl as (_ & _ & Hsl). repeat split; try discriminate; auto.
  - destruct Hl as (_ & Hall & _). rewrite Hall in Hterm by lia. discriminate.
Qed.

Lemma poll_loop_never_terminal w JOB_ID max interval :
  never_terminal w max ->
  exists t,
    poll_loop w JOB_ID max interval max 0 = (Exhausted, max, t)
    /\ queries t = map CurlStatus (seq 1 max)
    /\ sleeps t = repeat (Sleep interval) max.
Proof.
  intros Hnever.
  pose proof (poll_loop_spec w JOB_ID max interval max 0) as Hs.
  destruct (poll_loop w JOB_ID max interval max 0) as [[l a] t].
  destruct Hs as (Hr & Hq & Hn & Hl). cbn in Hq. rewrite Nat.sub_0_r in *.
  destruct l as [code | |].
  - destruct Hl as (Hlt & _ & Hst & _).
    assert (terminal (STATUS (status_response w a)) = true)
      by (destruct Hst as [-> | ->]; reflexivity).
    rewrite Hnever in H by lia. discriminate.
  - destruct Hl as (Hlt & Hst & _).
    assert (terminal (STATUS (status_response w a)) = true) by (now rewrite Hst).
    rewrite Hnever in H by lia. discriminate.
  - destruct Hl as (-> & _ & Hsl). cbn in *. eauto.
Qed.

Lemma queries_timeout_lines u j : queries (timeout_lines u j) = [].
Proof. reflexivity. Qed.

(** Queries and pauses of a whole run are those of its loop. *)
Lemma poll_trace w u j max interval :
  queries (snd (poll w u j max interval))
  = queries (snd (poll_loop w j max interval max 0))
  /\ sleeps (snd (poll w u j max interval))
    = sleeps (snd (poll_loop w j max interval max 0)).
Proof.
  unfold poll.
  destruct (poll_loop w j max interval max 0) as [[l a] t]. cbn [snd].
  destruct l; [split; reflexivity | |];
    destruct (Nat.eqb a max); cbn [snd];
    rewrite queries_app, sleeps_app; cbn; now rewrite !app_nil_r.
Qed.

(** A job that completes on the last allowed attempt leaves the loop by
    [break] with [ATTEMPT] equal to [MAX_ATTEMPTS]: the test after the loop
    then prints the timeout message and exits with status 1, after the
    success message and the download. *)
Example completed_on_last_attempt :
  let w := mkWorld (fun k => if Nat.eqb k 2 then mkVars "completed" "N/A" "https://x/a.mp3" "" "" ""
                             else answer "processing" "") true None in
  poll w "https://creolecentric.com/api/v1" "0123456789" 2 2
  = (1, [CurlStatus 1; Echo "  Attempt 1/2 - Status: processing"; Sleep 2;
         CurlStatus 2; Echo "  Attempt 2/2 - Status: completed";
         Echo ""; Echo "✓ Job completed successfully!";
         Echo "  Audio URL: https://x/a.mp3";
         Echo ""; Echo "3. Downloading audio file...";
         CurlDownload "output_01234567.mp3" "https://x/a.mp3";
         Echo "✓ Audio saved as: output_01234567.mp3"]
        +++ timeout_lines "https://creolecentric.com/api/v1" "0123456789").
Proof. reflexivity. Qed.

End PollScriptFacts.

(* ================================================================== *)
(** ** Failed jobs, cancelled jobs and failed downloads                *)
(* ================================================================== *)

Module OutcomeFacts.
Import JS.

(** C7, counterexample: the service answers [cancelled] with an
    [error_message]; the script has read it into [ERROR_MESSAGE] but prints
    only the cancellation notice before it exits. *)
Lemma cancelled_error_is_not_printed :
  let w := PollScript.always (PollScript.answer "cancelled" "quota exceeded") in
  PollScript.ERROR_MESSAGE (PollScript.status_response w 1) = "quota exceeded"
  /\ PollScript.script w "https://creolecentric.com/api/v1" "J1"
     = (1, [PollScript.CurlStatus 1;
            PollScript.Echo "  Attempt 1/30 - Status: cancelled";
            PollScript.Echo "";
            PollScript.Echo "✗ Job was cancelled"]).
Proof. split; reflexivity. Qed.

(** C8, counterexample: a download answered 404 is requested once; the
    receiver logs the failure and is done, the client's promise is rejected
    with the error of that one request. *)
Lemma failed_download_is_attempted_once :
  Webhook.downloadAudio (fun _ => Rejected Samples.not_found) (JStr "J1") Samples.audio_url
  = [Webhook.Console Webhook.Log "📥 Downloading audio for job J1";
     Webhook.AxiosGet Samples.audio_url;
     Webhook.Console Webhook.Error
       "❌ Failed to download audio: Request failed with status code 404"]
  /\ Client.downloadAudio (fun _ => Rejected Samples.not_found) Samples.audio_url "out.mp3"
     = (Throw Samples.not_found, [Client.AxiosGet Samples.audio_url]).
Proof. split; reflexivity. Qed.

(** C8, as the code has it: a download is one request, whatever its outcome;
    nothing is retried and nothing waits.  When the request is rejected, the
    receiver's [downloadAudio] logs the failure with the error's message and
    ends there; the client's [downloadAudio] rejects its promise with that
    error. *)
Theorem a_download_is_one_request axios jobId url outputPath :
  Webhook.requests (Webhook.downloadAudio axios jobId url)
  = (if Webhook.printable jobId then [Webhook.AxiosGet url] else [])
  /\ filter Client.is_request (snd (Client.downloadAudio axios url outputPath))
     = [Client.AxiosGet url]
  /\ (forall e, axios url = Rejected e ->
        Client.downloadAudio axios url outputPath = (Throw e, [Client.AxiosGet url])
        /\ (Webhook.printable jobId = true ->
            Webhook.downloadAudio axios jobId url
            = [Webhook.Console Webhook.Log
                 ("📥 Downloading audio for job " ++ Webhook.shown jobId);
               Webhook.AxiosGet url;
               Webhook.Console Webhook.Error
                 ("❌ Failed to download audio: " ++ err_message e)])).
Proof.
  split; [| split].
  - unfold Webhook.downloadAudio, Webhook.downloadAudio_start, Webhook.downloadAudio_resume,
      Webhook.printable.
    destruct (to_string jobId) as [jstr | e]; [| reflexivity].
    destruct (axios url) as [[e |] | e]; reflexivity.
  - unfold Client.downloadAudio. destruct (axios url) as [[e |] | e]; reflexivity.
  - intros e He. split.
    + unfold Client.downloadAudio. now rewrite He.
    + intros Hp. unfold Webhook.downloadAudio, Webhook.downloadAudio_start,
        Webhook.downloadAudio_resume.
      rewrite (WebhookFacts.printable_shown _ Hp), He. reflexivity.
Qed.

Lemma a_download_is_one_request_witness :
  Client.downloadAudio (fun _ => Rejected Samples.not_found) Samples.audio_url "out.mp3"
  = (Throw Samples.not_found, [Client.AxiosGet Samples.audio_url]).
Proof.
  exact (proj1 (proj2 (proj2 (a_download_is_one_request
                                (fun _ => Rejected Samples.not_found) (JStr "J1")
                                Samples.audio_url "out.mp3"))
                  Samples.not_found eq_refl)).
Defined.

End OutcomeFacts.

(* ================================================================== *)
(** ** More on the webhook receiver                                    *)
(* ================================================================== *)

Module WebhookMoreFacts.
Import JS Webhook WebhookMore.

(** X1.  The status of the answer is decided by three tests, in this order:
    400 exactly for a falsy body; 200 exactly for a truthy body whose
    [event], [job_id] and [status] convert to strings and whose handler
    returns; 500 for the rest.  An answer of 200 means the event is in the
    store. *)
Theorem answer_codes t data s :
  let r := post_webhook t data s in
  (answered r = 400 <-> truthy data = false)
  /\ (answered r = 200 <->
      truthy data = true /\ envelope_prints data = true /\ handler_returns data = true)
  /\ (answered r = 200 \/ answered r = 400 \/ answered r = 500)
  /\ (answered r = 200 -> webhookEvents (store r) = webhookEvents s +++ [entry t data]).
Proof.
  cbv zeta. unfold answered, handler_returns, store.
  destruct (truthy data) eqn:Ht.
  - destruct (envelope_prints data) eqn:He.
    + rewrite (WebhookFacts.post_webhook_logged _ _ _ Ht He).
      destruct (dispatched data) as [[u | e] td]; cbn;
        repeat split; intros; try discriminate; try tauto; auto;
        try (destruct H as (_ & _ & H)); discriminate.
    + destruct (WebhookFacts.post_webhook_unprintable t data Ht He) as [e ->]. cbn.
      repeat split; intros; try discriminate; try tauto; auto.
      destruct H as (_ & H & _); discriminate.
  - rewrite (WebhookFacts.post_webhook_no_data _ _ _ Ht). cbn.
    repeat split; intros; try discriminate; try tauto; auto.
    destruct H as (H & _); discriminate.
Qed.

(** X2.  A request starts at most one download, and only a [tts_delivered]
    request with a truthy [audio_file_url] starts one: the download is then
    for that URL, and the request is answered 200. *)
Theorem only_delivered_downloads t data s :
  let r := post_webhook t data s in
  List.length (requests (snd r)) <= 1
  /\ (requests (snd r) <> [] ->
      strict_eq_string (eventType_of data) "tts_delivered" = true
      /\ truthy (prop data "audio_file_url") = true
      /\ requests (snd r) = [AxiosGet (prop data "audio_file_url")]
      /\ answered r = 200).
Proof.
  cbv zeta. rewrite WebhookFacts.requests_post_webhook.
  destruct (logged data) eqn:Hl; cbn [andb]; [| split; [cbn; lia | congruence]].
  destruct (starts_download data) eqn:Hd; [| split; [cbn; lia | congruence]].
  unfold logged in Hl. apply andb_prop in Hl as [Ht He].
  unfold starts_download in Hd. apply andb_prop in Hd as [Hev Hu].
  destruct (WebhookFacts.requests_handleDelivered data empty_server)
    as [H0 | (_ & Hn & Hq)].
  - rewrite H0. split; [cbn; lia | congruence].
  - rewrite Hq. split; [cbn; lia |]. intros _. repeat split; auto.
    unfold answered. rewrite (WebhookFacts.post_webhook_logged _ _ _ Ht He).
    unfold dispatched.
    assert (Hdis : dispatch (eventType_of data) data = handleDelivered data).
    { destruct (eventType_of data); try discriminate. cbn in Hev.
      apply String.eqb_eq in Hev. subst. reflexivity. }
    rewrite Hdis, Hn. reflexivity.
Qed.

Lemma lookup_set_prop_same k v props : lookup k (set_prop k v props) = Some v.
Proof.
  induction props as [| [k' v'] rest IH]; cbn.
  - now rewrite String.eqb_refl.
  - destruct (String.eqb k k') eqn:E; cbn; rewrite E; [reflexivity | exact IH].
Qed.

Lemma length_set_prop k v props :
  List.length (set_prop k v props)
  = List.length props + (if has_own k props then 0 else 1).
Proof.
  unfold has_own. induction props as [| [k' v'] rest IH]; cbn; [reflexivity |].
  destruct (String.eqb k k'); cbn; [lia |]. rewrite IH.
  destruct (lookup k rest); lia.
Qed.

(** X3.  What is stored for a body: its [received_at] is the time of
    reception, also when the body brings a [received_at] of its own; every
    other field of an object body is stored unchanged; and nothing else is
    added. *)
Theorem stored_entry_fields t data :
  get (entry t data) "received_at" = Normal (JStr t)
  /\ (forall props k, data = JObj props -> String.eqb k "received_at" = false ->
        get (entry t data) k = get data k)
  /\ (forall props, data = JObj props ->
        exists fields, entry t data = JObj fields
        /\ List.length fields
           = List.length props + (if has_own "received_at" props then 0 else 1)).
Proof.
  split; [| split].
  - unfold entry. cbn [get]. now rewrite lookup_set_prop_same.
  - intros props k -> Hk. unfold entry. cbn [get spread].
    now rewrite WebhookFacts.lookup_set_prop_other.
  - intros props ->. unfold entry. cbn [spread]. eexists. split; [reflexivity |].
    apply length_set_prop.
Qed.

Lemma stored_entry_fields_witness :
  get (entry "12:00:13" (JObj [("job_id", JStr "J1"); ("received_at", JStr "sent")])) "job_id"
  = get (JObj [("job_id", JStr "J1"); ("received_at", JStr "sent")]) "job_id".
Proof.
  exact (proj1 (proj2 (stored_entry_fields "12:00:13"
                         (JObj [("job_id", JStr "J1"); ("received_at", JStr "sent")])))
               _ "job_id" eq_refl eq_refl).
Defined.

(** X4.  A stored request shows up under GET /events/:jobId for the job id
    that is the string in its [job_id], and under no other; the lists of the
    other jobs stay as they were.  A request whose [job_id] is not a string
    (a number, or none at all) is stored but no /events/:jobId returns it. *)
Theorem events_of_job_after_request t data s jobId :
  logged data = true ->
  let s' := store (post_webhook t data s) in
  get_events_job jobId s'
  = JArr (filter (job_id_is jobId) (webhookEvents s)
          +++ (if strict_eq_string (prop data "job_id") jobId then [entry t data] else []))
  /\ ((forall x, prop data "job_id" <> JStr x) -> get_events_job jobId s' = get_events_job jobId s)
  /\ get_events s' = JArr (webhookEvents s +++ [entry t data]).
Proof.
  intros Hl s'. subst s'.
  assert (Ht : truthy data = true) by (unfold logged in Hl; now apply andb_prop in Hl).
  assert (Hs : webhookEvents (store (post_webhook t data s)) = webhookEvents s +++ [entry t data])
    by (rewrite WebhookFacts.post_webhook_store, Hl; reflexivity).
  assert (H1 : get_events_job jobId (store (post_webhook t data s))
               = JArr (filter (job_id_is jobId) (webhookEvents s)
                       +++ (if strict_eq_string (prop data "job_id") jobId
                            then [entry t data] else []))).
  { unfold get_events_job. rewrite Hs, filter_app. cbn [filter].
    rewrite (WebhookFacts.job_id_of_entry _ _ _ Ht). reflexivity. }
  split; [exact H1 | split].
  - intros Hn. rewrite H1. unfold get_events_job.
    destruct (prop data "job_id") as [| | b | n | x | l | o] eqn:E; cbn [strict_eq_string];
      rewrite ?app_nil_r; try reflexivity.
    exfalso. now apply (Hn x).
  - unfold get_events. now rewrite Hs.
Qed.

Lemma events_of_job_after_request_witness :
  get_events_job "J1" (store (post_webhook "12:00:13" Samples.delivered_J1 empty_server))
  = JArr [entry "12:00:13" Samples.delivered_J1].
Proof.
  exact (proj1 (events_of_job_after_request "12:00:13" Samples.delivered_J1 empty_server
                  "J1" eq_refl)).
Defined.

Lemma answer_and_trace_alone t data s :
  fst (fst (post_webhook t data s)) = fst (fst (post_webhook t data empty_server))
  /\ snd (post_webhook t data s) = snd (post_webhook t data empty_server).
Proof.
  destruct (truthy data) eqn:Ht.
  - destruct (envelope_prints data) eqn:He.
    + rewrite !(WebhookFacts.post_webhook_logged _ _ _ Ht He).
      destruct (dispatched data) as [[u | e] td]; split; reflexivity.
    + destruct (WebhookFacts.post_webhook_unprintable t data Ht He) as [e Hs].
      rewrite !Hs. split; reflexivity.
  - rewrite !(WebhookFacts.post_webhook_no_data _ _ _ Ht). split; reflexivity.
Qed.

(** X6.  A run of requests answers each of them, in order, with what that
    request would be answered alone, and does what each would do alone, one
    after the other; no request is left unanswered and none changes the
    answer to another. *)
Theorem requests_are_answered_independently posts s :
  fst (fst (deliver posts s)) = Normal (map response_of posts)
  /\ snd (deliver posts s) = flat_map (fun p => snd (alone p)) posts.
Proof.
  revert s. induction posts as [| [t data] rest IH]; intros s; [split; reflexivity |].
  cbn [deliver map flat_map]. unfold bind.
  destruct (answer_and_trace_alone t data s) as (Hr & Ht).
  destruct (WebhookFacts.post_webhook_answers t data s) as [r Hn].
  assert (Hro : response_of (t, data) = r)
    by (unfold response_of, alone; cbn [fst snd]; now rewrite <- Hr, Hn).
  assert (Hto : snd (alone (t, data)) = snd (post_webhook t data s))
    by (unfold alone; cbn [fst snd]; now rewrite Ht).
  rewrite Hro, Hto. clear Hr Ht Hro Hto.
  destruct (post_webhook t data s) as [[c s1] t1]. cbn [fst snd] in *. subst c.
  destruct (IH s1) as (IH1 & IH2).
  destruct (deliver rest s1) as [[c2 s2] t2]. cbn [fst snd] in *. subst c2 t2.
  cbn. now rewrite app_nil_r.
Qed.

(** X7.  The handler passes the raw [data.job_id] to [downloadAudio], not
    the [jobId] defaulted to ['unknown'] that the route logs and answers
    with.  So for a [tts_delivered] body without [job_id] (truthy, printable
    fields, truthy [audio_file_url]) the answer says [job_id: 'unknown'], the
    download is announced for job [undefined], and a download that succeeds
    is written to the file [undefined.mp3] of the downloads directory, which
    is also the file that the [Audio saved to] line names. *)
Theorem delivered_without_job_id t data s axios :
  truthy data = true -> fields_print data = true -> starts_download data = true ->
  prop data "job_id" = JUndefined ->
  axios (prop data "audio_file_url") = Resolved None ->
  fst (fst (post_webhook t data s)) = Normal (success data)
  /\ jobId_of data = JStr "unknown"
  /\ (exists t0, snd (post_webhook t data s)
                 = t0 +++ [Console Log "📥 Downloading audio for job undefined";
                           AxiosGet (prop data "audio_file_url")])
  /\ downloadAudio axios (prop data "job_id") (prop data "audio_file_url")
     = [Console Log "📥 Downloading audio for job undefined";
        AxiosGet (prop data "audio_file_url");
        CreateWriteStream "undefined.mp3"; Pipe;
        LogSaved "undefined.mp3"].
Proof.
  intros Ht Hf Hd Hj Ha.
  rewrite (WebhookFacts.post_webhook_prints _ _ _ Ht Hf). cbn [fst snd].
  split; [reflexivity |]. split; [unfold jobId_of; now rewrite Hj |]. split.
  - unfold starts_download in Hd. apply andb_prop in Hd as [Hev Hu].
    unfold dispatched.
    assert (Hdis : dispatch (eventType_of data) data = handleDelivered data).
    { destruct (eventType_of data); try discriminate. cbn in Hev.
      apply String.eqb_eq in Hev. subst. reflexivity. }
    rewrite Hdis, (WebhookFacts.handleDelivered_prints _ _ Ht Hf), Hu, Hj. cbn [snd].
    exists (Console Log (received_line data) :: delivered_lines data).
    reflexivity.
  - rewrite Hj. unfold downloadAudio. cbn. now rewrite Ha.
Qed.

Lemma delivered_without_job_id_witness :
  fst (fst (post_webhook "12:00:13" Samples.bare_delivered empty_server))
  = Normal (success Samples.bare_delivered).
Proof.
  exact (proj1 (delivered_without_job_id "12:00:13" Samples.bare_delivered empty_server
                  (fun _ => Resolved None) eq_refl eq_refl eq_refl eq_refl eq_refl)).
Defined.

End WebhookMoreFacts.

(* ================================================================== *)
(** ** The client: constructor, request builders, waiting, reporting   *)
(* ================================================================== *)

Module ClientApiFacts.
Import JS ClientApi.

Lemma strip_cons c s :
  s <> "" -> strip_trailing_slash (String c s) = String c (strip_trailing_slash s).
Proof. destruct s; [congruence | reflexivity]. Qed.

Lemma append_not_empty s c t : s ++ String c t <> "".
Proof. destruct s; discriminate. Qed.

Lemma strip_append_char s c :
  strip_trailing_slash (s ++ String c "")
  = if Ascii.eqb c "/" then s else s ++ String c "".
Proof.
  induction s as [| a s IH]; cbn [append].
  - cbn. now destruct (Ascii.eqb c "/").
  - rewrite strip_cons by apply append_not_empty. rewrite IH.
    now destruct (Ascii.eqb c "/").
Qed.

Lemma append_assoc_string (a b c : string) : (a ++ b) ++ c = a ++ b ++ c.
Proof. induction a as [| x a IH]; cbn; [reflexivity | now rewrite IH]. Qed.

(** X8.  The constructor drops one slash from the end of the base URL and
    nothing else: [s/] gives the base URL [s], of two final slashes one
    stays, and a URL that ends in another character is kept as it is.  With
    no base URL the default is used, unchanged; with [null] (for which the
    default does not apply) or any other non-string the constructor throws a
    TypeError. *)
Theorem constructor_base_url apiKey s :
  strip_trailing_slash (s ++ "/") = s
  /\ strip_trailing_slash (s ++ "//") = s ++ "/"
  /\ (forall c, Ascii.eqb c "/" = false ->
        strip_trailing_slash (s ++ String c "") = s ++ String c "")
  /\ (forall k, to_string apiKey = Normal k ->
        constructor apiKey (JStr (s ++ "/"))
        = Normal (mkClient apiKey s ("ApiKey " ++ k) "application/json" 30000)
        /\ constructor apiKey JUndefined
           = Normal (mkClient apiKey default_baseUrl ("ApiKey " ++ k)
                              "application/json" 30000))
  /\ (forall v, (forall x, v <> JStr x) -> v <> JUndefined ->
        exists msg, constructor apiKey v = Throw (TypeError msg)).
Proof.
  assert (H1 : forall x, strip_trailing_slash (x ++ "/") = x)
    by (intros x; now rewrite strip_append_char).
  split; [apply H1 |]. split.
  - change "//" with ("/" ++ "/"). rewrite <- append_assoc_string. apply H1.
  - split; [| split].
    + intros c Hc. now rewrite strip_append_char, Hc.
    + intros k Hk. unfold constructor. cbn [default_to]. rewrite Hk. cbn [cbind].
      rewrite H1. split; reflexivity.
    + intros v Hs Hu. unfold constructor.
      destruct v; cbn [default_to]; try (eexists; reflexivity).
      * congruence.
      * exfalso. now apply (Hs s0).
Qed.

Lemma constructor_base_url_witness :
  constructor (JStr "cc_key") (JStr ("https://creolecentric.com/api/v1" ++ "/"))
  = Normal (mkClient (JStr "cc_key") "https://creolecentric.com/api/v1" "ApiKey cc_key"
                     "application/json" 30000).
Proof.
  exact (proj1 (proj1 (proj2 (proj2 (proj2
           (constructor_base_url (JStr "cc_key") "https://creolecentric.com/api/v1"))))
           "cc_key" eq_refl)).
Defined.

(** *** The body of createTTSJob *)

Lemma map_fst_set_prop k v props :
  map fst (set_prop k v props)
  = map fst props +++ (if has_own k props then [] else [k]).
Proof.
  unfold has_own. induction props as [| [k' v'] rest IH]; cbn; [reflexivity |].
  destruct (String.eqb k k') eqn:E; cbn.
  - now rewrite app_nil_r.
  - now rewrite IH.
Qed.

Lemma lookup_insert_index_other n k k' v props :
  String.eqb k k' = false -> lookup k (insert_index n k' v props) = lookup k props.
Proof.
  intros Hk. induction props as [| [k0 v0] rest IH]; cbn [insert_index lookup].
  - now rewrite Hk.
  - destruct (array_index k0) as [n0 |]; [destruct (n0 <? n)%N |]; cbn [lookup].
    + now rewrite IH.
    + now rewrite Hk.
    + now rewrite Hk.
Qed.

Lemma lookup_insert_index_same n k v props :
  lookup k props = None -> lookup k (insert_index n k v props) = Some v.
Proof.
  induction props as [| [k0 v0] rest IH]; cbn [insert_index lookup].
  - now rewrite String.eqb_refl.
  - destruct (String.eqb k k0) eqn:E; [discriminate |]. intros Hnone.
    destruct (array_index k0) as [n0 |]; [destruct (n0 <? n)%N |]; cbn [lookup].
    + rewrite E. now apply IH.
    + now rewrite String.eqb_refl.
    + now rewrite String.eqb_refl.
Qed.

Lemma lookup_define_prop_same k v props : lookup k (define_prop k v props) = Some v.
Proof.
  unfold define_prop, has_own.
  destruct (array_index k) as [n |]; [| apply WebhookMoreFacts.lookup_set_prop_same].
  destruct (lookup k props) eqn:E; [apply WebhookMoreFacts.lookup_set_prop_same |].
  now apply lookup_insert_index_same.
Qed.

Lemma lookup_define_prop_other k k' v props :
  String.eqb k k' = false -> lookup k (define_prop k' v props) = lookup k props.
Proof.
  intros Hk. unfold define_prop.
  destruct (array_index k') as [n |]; [| now apply WebhookFacts.lookup_set_prop_other].
  destruct (has_own k' props); [now apply WebhookFacts.lookup_set_prop_other |].
  now apply lookup_insert_index_other.
Qed.

Lemma spread_onto_lookup l : forall base k,
  NoDup (map fst l) ->
  lookup k (fold_left (fun o kv => define_prop (fst kv) (snd kv) o) l base)
  = match lookup k l with Some v => Some v | None => lookup k base end.
Proof.
  induction l as [| [k1 v1] l IH]; intros base k Hnd; cbn [fold_left fst snd];
    [reflexivity |].
  cbn [map fst] in Hnd. inversion Hnd as [| ? ? Hnotin Hnd']; subst.
  rewrite (IH _ _ Hnd'). cbn [lookup fst snd].
  destruct (String.eqb k k1) eqn:E.
  - apply String.eqb_eq in E. subst k1.
    assert (Hnone : lookup k l = None).
    { destruct (lookup k l) as [x |] eqn:El; [| reflexivity].
      exfalso. apply Hnotin. apply WebhookFacts.lookup_In in El.
      change k with (fst (k, x)). now apply in_map. }
    rewrite Hnone. apply lookup_define_prop_same.
  - destruct (lookup k l); [reflexivity |].
    now apply lookup_define_prop_other.
Qed.

(** A new array index lands among the array indices that lead the keys:
    what follows them is left as it is. *)
Lemma keys_insert_index n k v :
  is_index k = true ->
  forall props front rest,
    map fst props = front +++ rest ->
    (forall x, In x front -> is_index x = true) ->
    match rest with [] => True | k0 :: _ => is_index k0 = false end ->
    exists front',
      map fst (insert_index n k v props) = front' +++ rest
      /\ forall x, In x front' -> is_index x = true.
Proof.
  intros Hk. induction props as [| [k0 v0] props IH]; intros front rest Hkeys Hfront Hrest.
  - cbn [map] in Hkeys. symmetry in Hkeys. apply app_eq_nil in Hkeys as [-> ->].
    exists [k]. split; [reflexivity |]. intros x [<- | []]. exact Hk.
  - cbn [insert_index]. destruct front as [| f front].
    + cbn [app] in Hkeys. subst rest. cbn [map fst] in Hrest.
      unfold is_index in Hrest. destruct (array_index k0) as [n0 |]; [discriminate |].
      exists [k]. split; [reflexivity |]. intros x [<- | []]. exact Hk.
    + cbn [map fst app] in Hkeys. injection Hkeys as -> Hkeys.
      assert (Hf : is_index f = true) by (apply Hfront; now left).
      unfold is_index in Hf. destruct (array_index f) as [n0 |] eqn:Ef; [| discriminate].
      destruct (n0 <? n)%N.
      * destruct (IH front rest Hkeys) as (front' & Heq & Hall);
          [intros x Hx; apply Hfront; now right | exact Hrest |].
        exists (f :: front'). cbn [map fst app]. rewrite Heq. split; [reflexivity |].
        intros x [<- | Hx]; [unfold is_index; now rewrite Ef | now apply Hall].
      * exists (k :: f :: front). cbn [map fst app]. rewrite Hkeys. split; [reflexivity |].
        intros x [<- | Hx]; [exact Hk | now apply Hfront].
Qed.

Lemma keys_define_prop k v props front k0 rest :
  map fst props = front +++ k0 :: rest ->
  (forall x, In x front -> is_index x = true) -> is_index k0 = false ->
  exists front' rest',
    map fst (define_prop k v props) = front' +++ k0 :: rest'
    /\ (forall x, In x front' -> is_index x = true)
    /\ exists extra, rest' = rest +++ extra.
Proof.
  intros Hkeys Hfront Hk0.
  assert (Hset : exists front' rest',
            map fst (set_prop k v props) = front' +++ k0 :: rest'
            /\ (forall x, In x front' -> is_index x = true)
            /\ exists extra, rest' = rest +++ extra).
  { exists front, (rest +++ (if has_own k props then [] else [k])).
    rewrite map_fst_set_prop, Hkeys, <- app_assoc. cbn [app]. eauto. }
  unfold define_prop. destruct (array_index k) as [n |] eqn:Ek; [| exact Hset].
  destruct (has_own k props); [exact Hset |].
  destruct (keys_insert_index n k v) with (props := props) (front := front)
    (rest := k0 :: rest) as (front' & Heq & Hall);
    [unfold is_index; now rewrite Ek | exact Hkeys | exact Hfront | exact Hk0 |].
  exists front', rest. split; [exact Heq |]. split; [exact Hall |].
  exists []. now rewrite app_nil_r.
Qed.

Lemma spread_onto_keys l : forall props front k0 rest,
  map fst props = front +++ k0 :: rest ->
  (forall x, In x front -> is_index x = true) -> is_index k0 = false ->
  exists front' extra,
    map fst (fold_left (fun o kv => define_prop (fst kv) (snd kv) o) l props)
    = front' +++ k0 :: rest +++ extra
    /\ forall x, In x front' -> is_index x = true.
Proof.
  induction l as [| [k v] l IH]; intros props front k0 rest Hkeys Hfront Hk0;
    cbn [fold_left fst snd].
  - exists front, []. now rewrite app_nil_r.
  - destruct (keys_define_prop k v props front k0 rest Hkeys Hfront Hk0)
      as (front1 & rest1 & Heq & Hall & extra1 & ->).
    destruct (IH _ _ _ _ Heq Hall Hk0) as (front2 & extra2 & Heq2 & Hall2).
    exists front2, (extra1 +++ extra2). rewrite Heq2, <- app_assoc. auto.
Qed.

Example createTTSJob_index_key_goes_first :
  createTTSJob_data (JStr "Bonjou") JUndefined JUndefined
    (JObj [("speed", JNum 2); ("7", JBool true); ("text", JStr "Mesi")])
  = [("7", JBool true); ("text", JStr "Mesi"); ("voice_id", JStr "voice_1");
     ("model_id", JStr "model_1"); ("speed", JNum 2)].
Proof. reflexivity. Qed.

(** X9.  In the body of createTTSJob the options come last, so they win: a
    field named by the options has the options' value, also [text],
    [voice_id] or [model_id]; any other field is the positional argument or
    its default (['voice_1'], ['model_1'], taken for [undefined] only).
    [text], [voice_id], [model_id] stay next to each other in that order;
    the only keys listed before them are array indices brought by the
    options, every other key of the options comes after them.  Without
    options (or with [null] or [{}]) they are the whole body. *)
Theorem createTTSJob_options_override text voiceId modelId options :
  let base := [("text", text);
               ("voice_id", default_to (JStr "voice_1") voiceId);
               ("model_id", default_to (JStr "model_1") modelId)] in
  let body := createTTSJob_data text voiceId modelId options in
  (NoDup (map fst (spread (default_to (JObj []) options))) ->
   forall k, lookup k body
             = match lookup k (spread (default_to (JObj []) options)) with
               | Some v => Some v
               | None => lookup k base
               end)
  /\ (exists front back,
        map fst body = front +++ ["text"; "voice_id"; "model_id"] +++ back
        /\ forall k, In k front -> is_index k = true)
  /\ (options = JUndefined \/ options = JNull \/ options = JObj [] -> body = base).
Proof.
  cbv zeta. unfold createTTSJob_data, spread_onto. split; [| split].
  - intros Hnd k. now apply spread_onto_lookup.
  - destruct (spread_onto_keys (spread (default_to (JObj []) options))
                [("text", text);
                 ("voice_id", default_to (JStr "voice_1") voiceId);
                 ("model_id", default_to (JStr "model_1") modelId)]
                [] "text" ["voice_id"; "model_id"])
      as (front & extra & Heq & Hall);
      [reflexivity | intros x [] | reflexivity |].
    exists front, extra. split; [exact Heq | exact Hall].
  - intros [-> | [-> | ->]]; reflexivity.
Qed.

Lemma createTTSJob_options_override_witness :
  lookup "voice_id"
    (createTTSJob_data (JStr "Bonjou") (JStr "voice_7") JUndefined
       (JObj [("speed", JNum 2); ("voice_id", JStr "voice_9")]))
  = Some (JStr "voice_9").
Proof.
  refine (proj1 (createTTSJob_options_override (JStr "Bonjou") (JStr "voice_7") JUndefined
                   (JObj [("speed", JNum 2); ("voice_id", JStr "voice_9")])) _ "voice_id").
  repeat constructor; cbn; intuition discriminate.
Defined.

(** *** The URLs of a job *)

Lemma length_append (a b : string) :
  String.length (a ++ b) = String.length a + String.length b.
Proof. induction a as [| x a IH]; cbn; [reflexivity | now rewrite IH]. Qed.

Lemma append_inv_tail (s : string) : forall a b : string, a ++ s = b ++ s -> a = b.
Proof.
  induction a as [| x a IH]; intros [| y b] H; cbn in H.
  - reflexivity.
  - apply (f_equal String.length) in H. cbn in H. rewrite length_append in H. lia.
  - apply (f_equal String.length) in H. cbn in H. rewrite length_append in H. lia.
  - injection H as -> H. f_equal. now apply IH.
Qed.

Lemma append_inv_head (p : string) : forall a b : string, p ++ a = p ++ b -> a = b.
Proof. induction p as [| x p IH]; cbn; intros a b H; [exact H | injection H; auto]. Qed.

(** X10.  A job id goes into the URL as it is, without escaping.  Different
    ids always give different status, details and cancel URLs; but the
    details request for the id [j/status] is the status request for [j]. *)
Theorem job_urls_are_not_escaped a b :
  (status_url a = status_url b -> a = b)
  /\ (details_url a = details_url b -> a = b)
  /\ (cancel_url a = cancel_url b -> a = b)
  /\ getJobDetails (JStr (a ++ "/status")) = getJobStatus (JStr a).
Proof.
  unfold status_url, details_url, cancel_url.
  repeat split.
  - intros H. apply append_inv_head in H. now apply append_inv_tail in H.
  - intros H. apply append_inv_head in H. now apply append_inv_tail in H.
  - intros H. apply append_inv_head in H. now apply append_inv_tail in H.
  - unfold getJobDetails, getJobStatus, details_url, status_url. cbn [to_string cbind].
    now rewrite append_assoc_string.
Qed.

Lemma job_urls_are_not_escaped_witness :
  getJobDetails (JStr ("J1" ++ "/status")) = getJobStatus (JStr "J1").
Proof. exact (proj2 (proj2 (proj2 (job_urls_are_not_escaped "J1" "J1")))). Defined.

(** *** waitForJob, round by round *)

Section Rounds.
Variables (w : Client.world) (jobId : string) (timeout startTime timeoutMs ms : Z).

Lemma count_queries_rounds lines t :
  count_queries (rounds jobId ms lines +++ t) = List.length lines + count_queries t.
Proof.
  unfold count_queries, rounds.
  induction lines as [| l lines IH]; cbn; [reflexivity | now rewrite IH].
Qed.

Lemma count_pauses_rounds lines t :
  count_pauses (rounds jobId ms lines +++ t) = List.length lines + count_pauses t.
Proof.
  unfold count_pauses, rounds.
  induction lines as [| l lines IH]; cbn; [reflexivity | now rewrite IH].
Qed.

(** While the deadline is not reached and the responses are not terminal,
    the loop makes one round after the other. *)
Lemma wait_loop_rounds i : forall i0 m,
  (forall k, i0 <= k < i0 + i ->
     (Client.now w (S k) - startTime < timeoutMs)%Z /\ goes_on w jobId k) ->
  exists lines,
    List.length lines = i
    /\ Client.wait_loop (i + m) w jobId timeout startTime timeoutMs ms i0
       = (fst (Client.wait_loop m w jobId timeout startTime timeoutMs ms (i0 + i)),
          rounds jobId ms lines
          +++ snd (Client.wait_loop m w jobId timeout startTime timeoutMs ms (i0 + i))).
Proof.
  induction i as [| i IH]; intros i0 m H.
  - exists []. rewrite Nat.add_0_r. cbn.
    now destruct (Client.wait_loop m w jobId timeout startTime timeoutMs ms i0).
  - destruct (H i0) as (Hin & status & st & shown & Hq & Hg & Hterm & Hs); [lia |].
    destruct (IH (S i0) m) as (lines & Hlen & Hl); [intros k Hk; apply H; lia |].
    exists (("Job " ++ jobId ++ " status: " ++ shown) :: lines). split; [cbn; lia |].
    cbn [Nat.add Client.wait_loop].
    destruct (Z.ltb_spec (Client.now w (S i0) - startTime) timeoutMs); [| lia].
    rewrite Hq, Hg, Hterm, Hs, Hl.
    replace (S i0 + i) with (i0 + S i) by lia. reflexivity.
Qed.

(** The shape of every run: whole rounds, then nothing or one last query. *)
Lemma wait_loop_shape steps : forall i0,
  exists lines tail,
    snd (Client.wait_loop steps w jobId timeout startTime timeoutMs ms i0)
    = rounds jobId ms lines +++ tail
    /\ (tail = [] \/ tail = [Client.StatusQuery jobId])
    /\ List.length lines + List.length tail <= steps.
Proof.
  induction steps as [| steps IH]; intros i0; cbn [Client.wait_loop].
  - exists [], []. cbn. auto.
  - destruct (Client.now w (S i0) - startTime <? timeoutMs)%Z;
      [| exists [], []; cbn; split; [reflexivity | split; [auto | lia]]].
    destruct (Client.getJobStatus w jobId i0) as [status | e];
      [| exists [], [Client.StatusQuery jobId]; cbn; split; [reflexivity | split; [auto | lia]]].
    destruct (get status "status") as [st | e];
      [| exists [], [Client.StatusQuery jobId]; cbn; split; [reflexivity | split; [auto | lia]]].
    destruct (Client.is_terminal st);
      [exists [], [Client.StatusQuery jobId]; cbn; split; [reflexivity | split; [auto | lia]] |].
    destruct (to_string (js_or st (JStr "unknown"))) as [shown | e];
      [| exists [], [Client.StatusQuery jobId]; cbn; split; [reflexivity | split; [auto | lia]]].
    destruct (IH (S i0)) as (lines & tail & Ht & Htail & Hlen).
    destruct (Client.wait_loop steps w jobId timeout startTime timeoutMs ms (S i0))
      as [r t]. cbn [snd] in *. subst t.
    exists (("Job " ++ jobId ++ " status: " ++ shown) :: lines), tail.
    cbn [rounds flat_map app snd List.length]. split; [reflexivity | split; [exact Htail | lia]].
Qed.

End Rounds.

Lemma waitForJob_until w jobId timeout pollInterval i m :
  (forall k, k < i ->
     (Client.now w (S k) - Client.now w 0 < timeout * 1000)%Z /\ goes_on w jobId k) ->
  exists lines,
    List.length lines = i
    /\ Client.waitForJob (S (i + m)) w jobId timeout pollInterval
       = (fst (Client.wait_loop (S m) w jobId timeout (Client.now w 0) (timeout * 1000)
                 (pollInterval * 1000) i),
          rounds jobId (pollInterval * 1000) lines
          +++ snd (Client.wait_loop (S m) w jobId timeout (Client.now w 0) (timeout * 1000)
                     (pollInterval * 1000) i)).
Proof.
  intros H. unfold Client.waitForJob.
  replace (S (i + m)) with (i + S m) by lia.
  destruct (wait_loop_rounds w jobId timeout (Client.now w 0) (timeout * 1000)
              (pollInterval * 1000) i 0 (S m)) as (lines & Hlen & Hl).
  { intros k Hk. apply H. lia. }
  exists lines. split; [exact Hlen | exact Hl].
Qed.

(** X11.  When query [i] is the first to get a terminal status, and each loop
    test up to it is within the deadline, [waitForJob] resolves with the
    response of that query, after [i + 1] queries and [i] pauses. *)
Theorem waitForJob_first_terminal w jobId timeout pollInterval i status m :
  first_terminal_at w jobId timeout i status ->
  exists t,
    Client.waitForJob (S (i + m)) w jobId timeout pollInterval = (Some (Normal status), t)
    /\ count_queries t = S i /\ count_pauses t = i.
Proof.
  intros (Hin & Hgo & Hq & st & Hg & Hterm).
  destruct (waitForJob_until w jobId timeout pollInterval i m) as (lines & Hlen & ->).
  { intros k Hk. split; [apply Hin; lia | now apply Hgo]. }
  cbn [Client.wait_loop].
  destruct (Z.ltb_spec (Client.now w (S i) - Client.now w 0) (timeout * 1000));
    [| specialize (Hin i (Nat.le_refl i)); lia].
  rewrite Hq, Hg, Hterm. cbn [fst snd]. eexists. split; [reflexivity |].
  rewrite count_queries_rounds, count_pauses_rounds, Hlen. cbn. lia.
Qed.

Lemma waitForJob_first_terminal_witness :
  exists t,
    Client.waitForJob 3 Client.fails_third "J1" 300 2
    = (Some (Normal (Client.status_body "failed")), t)
    /\ count_queries t = 3 /\ count_pauses t = 2.
Proof.
  refine (waitForJob_first_terminal Client.fails_third "J1" 300 2 2
            (Client.status_body "failed") 0 _).
  split; [| split; [| split]].
  - intros k Hk. destruct k as [| [| [| k]]]; [reflexivity | reflexivity | reflexivity | lia].
  - intros k Hk. exists (Client.status_body "processing"), (JStr "processing"), "processing".
    destruct k as [| [| k]]; [repeat split | repeat split | lia].
  - reflexivity.
  - exists (JStr "failed"). split; reflexivity.
Defined.

(** X12.  With a timeout of zero or less, on a clock that does not run
    backwards, [waitForJob] asks nothing: it is rejected with the timeout
    error before the first status query. *)
Theorem waitForJob_no_time_left w jobId timeout pollInterval steps :
  (timeout <= 0)%Z -> (Client.now w 0 <= Client.now w 1)%Z ->
  Client.waitForJob (S steps) w jobId timeout pollInterval
  = (Some (Throw (Client.timeout_error jobId timeout)), []).
Proof.
  intros Ht Hc. unfold Client.waitForJob. cbn [Client.wait_loop].
  destruct (Z.ltb_spec (Client.now w 1 - Client.now w 0) (timeout * 1000)); [lia |].
  reflexivity.
Qed.

Lemma waitForJob_no_time_left_witness :
  Client.waitForJob 5 Client.fails_third "J1" 0 2
  = (Some (Throw (Client.timeout_error "J1" 0)), []).
Proof.
  refine (waitForJob_no_time_left Client.fails_third "J1" 0 2 4 _ _).
  - lia.
  - vm_compute. discriminate.
Defined.

(** X13.  What [waitForJob] does is always a sequence of whole rounds (status
    query, log line, pause of [pollInterval * 1000] ms) followed by nothing or
    by one last status query: two queries are never made without a pause
    between them, every query is for the given job, and there are no more
    queries than loop tests. *)
Theorem waitForJob_trace_shape steps w jobId timeout pollInterval :
  let t := snd (Client.waitForJob steps w jobId timeout pollInterval) in
  (exists lines tail,
     t = rounds jobId (pollInterval * 1000) lines +++ tail
     /\ (tail = [] \/ tail = [Client.StatusQuery jobId]))
  /\ count_pauses t <= count_queries t <= S (count_pauses t)
  /\ count_queries t <= steps.
Proof.
  cbv zeta. unfold Client.waitForJob.
  destruct (wait_loop_shape w jobId timeout (Client.now w 0) (timeout * 1000)
              (pollInterval * 1000) steps 0) as (lines & tail & -> & Htail & Hlen).
  split; [eauto |].
  rewrite count_queries_rounds, count_pauses_rounds.
  destruct Htail as [-> | ->]; cbn in *; lia.
Qed.

(** *** Step 6 of main() *)

Lemma report_starts finalStatus s :
  get finalStatus "status" = Normal (JStr s) ->
  exists rest,
    fst (report finalStatus)
    = ConsoleLog "Job completed!" :: ConsoleLog ("Final status: " ++ s) :: rest.
Proof.
  intros Hg. unfold report. rewrite Hg. cbn [cbind to_string app].
  destruct (get finalStatus "audio_url") as [a | e]; [| eexists; reflexivity].
  destruct (if truthy a then _ else _) as [la | e]; [| eexists; reflexivity].
  destruct (get finalStatus "duration_seconds") as [d | e]; [| eexists; reflexivity].
  destruct (if truthy d then _ else _) as [ld | e]; eexists; reflexivity.
Qed.

Lemma terminal_is_string st :
  Client.is_terminal st = true ->
  exists s, st = JStr s /\ (s = "completed" \/ s = "failed" \/ s = "cancelled").
Proof.
  destruct st; try discriminate. unfold Client.is_terminal. cbn [strict_eq_string].
  intros H. exists s. split; [reflexivity |].
  apply orb_prop in H as [H | H]; [apply orb_prop in H as [H | H] |];
    apply String.eqb_eq in H; auto.
Qed.

Lemma count_queries_last lines j ms i :
  List.length lines = i ->
  count_queries (rounds j ms lines +++ [Client.StatusQuery j]) = S i.
Proof. intros <-. rewrite count_queries_rounds. cbn. lia. Qed.

(** X14.  Step 6 of main().  Without a job id it asks nothing.  When the wait
    resolves it prints [Job completed!] and the final status, whichever of
    [completed], [failed] and [cancelled] that is.  When a status query
    fails, the response interceptor prints what it knows of the failure, then
    main prints [Job timed out: <message>] for it, and goes on.  When the
    deadline of 60 seconds passes first, the message printed is that of the
    timeout error. *)
Theorem main_reports_the_wait w axios_error jobId :
  (truthy jobId = false ->
   forall steps, wait_and_report steps w axios_error jobId = Some [ConsoleLog ""])
  /\ (forall j i status,
        truthy jobId = true -> to_string jobId = Normal j ->
        first_terminal_at w j 60 i status ->
        exists t s rest,
          get status "status" = Normal (JStr s)
          /\ (s = "completed" \/ s = "failed" \/ s = "cancelled")
          /\ count_queries t = S i
          /\ wait_and_report (S i) w axios_error jobId
             = Some (map Waiting t
                     +++ ConsoleLog "Job completed!"
                         :: ConsoleLog ("Final status: " ++ s) :: rest))
  /\ (forall j i e,
        truthy jobId = true -> to_string jobId = Normal j ->
        (forall k, k <= i -> (Client.now w (S k) - Client.now w 0 < 60 * 1000)%Z) ->
        (forall k, k < i -> goes_on w j k) ->
        Client.getJobStatus w j i = Throw e ->
        exists t,
          count_queries t = S i
          /\ wait_and_report (S i) w axios_error jobId
             = Some (map Waiting t
                     +++ match axios_error i with
                         | BadStatus status statusText data =>
                             [ConsoleError ("API Error: " ++ show_Z status ++ " - "
                                              ++ statusText);
                              ConsoleErrorWith "Response:" data]
                         | NoResponse =>
                             [ConsoleErrorWith "No response received:" (JStr (err_message e))]
                         | NotSent =>
                             [ConsoleErrorWith "Request error:" (JStr (err_message e))]
                         end
                     +++ [ConsoleError ("Job timed out: " ++ err_message e);
                          ConsoleLog ""]))
  /\ (forall j n,
        truthy jobId = true -> to_string jobId = Normal j ->
        deadline_at w j 60 n ->
        exists t,
          count_queries t = n
          /\ wait_and_report (S n) w axios_error jobId
             = Some (map Waiting t
                     +++ [ConsoleError ("Job timed out: Job " ++ j
                                          ++ " did not complete within 60 seconds");
                          ConsoleLog ""])).
Proof.
  split; [| split; [| split]].
  - intros Hf steps. unfold wait_and_report. now rewrite Hf.
  - intros j i status Ht Hj Hfirst.
    destruct Hfirst as (Hin & Hgo & Hq & st & Hg & Hterm).
    destruct (waitForJob_until w j 60 Client.default_pollInterval i 0) as (lines & Hlen & Hw).
    { intros k Hk. split; [apply Hin; lia | now apply Hgo]. }
    rewrite Nat.add_0_r in Hw. cbn [Client.wait_loop] in Hw.
    destruct (Z.ltb_spec (Client.now w (S i) - Client.now w 0) (60 * 1000));
      [| specialize (Hin i (Nat.le_refl i)); lia].
    rewrite Hq, Hg, Hterm in Hw. cbn [fst snd] in Hw.
    pose proof (count_queries_last lines j (Client.default_pollInterval * 1000) i Hlen) as Hc.
    set (t := rounds j (Client.default_pollInterval * 1000) lines
              +++ [Client.StatusQuery j]) in Hw, Hc.
    destruct (terminal_is_string st Hterm) as (s & -> & Hs).
    destruct (report_starts status s Hg) as [rest Hr].
    unfold wait_and_report, wait_for. rewrite Ht, Hj, Hw.
    destruct (report status) as [printed [u | e]]; cbn [fst] in Hr; subst printed;
      eexists t, s, _; (split; [exact Hg | split; [exact Hs | split; [exact Hc |]]]);
      cbn [app]; reflexivity.
  - intros j i e Ht Hj Hin Hgo Hq.
    destruct (waitForJob_until w j 60 Client.default_pollInterval i 0) as (lines & Hlen & Hw).
    { intros k Hk. split; [apply Hin; lia | now apply Hgo]. }
    rewrite Nat.add_0_r in Hw.
    cbn [Client.wait_loop] in Hw.
    destruct (Z.ltb_spec (Client.now w (S i) - Client.now w 0) (60 * 1000));
      [| specialize (Hin i (Nat.le_refl i)); lia].
    rewrite Hq in Hw. cbn [fst snd] in Hw.
    pose proof (count_queries_last lines j (Client.default_pollInterval * 1000) i Hlen) as Hc.
    unfold wait_and_report, wait_for, intercepted. rewrite Ht, Hj, Hw, Hc, Hq.
    eexists. split; [exact Hc |].
    unfold interceptor, timed_out. destruct (axios_error i); reflexivity.
  - intros j n Ht Hj (Hgo & Hpast).
    destruct (waitForJob_until w j 60 Client.default_pollInterval n 0 Hgo)
      as (lines & Hlen & Hw).
    rewrite Nat.add_0_r in Hw. cbn [Client.wait_loop] in Hw.
    destruct (Z.ltb_spec (Client.now w (S n) - Client.now w 0) (60 * 1000)); [lia |].
    cbn [fst snd] in Hw. rewrite app_nil_r in Hw.
    assert (Hc : count_queries (rounds j (Client.default_pollInterval * 1000) lines) = n).
    { rewrite <- (app_nil_r (rounds _ _ _)), count_queries_rounds, Hlen. cbn. lia. }
    unfold wait_and_report, wait_for, intercepted. rewrite Ht, Hj, Hw, Hc.
    eexists. split; [exact Hc |].
    assert (Hnone : match n with
                    | 0 => []
                    | S i => match Client.getJobStatus w j i with
                             | Normal _ => []
                             | Throw e => interceptor (axios_error i) e
                             end
                    end = []).
    { destruct n as [| i]; [reflexivity |].
      destruct (Hgo i) as (_ & status & st & shown & -> & _); [lia | reflexivity]. }
    rewrite Hnone. reflexivity.
Qed.

Lemma main_reports_the_wait_witness :
  (exists t s rest,
     get (Client.status_body "failed") "status" = Normal (JStr s)
     /\ (s = "completed" \/ s = "failed" \/ s = "cancelled")
     /\ count_queries t = 3
     /\ wait_and_report 3 Client.fails_third (fun _ => NoResponse) (JStr "J1")
        = Some (map Waiting t
                +++ ConsoleLog "Job completed!" :: ConsoleLog ("Final status: " ++ s) :: rest))
  /\ (exists t,
        count_queries t = 1
        /\ wait_and_report 1 Client.unreachable (fun _ => NoResponse) (JStr "J1")
           = Some (map Waiting t
                   +++ [ConsoleErrorWith "No response received:" (JStr "Network Error")]
                   +++ [ConsoleError "Job timed out: Network Error"; ConsoleLog ""])).
Proof.
  split.
  - refine (proj1 (proj2 (main_reports_the_wait Client.fails_third (fun _ => NoResponse)
                            (JStr "J1")))
              "J1" 2 (Client.status_body "failed") eq_refl eq_refl _).
    split; [| split; [| split]].
    + intros k Hk. destruct k as [| [| [| k]]]; [reflexivity | reflexivity | reflexivity | lia].
    + intros k Hk. exists (Client.status_body "processing"), (JStr "processing"), "processing".
      destruct k as [| [| k]]; [repeat split | repeat split | lia].
    + reflexivity.
    + exists (JStr "failed"). split; reflexivity.
  - refine (proj1 (proj2 (proj2 (main_reports_the_wait Client.unreachable
                                   (fun _ => NoResponse) (JStr "J1"))))
              "J1" 0 Client.network_error eq_refl eq_refl _ _ eq_refl).
    + intros k Hk. destruct k as [| k]; [reflexivity | lia].
    + intros k Hk. lia.
Defined.

Example main_on_a_failed_job :
  wait_and_report 3 Client.fails_third (fun _ => NoResponse) (JStr "J1")
  = Some [Waiting (Client.StatusQuery "J1");
          Waiting (Client.ConsoleLog "Job J1 status: processing");
          Waiting (Client.SetTimeout 2000);
          Waiting (Client.StatusQuery "J1");
          Waiting (Client.ConsoleLog "Job J1 status: processing");
          Waiting (Client.SetTimeout 2000);
          Waiting (Client.StatusQuery "J1");
          ConsoleLog "Job completed!"; ConsoleLog "Final status: failed"; ConsoleLog ""].
Proof. reflexivity. Qed.

Example main_on_an_unreachable_service :
  wait_and_report 3 Client.unreachable (fun _ => NoResponse) (JStr "J1")
  = Some [Waiting (Client.StatusQuery "J1");
          ConsoleErrorWith "No response received:" (JStr "Network Error");
          ConsoleError "Job timed out: Network Error"; ConsoleLog ""].
Proof. reflexivity. Qed.

Example main_on_a_missing_job :
  wait_and_report 3 (Client.mkWorld Client.ticking (fun _ _ => Throw Samples.not_found))
                  (fun _ => BadStatus 404 "Not Found" (JObj [("detail", JStr "Not found.")]))
                  (JStr "J1")
  = Some [Waiting (Client.StatusQuery "J1");
          ConsoleError "API Error: 404 - Not Found";
          ConsoleErrorWith "Response:" (JObj [("detail", JStr "Not found.")]);
          ConsoleError "Job timed out: Request failed with status code 404"; ConsoleLog ""].
Proof. reflexivity. Qed.

(** *** How waitForJob settles *)

Lemma count_queries_round j l ms t :
  count_queries (Client.StatusQuery j :: Client.ConsoleLog l :: Client.SetTimeout ms :: t)
  = S (count_queries t).
Proof. reflexivity. Qed.

(** Whatever the loop settles with, it does so for one of three reasons, and
    the reason fixes the number of queries made. *)
Lemma wait_loop_outcome w jobId timeout ms steps : forall i0 r t,
  (forall k, k < i0 ->
     (Client.now w (S k) - Client.now w 0 < timeout * 1000)%Z /\ goes_on w jobId k) ->
  Client.wait_loop steps w jobId timeout (Client.now w 0) (timeout * 1000) ms i0
  = (Some r, t) ->
  (exists i status, first_terminal_at w jobId timeout i status
                    /\ r = Normal status /\ i0 + count_queries t = S i)
  \/ (exists n, deadline_at w jobId timeout n
                /\ r = Throw (Client.timeout_error jobId timeout)
                /\ i0 + count_queries t = n)
  \/ (exists i e, fails_at w jobId timeout i e
                  /\ r = Throw e /\ i0 + count_queries t = S i).
Proof.
  induction steps as [| steps IH]; intros i0 r t Hprev; cbn [Client.wait_loop];
    [discriminate |].
  destruct (Z.ltb_spec (Client.now w (S i0) - Client.now w 0) (timeout * 1000))
    as [Hin | Hpast].
  2:{ intros [= <- <-]. right; left. exists i0. split; [split; assumption |].
      split; [reflexivity | cbn; lia]. }
  assert (Hupto : forall k, k <= i0 ->
            (Client.now w (S k) - Client.now w 0 < timeout * 1000)%Z).
  { intros k Hk. destruct (Nat.eq_dec k i0) as [-> | Hne]; [exact Hin |].
    apply Hprev. lia. }
  assert (Hgo : forall k, k < i0 -> goes_on w jobId k) by (intros k Hk; now apply Hprev).
  destruct (Client.getJobStatus w jobId i0) as [status | e] eqn:Eq.
  2:{ intros [= <- <-]. right; right. exists i0, e.
      split; [split; [exact Hupto | split; [exact Hgo | now left]] |].
      split; [reflexivity | cbn; lia]. }
  destruct (get status "status") as [st | e] eqn:Eg.
  2:{ intros [= <- <-]. right; right. exists i0, e.
      split; [split; [exact Hupto | split; [exact Hgo |]] |].
      - right. exists status. auto.
      - split; [reflexivity | cbn; lia]. }
  destruct (Client.is_terminal st) eqn:Et.
  { intros [= <- <-]. left. exists i0, status.
    split; [split; [exact Hupto | split; [exact Hgo | split; [exact Eq | eauto]]] |].
    split; [reflexivity | cbn; lia]. }
  destruct (to_string (js_or st (JStr "unknown"))) as [shown | e] eqn:Es.
  2:{ intros [= <- <-]. right; right. exists i0, e.
      split; [split; [exact Hupto | split; [exact Hgo |]] |].
      - right. exists status. split; [exact Eq |]. right. exists st. auto.
      - split; [reflexivity | cbn; lia]. }
  destruct (Client.wait_loop steps w jobId timeout (Client.now w 0) (timeout * 1000) ms (S i0))
    as [r' t'] eqn:El.
  intros [= -> <-].
  assert (Hnext : forall k, k < S i0 ->
            (Client.now w (S k) - Client.now w 0 < timeout * 1000)%Z /\ goes_on w jobId k).
  { intros k Hk. destruct (Nat.eq_dec k i0) as [-> | Hne]; [| apply Hprev; lia].
    split; [exact Hin |]. exists status, st, shown. auto. }
  rewrite count_queries_round, Nat.add_succ_r.
  exact (IH (S i0) r t' Hnext El).
Qed.

Lemma waitForJob_deadline w jobId timeout pollInterval n m :
  deadline_at w jobId timeout n ->
  exists lines,
    List.length lines = n
    /\ Client.waitForJob (S (n + m)) w jobId timeout pollInterval
       = (Some (Throw (Client.timeout_error jobId timeout)),
          rounds jobId (pollInterval * 1000) lines).
Proof.
  intros (Hgo & Hpast).
  destruct (waitForJob_until w jobId timeout pollInterval n m Hgo) as (lines & Hlen & ->).
  cbn [Client.wait_loop].
  destruct (Z.ltb_spec (Client.now w (S n) - Client.now w 0) (timeout * 1000)); [lia |].
  cbn [fst snd]. rewrite app_nil_r. eauto.
Qed.

Lemma waitForJob_resolves w jobId timeout pollInterval i status m :
  first_terminal_at w jobId timeout i status ->
  exists lines,
    List.length lines = i
    /\ Client.waitForJob (S (i + m)) w jobId timeout pollInterval
       = (Some (Normal status),
          rounds jobId (pollInterval * 1000) lines +++ [Client.StatusQuery jobId]).
Proof.
  intros (Hin & Hgo & Hq & st & Hg & Hterm).
  destruct (waitForJob_until w jobId timeout pollInterval i m) as (lines & Hlen & ->).
  { intros k Hk. split; [apply Hin; lia | now apply Hgo]. }
  cbn [Client.wait_loop].
  destruct (Z.ltb_spec (Client.now w (S i) - Client.now w 0) (timeout * 1000));
    [| specialize (Hin i (Nat.le_refl i)); lia].
  rewrite Hq, Hg, Hterm. cbn [fst snd]. eauto.
Qed.

Lemma waitForJob_rejects w jobId timeout pollInterval i e m :
  fails_at w jobId timeout i e ->
  exists lines,
    List.length lines = i
    /\ Client.waitForJob (S (i + m)) w jobId timeout pollInterval
       = (Some (Throw e),
          rounds jobId (pollInterval * 1000) lines +++ [Client.StatusQuery jobId]).
Proof.
  intros (Hin & Hgo & Hthrown).
  destruct (waitForJob_until w jobId timeout pollInterval i m) as (lines & Hlen & ->).
  { intros k Hk. split; [apply Hin; lia | now apply Hgo]. }
  cbn [Client.wait_loop].
  destruct (Z.ltb_spec (Client.now w (S i) - Client.now w 0) (timeout * 1000));
    [| specialize (Hin i (Nat.le_refl i)); lia].
  destruct Hthrown as [Hq | (status & Hq & [Hg | (st & Hg & Hterm & Hs)])].
  - rewrite Hq. cbn [fst snd]. eauto.
  - rewrite Hq, Hg. cbn [fst snd]. eauto.
  - rewrite Hq, Hg, Hterm, Hs. cbn [fst snd]. eauto.
Qed.

(** C3, as the code has it.  [waitForJob] settles in exactly three ways.
    - It resolves with the response of the first status query whose [status]
      is [completed], [failed] or [cancelled], whichever of the three, when
      that query is made within the deadline.
    - When no terminal status has been observed by the time a loop test finds
      [timeout * 1000] ms elapsed, it is rejected with the timeout error.
    - When, before either, a status query fails, or its response cannot be
      read or printed, it is rejected with the error thrown there.
    Each way fixes the number of status queries made.  There is no other way:
    in particular it never resolves with a response whose [status] is not
    one of the three; and once a reading of the clock is past the deadline
    it has settled. *)
Theorem waitForJob_outcomes w jobId timeout pollInterval :
  (forall i status m,
     first_terminal_at w jobId timeout i status ->
     exists t,
       Client.waitForJob (S (i + m)) w jobId timeout pollInterval = (Some (Normal status), t)
       /\ count_queries t = S i)
  /\ (forall n m,
        deadline_at w jobId timeout n ->
        exists t,
          Client.waitForJob (S (n + m)) w jobId timeout pollInterval
          = (Some (Throw (Client.timeout_error jobId timeout)), t)
          /\ count_queries t = n)
  /\ (forall i e m,
        fails_at w jobId timeout i e ->
        exists t,
          Client.waitForJob (S (i + m)) w jobId timeout pollInterval = (Some (Throw e), t)
          /\ count_queries t = S i)
  /\ (forall steps r t,
        Client.waitForJob steps w jobId timeout pollInterval = (Some r, t) ->
        (exists i status, first_terminal_at w jobId timeout i status
                          /\ r = Normal status /\ count_queries t = S i)
        \/ (exists n, deadline_at w jobId timeout n
                      /\ r = Throw (Client.timeout_error jobId timeout)
                      /\ count_queries t = n)
        \/ (exists i e, fails_at w jobId timeout i e
                        /\ r = Throw e /\ count_queries t = S i))
  /\ (forall steps status t,
        Client.waitForJob steps w jobId timeout pollInterval = (Some (Normal status), t) ->
        exists st, get status "status" = Normal st /\ Client.is_terminal st = true)
  /\ (forall n,
        (timeout * 1000 <= Client.now w (S n) - Client.now w 0)%Z ->
        exists r t, Client.waitForJob (S n) w jobId timeout pollInterval = (Some r, t)).
Proof.
  assert (Hall : forall steps r t,
            Client.waitForJob steps w jobId timeout pollInterval = (Some r, t) ->
            (exists i status, first_terminal_at w jobId timeout i status
                              /\ r = Normal status /\ count_queries t = S i)
            \/ (exists n, deadline_at w jobId timeout n
                          /\ r = Throw (Client.timeout_error jobId timeout)
                          /\ count_queries t = n)
            \/ (exists i e, fails_at w jobId timeout i e
                            /\ r = Throw e /\ count_queries t = S i)).
  { intros steps r t H. unfold Client.waitForJob in H.
    apply wait_loop_outcome in H; [exact H |]. intros k Hk. lia. }
  split; [| split; [| split; [| split; [| split]]]].
  - intros i status m Hfirst.
    destruct (waitForJob_resolves w jobId timeout pollInterval i status m Hfirst)
      as (lines & Hlen & ->).
    eexists. split; [reflexivity |]. now apply count_queries_last.
  - intros n m Hdead.
    destruct (waitForJob_deadline w jobId timeout pollInterval n m Hdead)
      as (lines & Hlen & ->).
    eexists. split; [reflexivity |].
    rewrite <- (app_nil_r (rounds _ _ _)), count_queries_rounds, Hlen. cbn. lia.
  - intros i e m Hfails.
    destruct (waitForJob_rejects w jobId timeout pollInterval i e m Hfails)
      as (lines & Hlen & ->).
    eexists. split; [reflexivity |]. now apply count_queries_last.
  - exact Hall.
  - intros steps status t H.
    destruct (Hall steps (Normal status) t H)
      as [(i & status' & Hfirst & [= <-] & _) | [(n & _ & Hr & _) | (i & e & _ & Hr & _)]];
      [| discriminate | discriminate].
    destruct Hfirst as (_ & _ & _ & st & Hg & Hterm). eauto.
  - intros n Hpast. unfold Client.waitForJob.
    exact (ClientFacts.wait_loop_finishes w jobId timeout (Client.now w 0) (timeout * 1000)
             (pollInterval * 1000) n 0 Hpast).
Qed.

Lemma waitForJob_outcomes_witness :
  (exists t,
     Client.waitForJob 3 Client.fails_third "J1" 300 2
     = (Some (Normal (Client.status_body "failed")), t)
     /\ count_queries t = 3)
  /\ (exists t,
        Client.waitForJob 3 steady "J1" 4 2
        = (Some (Throw (Client.timeout_error "J1" 4)), t)
        /\ count_queries t = 1)
  /\ (exists t,
        Client.waitForJob 1 Client.unreachable "J1" 300 2
        = (Some (Throw Client.network_error), t)
        /\ count_queries t = 1).
Proof.
  split; [| split].
  - refine (proj1 (waitForJob_outcomes Client.fails_third "J1" 300 2) 2
              (Client.status_body "failed") 0 _).
    split; [| split; [| split]].
    + intros k Hk. destruct k as [| [| [| k]]]; [reflexivity | reflexivity | reflexivity | lia].
    + intros k Hk. exists (Client.status_body "processing"), (JStr "processing"), "processing".
      destruct k as [| [| k]]; [repeat split | repeat split | lia].
    + reflexivity.
    + exists (JStr "failed"). split; reflexivity.
  - refine (proj1 (proj2 (waitForJob_outcomes steady "J1" 4 2)) 1 1 _).
    split.
    + intros k Hk. destruct k as [| k]; [| lia].
      split; [reflexivity |].
      exists (Client.status_body "processing"), (JStr "processing"), "processing".
      repeat split.
    + vm_compute. discriminate.
  - refine (proj1 (proj2 (proj2 (waitForJob_outcomes Client.unreachable "J1" 300 2)))
              0 Client.network_error 0 _).
    split; [| split].
    + intros k Hk. destruct k as [| k]; [reflexivity | lia].
    + intros k Hk. lia.
    + left. reflexivity.
Defined.

End ClientApiFacts.

(* ================================================================== *)
(** ** The polling script as a whole                                   *)
(* ================================================================== *)

Module PollScriptMainFacts.
Import PollScript.
Import PollScriptMain(output_file).

Lemma first_terminal_unique w a b : first_terminal w a -> first_terminal w b -> a = b.
Proof.
  intros (Ha1 & Hat & Hab) (Hb1 & Hbt & Hbb).
  destruct (Nat.lt_trichotomy a b) as [H | [H | H]]; [| exact H |].
  - rewrite Hbb in Hat by lia. discriminate.
  - rewrite Hab in Hbt by lia. discriminate.
Qed.

(** How a run leaves the loop, in terms of the statuses the service gives. *)
Lemma poll_loop_leaves w j max interval :
  let '(l, a, t) := poll_loop w j max interval max 0 in
  match l with
  | Break => a <= max /\ first_terminal w a /\ STATUS (status_response w a) = "completed"
  | Exit code =>
      code = 1 /\ a <= max /\ first_terminal w a
      /\ STATUS (status_response w a) <> "completed"
  | Exhausted => a = max /\ never_terminal w max
  end.
Proof.
  pose proof (PollScriptFacts.poll_loop_spec w j max interval max 0) as Hs.
  destruct (poll_loop w j max interval max 0) as [[l a] t].
  destruct Hs as (Hr & _ & Hn & Hl).
  destruct l as [code | |].
  - destruct Hl as (Hlt & -> & Hst & _).
    assert (Hft : first_terminal w a).
    { split; [lia | split; [destruct Hst as [-> | ->]; reflexivity |]].
      intros k Hk. apply Hn. lia. }
    split; [reflexivity | split; [lia | split; [exact Hft |]]].
    destruct Hst as [-> | ->]; discriminate.
  - destruct Hl as (Hlt & Hst & _).
    split; [lia | split; [| exact Hst]].
    split; [lia | split; [now rewrite Hst |]].
    intros k Hk. apply Hn. lia.
  - destruct Hl as (-> & Hall & _). split; [reflexivity |].
    intros k Hk. apply Hall. lia.
Qed.

Lemma poll_exit_status w u j max interval :
  (fst (poll w u j max interval) = 0 <->
   exists k, k < max /\ first_terminal w k /\ STATUS (status_response w k) = "completed")
  /\ (fst (poll w u j max interval) = 0 \/ fst (poll w u j max interval) = 1).
Proof.
  pose proof (poll_loop_leaves w j max interval) as Hl. unfold poll.
  destruct (poll_loop w j max interval max 0) as [[l a] t].
  destruct l as [code | |].
  - destruct Hl as (-> & Ha & Hft & Hnc). cbn [fst]. split; [| auto].
    split; [discriminate |]. intros (k & _ & Hk & Hc).
    rewrite (first_terminal_unique _ _ _ Hk Hft) in Hc. contradiction.
  - destruct Hl as (Ha & Hft & Hc).
    destruct (Nat.eqb_spec a max) as [-> | Hne]; cbn [fst]; (split; [| auto]).
    + split; [discriminate |]. intros (k & Hlt & Hk & _).
      rewrite (first_terminal_unique _ _ _ Hk Hft) in Hlt. lia.
    + split; [| reflexivity]. intros _. exists a. repeat split; auto; try lia;
        destruct Hft as (? & ? & ?); auto.
  - destruct Hl as (-> & Hnever). rewrite Nat.eqb_refl. cbn [fst]. split; [| auto].
    split; [discriminate |]. intros (k & Hlt & (H1 & Hterm & _) & _).
    rewrite Hnever in Hterm by lia. discriminate.
Qed.

(** X15.  The script exits with status 0 exactly when some attempt before
    the last allowed one is the first to see a terminal status and that
    status is [completed]; in every other case it exits with status 1: on
    [failed], on [cancelled], when no attempt sees a terminal status, and
    also when the job is seen [completed] on the last allowed attempt. *)
Theorem script_exit_status w u j max interval :
  (fst (poll w u j max interval) = 0 <->
   exists k, k < max /\ first_terminal w k /\ STATUS (status_response w k) = "completed")
  /\ (fst (poll w u j max interval) = 0 \/ fst (poll w u j max interval) = 1)
  /\ (first_terminal w max -> fst (poll w u j max interval) = 1).
Proof.
  destruct (poll_exit_status w u j max interval) as (Hiff & H01).
  split; [exact Hiff | split; [exact H01 |]].
  intros Hmax. destruct H01 as [H0 | H1]; [| exact H1].
  apply Hiff in H0 as (k & Hlt & Hk & _).
  rewrite (first_terminal_unique _ _ _ Hk Hmax) in Hlt. lia.
Qed.

Lemma script_exit_status_witness :
  fst (poll (mkWorld (fun k => if Nat.eqb k 2 then answer "completed" "" else answer "processing" "")
                     true None)
            "https://creolecentric.com/api/v1" "J1" 2 2) = 1.
Proof.
  refine (proj2 (proj2 (script_exit_status _ "https://creolecentric.com/api/v1" "J1" 2 2)) _).
  split; [lia | split; [reflexivity |]].
  intros k Hk. assert (k = 1) as -> by lia. reflexivity.
Defined.

(** *** What the script downloads *)

Lemma downloads_completed w j v :
  downloads (completed_branch w j v)
  = if present (AUDIO_URL v) then [CurlDownload (output_file j) (AUDIO_URL v)] else [].
Proof.
  unfold completed_branch.
  rewrite !PollScriptFacts.downloads_app, !PollScriptFacts.downloads_opt_line.
  destruct (present (AUDIO_URL v)); [| reflexivity].
  destruct (curl_download_ok w); [destruct (du w) |]; reflexivity.
Qed.

Lemma poll_loop_downloads w j max interval remaining : forall a0,
  let '(l, a, t) := poll_loop w j max interval remaining a0 in
  downloads t
  = match l with
    | Break => downloads (completed_branch w j (status_response w a))
    | _ => []
    end.
Proof.
  induction remaining as [| remaining IH]; intros a0; cbn [poll_loop]; [reflexivity |].
  destruct (String.eqb (STATUS (status_response w (a0 + 1))) "completed").
  { now rewrite PollScriptFacts.downloads_head. }
  destruct (String.eqb (STATUS (status_response w (a0 + 1))) "failed").
  { now rewrite PollScriptFacts.downloads_head, PollScriptFacts.downloads_failed. }
  destruct (String.eqb (STATUS (status_response w (a0 + 1))) "cancelled").
  { reflexivity. }
  specialize (IH (a0 + 1)).
  destruct (poll_loop w j max interval remaining (a0 + 1)) as [[l a] t].
  rewrite PollScriptFacts.downloads_head. exact IH.
Qed.

Lemma poll_downloads w u j max interval :
  downloads (snd (poll w u j max interval))
  = downloads (snd (poll_loop w j max interval max 0)).
Proof.
  unfold poll.
  destruct (poll_loop w j max interval max 0) as [[l a] t]. cbn [snd].
  destruct l; [reflexivity | |];
    destruct (Nat.eqb a max); cbn [snd];
    rewrite PollScriptFacts.downloads_app; cbn; now rewrite app_nil_r.
Qed.



(** *** Before the polling loop *)

Lemma filter_step2_map t :
  filter PollScriptMain.is_step2 (map PollScriptMain.Step2 t) = map PollScriptMain.Step2 t.
Proof. induction t as [| a t IH]; cbn; [reflexivity | now rewrite IH]. Qed.

Lemma filter_create_map t :
  filter PollScriptMain.is_create (map PollScriptMain.Step2 t) = [].
Proof. induction t as [| a t IH]; cbn; [reflexivity | exact IH]. Qed.

(** X17.  The script as a whole.  With the API key unset, empty or left at
    its placeholder it stops with status 1 before any request.  It reaches
    the polling loop exactly when the key is set, the creation request
    printed something, and (only where [jq] is installed) the extracted job
    id is not [null]; otherwise it exits with status 1 without a status
    query.  When it polls, it has made one creation request and its exit
    status is that of the polling loop.  Without [jq] the job id is not
    checked at all. *)
Theorem script_preliminaries s :
  (PollScriptMain.env_API_KEY s = None \/ PollScriptMain.env_API_KEY s = Some ""
   \/ PollScriptMain.env_API_KEY s = Some PollScriptMain.placeholder_key ->
   PollScriptMain.run s
   = (1, [PollScriptMain.Echo "Error: Please set your API key";
          PollScriptMain.Echo "export CREOLECENTRIC_API_KEY='cc_your_actual_key'"]))
  /\ (PollScriptMain.reaches_polling s = false ->
      fst (PollScriptMain.run s) = 1
      /\ filter PollScriptMain.is_step2 (snd (PollScriptMain.run s)) = [])
  /\ (PollScriptMain.reaches_polling s = true ->
      let p := script (PollScriptMain.polling s) PollScriptMain.API_BASE_URL
                      (PollScriptMain.JOB_ID s) in
      fst (PollScriptMain.run s) = fst p
      /\ filter PollScriptMain.is_step2 (snd (PollScriptMain.run s))
         = map PollScriptMain.Step2 (snd p)
      /\ filter PollScriptMain.is_create (snd (PollScriptMain.run s))
         = [PollScriptMain.CurlCreate (PollScriptMain.api_key s)])
  /\ (PollScriptMain.has_jq s = false ->
      String.eqb (PollScriptMain.api_key s) PollScriptMain.placeholder_key = false ->
      String.eqb (PollScriptMain.RESPONSE s) "" = false ->
      PollScriptMain.reaches_polling s = true).
Proof.
  unfold PollScriptMain.reaches_polling, PollScriptMain.run.
  split; [| split; [| split]].
  - intros H.
    assert (Hk : PollScriptMain.api_key s = PollScriptMain.placeholder_key).
    { unfold PollScriptMain.api_key. destruct H as [-> | [-> | ->]]; reflexivity. }
    now rewrite Hk.
  - destruct (String.eqb (PollScriptMain.api_key s) PollScriptMain.placeholder_key);
      [intros _; split; reflexivity |].
    destruct (String.eqb (PollScriptMain.RESPONSE s) ""); cbn [negb andb].
    + intros _. cbn [fst snd]. split; [reflexivity |].
      rewrite !filter_app. unfold PollScriptMain.jq_warning.
      destruct (PollScriptMain.has_jq s); reflexivity.
    + destruct (PollScriptMain.has_jq s && String.eqb (PollScriptMain.JOB_ID s) "null")
        eqn:Hj; [| discriminate].
      intros _. cbn [fst snd]. split; [reflexivity |].
      rewrite !filter_app. unfold PollScriptMain.jq_warning.
      destruct (PollScriptMain.has_jq s); reflexivity.
  - destruct (String.eqb (PollScriptMain.api_key s) PollScriptMain.placeholder_key);
      [discriminate |].
    destruct (String.eqb (PollScriptMain.RESPONSE s) ""); [discriminate |].
    destruct (PollScriptMain.has_jq s && String.eqb (PollScriptMain.JOB_ID s) "null");
      [discriminate |].
    intros _. cbv zeta.
    destruct (script (PollScriptMain.polling s) PollScriptMain.API_BASE_URL
                (PollScriptMain.JOB_ID s)) as [code t2].
    cbn [fst snd]. split; [reflexivity |].
    rewrite !filter_app, filter_step2_map, filter_create_map.
    unfold PollScriptMain.jq_warning.
    destruct (PollScriptMain.has_jq s); split; reflexivity.
  - intros -> -> ->. reflexivity.
Qed.

Lemma script_preliminaries_witness :
  PollScriptMain.run (PollScriptMain.mkSetup None true "" "" "" ""
                        (always (answer "processing" "")))
  = (1, [PollScriptMain.Echo "Error: Please set your API key";
         PollScriptMain.Echo "export CREOLECENTRIC_API_KEY='cc_your_actual_key'"]).
Proof.
  exact (proj1 (script_preliminaries
                  (PollScriptMain.mkSetup None true "" "" "" ""
                     (always (answer "processing" ""))))
               (or_introl eq_refl)).
Defined.

Example script_without_jq_polls_an_empty_job_id :
  let s := PollScriptMain.mkSetup (Some "cc_key") false "<html>Bad Gateway</html>" "" "" ""
             (always (answer "" "")) in
  fst (PollScriptMain.run s) = 1
  /\ List.length (filter PollScriptMain.is_step2 (snd (PollScriptMain.run s))) = 95.
Proof. split; reflexivity. Qed.

End PollScriptMainFacts.

(* ================================================================== *)
(** ** The two pollers, attempt by attempt                             *)
(* ================================================================== *)

Module PollingFacts.
Import JS PollScript.

Section Exact.
Variables (w : world) (JOB_ID : string) (max interval : nat).

Lemma queries_rounds l : forall t,
  queries (flat_map (attempt_round w max interval) l +++ t) = map CurlStatus l +++ queries t.
Proof. induction l as [| a l IH]; intros t; cbn; [reflexivity | now rewrite IH]. Qed.

Lemma downloads_rounds l : forall t,
  downloads (flat_map (attempt_round w max interval) l +++ t) = downloads t.
Proof. induction l as [| a l IH]; intros t; cbn; [reflexivity | now rewrite IH]. Qed.

(** What the loop does, exactly: one round per attempt without a terminal
    status, then, unless the attempts are spent, the query and the status
    line of the attempt that sees one, and the lines of its branch. *)
Lemma poll_loop_exact remaining : forall a0,
  let '(l, a, t) := poll_loop w JOB_ID max interval remaining a0 in
  match l with
  | Exhausted =>
      t = flat_map (attempt_round w max interval) (seq (a0 + 1) remaining)
  | Break =>
      a0 < a
      /\ t = flat_map (attempt_round w max interval) (seq (a0 + 1) (a - a0 - 1))
             +++ [CurlStatus a; Echo (attempt_line max a (status_response w a))]
             +++ completed_branch w JOB_ID (status_response w a)
  | Exit _ =>
      a0 < a
      /\ t = flat_map (attempt_round w max interval) (seq (a0 + 1) (a - a0 - 1))
             +++ [CurlStatus a; Echo (attempt_line max a (status_response w a))]
             +++ (if String.eqb (STATUS (status_response w a)) "failed"
                  then failed_branch (status_response w a)
                  else cancelled_branch)
  end.
Proof.
  induction remaining as [| remaining IH]; intros a0; cbn [poll_loop]; [reflexivity |].
  destruct (String.eqb (STATUS (status_response w (a0 + 1))) "completed") eqn:Ec.
  { replace (a0 + 1 - a0 - 1) with 0 by lia. split; [lia | reflexivity]. }
  destruct (String.eqb (STATUS (status_response w (a0 + 1))) "failed") eqn:Ef.
  { replace (a0 + 1 - a0 - 1) with 0 by lia. rewrite Ef. split; [lia | reflexivity]. }
  destruct (String.eqb (STATUS (status_response w (a0 + 1))) "cancelled") eqn:Ek.
  { replace (a0 + 1 - a0 - 1) with 0 by lia. rewrite Ef. split; [lia | reflexivity]. }
  specialize (IH (a0 + 1)).
  destruct (poll_loop w JOB_ID max interval remaining (a0 + 1)) as [[l a] t].
  assert (Hstep : forall n rest,
            [CurlStatus (a0 + 1); Echo (attempt_line max (a0 + 1) (status_response w (a0 + 1)))]
            +++ Sleep interval
                :: flat_map (attempt_round w max interval) (seq (a0 + 1 + 1) n) +++ rest
            = flat_map (attempt_round w max interval) (seq (a0 + 1) (S n)) +++ rest).
  { intros n rest. cbn [seq flat_map attempt_round app].
    now replace (S (a0 + 1)) with (a0 + 1 + 1) by lia. }
  destruct l as [code | |].
  - destruct IH as (Hlt & ->). split; [lia |].
    replace (a - a0 - 1) with (S (a - (a0 + 1) - 1)) by lia. apply Hstep.
  - destruct IH as (Hlt & ->). split; [lia |].
    replace (a - a0 - 1) with (S (a - (a0 + 1) - 1)) by lia. apply Hstep.
  - subst t. rewrite <- (app_nil_r (flat_map _ (seq (a0 + 1) (S remaining)))).
    rewrite <- (Hstep remaining []). now rewrite app_nil_r.
Qed.

End Exact.

(** A whole run in which no attempt sees a terminal status. *)
Lemma poll_never_terminal w u j max interval :
  never_terminal w max ->
  poll w u j max interval
  = (1, flat_map (attempt_round w max interval) (seq 1 max) +++ timeout_lines u j).
Proof.
  intros Hnever.
  destruct (PollScriptFacts.poll_loop_never_terminal w j max interval Hnever)
    as (t & Hl & _).
  pose proof (poll_loop_exact w j max interval max 0) as He.
  unfold poll. rewrite Hl in *. cbn [Nat.add] in He. subst t.
  now rewrite Nat.eqb_refl.
Qed.

(** A whole run whose first terminal status is not [completed]. *)
Lemma poll_unsuccessful w u j max interval k :
  k <= max -> first_terminal w k ->
  STATUS (status_response w k) <> "completed" ->
  poll w u j max interval
  = (1, flat_map (attempt_round w max interval) (seq 1 (k - 1))
        +++ [CurlStatus k; Echo (attempt_line max k (status_response w k))]
        +++ (if String.eqb (STATUS (status_response w k)) "failed"
             then failed_branch (status_response w k)
             else cancelled_branch)).
Proof.
  intros Hk Hfirst Hnc.
  destruct (PollScriptFacts.poll_loop_first_terminal w j max interval k Hk Hfirst)
    as (l & t & Hl & Hne & _ & _).
  pose proof (PollScriptFacts.poll_loop_spec w j max interval max 0) as Hs.
  pose proof (poll_loop_exact w j max interval max 0) as He.
  unfold poll. rewrite Hl in *.
  destruct Hs as (_ & _ & _ & Hcase).
  destruct l as [code | |]; [| | congruence].
  - destruct Hcase as (_ & -> & _). destruct He as (_ & ->).
    cbn [Nat.add]. now rewrite Nat.sub_0_r.
  - destruct Hcase as (_ & Hst & _). contradiction.
Qed.

(** A whole run up to the attempt that sees the first terminal status. *)
Lemma poll_until_terminal w u j max interval k :
  k <= max -> first_terminal w k ->
  exists tail,
    snd (poll w u j max interval)
    = flat_map (attempt_round w max interval) (seq 1 (k - 1))
      +++ CurlStatus k :: Echo (attempt_line max k (status_response w k)) :: tail
    /\ queries tail = [] /\ sleeps tail = [].
Proof.
  intros Hk Hfirst.
  destruct (PollScriptFacts.poll_loop_first_terminal w j max interval k Hk Hfirst)
    as (l & t & Hl & Hne & _ & _).
  pose proof (poll_loop_exact w j max interval max 0) as He.
  unfold poll. rewrite Hl in *. cbn [Nat.add] in He. rewrite Nat.sub_0_r in He.
  destruct l as [code | |]; [| | congruence].
  - destruct He as (_ & ->). cbn [snd]. eexists. split; [reflexivity |].
    destruct (String.eqb (STATUS (status_response w k)) "failed").
    + split; [apply PollScriptFacts.queries_failed | apply PollScriptFacts.sleeps_failed].
    + split; reflexivity.
  - destruct He as (_ & ->).
    destruct (Nat.eqb k max); cbn [snd]; rewrite <- !app_assoc; cbn [app];
      (eexists; split; [reflexivity |]);
      rewrite PollScriptFacts.queries_app, PollScriptFacts.sleeps_app,
        PollScriptFacts.queries_completed, PollScriptFacts.sleeps_completed;
      split; reflexivity.
Qed.

(** C4, counterexample: [waitForJob] with its default arguments, a job that
    stays [processing], a clock that advances by the two seconds of each
    pause.  It makes 149 status queries, far more than the 30 of the script,
    before it is rejected with the timeout error: its budget is the time
    elapsed, not a number of attempts. *)
Lemma waitForJob_has_no_attempt_budget :
  let run := Client.waitForJob 150 ClientApi.steady "J1" Client.default_timeout
               Client.default_pollInterval in
  fst run = Some (Throw (Client.timeout_error "J1" 300))
  /\ ClientApi.count_queries (snd run) = 149
  /\ MAX_ATTEMPTS < ClientApi.count_queries (snd run).
Proof.
  cbv zeta.
  assert (H : ClientApi.count_queries
                (snd (Client.waitForJob 150 ClientApi.steady "J1" Client.default_timeout
                        Client.default_pollInterval)) = 149) by (vm_compute; reflexivity).
  split; [vm_compute; reflexivity | split; [exact H |]].
  rewrite H. unfold MAX_ATTEMPTS. lia.
Qed.

(** C4, as the code has it.

    The polling script, for any [MAX_ATTEMPTS] and [POLL_INTERVAL] (it sets
    them to 30 and 2):
    - makes at most [MAX_ATTEMPTS] status queries;
    - when no attempt sees [completed], [failed] or [cancelled], its run is
      exactly [MAX_ATTEMPTS] rounds of query, status line and pause of
      [POLL_INTERVAL] seconds, followed by the timeout message, and its exit
      status is 1;
    - when attempt [k] is the first to see one of them, its run is exactly
      [k - 1] such rounds, then the query and the status line of attempt
      [k], then lines without any further query or pause.

    The client's [waitForJob] has no attempt budget.  Its run is whole rounds
    of query, log line and pause of [pollInterval * 1000] ms (300 s and 2 s
    by default), then nothing or one last query:
    - when query [i] is the first to get a terminal status, within the
      deadline, exactly [i] rounds and that query, and it resolves;
    - when the loop test of iteration [n] is the first to find
      [timeout * 1000] ms elapsed, exactly [n] rounds, and it is rejected
      with the timeout error. *)
Theorem polling_budgets :
  (forall w u j max interval,
     List.length (queries (snd (poll w u j max interval))) <= max
     /\ (never_terminal w max ->
         poll w u j max interval
         = (1, flat_map (fun a => [CurlStatus a;
                                   Echo (attempt_line max a (status_response w a));
                                   Sleep interval])
                        (seq 1 max)
               +++ [Echo "";
                    Echo "✗ Timeout: Job did not complete within expected time";
                    Echo "  You can check the status later using:";
                    Echo ("  curl -X GET " ++ dq ++ u ++ "/tts/jobs/" ++ j ++ "/" ++ dq ++ " \");
                    Echo ("    -H " ++ dq ++ "Authorization: ApiKey $CREOLECENTRIC_API_KEY"
                            ++ dq)]))
     /\ (forall k, k <= max -> first_terminal w k ->
           exists tail,
             snd (poll w u j max interval)
             = flat_map (fun a => [CurlStatus a;
                                   Echo (attempt_line max a (status_response w a));
                                   Sleep interval])
                        (seq 1 (k - 1))
               +++ CurlStatus k :: Echo (attempt_line max k (status_response w k)) :: tail
             /\ queries tail = [] /\ sleeps tail = [])
     /\ script w u j = poll w u j 30 2)
  /\ (forall w jobId timeout pollInterval,
        (forall i status m,
           ClientApi.first_terminal_at w jobId timeout i status ->
           exists lines,
             List.length lines = i
             /\ Client.waitForJob (S (i + m)) w jobId timeout pollInterval
                = (Some (Normal status),
                   flat_map (fun l => [Client.StatusQuery jobId; Client.ConsoleLog l;
                                       Client.SetTimeout (pollInterval * 1000)])
                            lines
                   +++ [Client.StatusQuery jobId]))
        /\ (forall n m,
              ClientApi.deadline_at w jobId timeout n ->
              exists lines,
                List.length lines = n
                /\ Client.waitForJob (S (n + m)) w jobId timeout pollInterval
                   = (Some (Throw (Client.timeout_error jobId timeout)),
                      flat_map (fun l => [Client.StatusQuery jobId; Client.ConsoleLog l;
                                          Client.SetTimeout (pollInterval * 1000)])
                               lines))
        /\ (forall steps,
              exists lines tail,
                snd (Client.waitForJob steps w jobId timeout pollInterval)
                = flat_map (fun l => [Client.StatusQuery jobId; Client.ConsoleLog l;
                                      Client.SetTimeout (pollInterval * 1000)])
                           lines
                  +++ tail
                /\ (tail = [] \/ tail = [Client.StatusQuery jobId])
                /\ List.length lines + List.length tail <= steps))
  /\ Client.default_timeout = 300%Z
  /\ Client.default_pollInterval = 2%Z.
Proof.
  split; [| split; [| split; reflexivity]].
  - intros w u j max interval. split; [| split; [| split; [| reflexivity]]].
    + destruct (PollScriptFacts.poll_trace w u j max interval) as [Hq _].
      pose proof (PollScriptFacts.poll_loop_spec w j max interval max 0) as Hspec.
      rewrite Hq.
      destruct (poll_loop w j max interval max 0) as [[l a] t].
      destruct Hspec as (Hr & Hqs & _). cbn [snd]. rewrite Hqs, length_map, length_seq. lia.
    + intros Hnever. exact (poll_never_terminal w u j max interval Hnever).
    + intros k Hk Hfirst. exact (poll_until_terminal w u j max interval k Hk Hfirst).
  - intros w jobId timeout pollInterval. split; [| split].
    + intros i status m Hfirst.
      exact (ClientApiFacts.waitForJob_resolves w jobId timeout pollInterval i status m Hfirst).
    + intros n m Hdead.
      exact (ClientApiFacts.waitForJob_deadline w jobId timeout pollInterval n m Hdead).
    + intros steps. unfold Client.waitForJob.
      exact (ClientApiFacts.wait_loop_shape w jobId timeout (Client.now w 0) (timeout * 1000)
               (pollInterval * 1000) steps 0).
Qed.

Lemma polling_budgets_witness :
  poll (always (answer "processing" "")) "https://creolecentric.com/api/v1" "J1" 2 2
  = (1, [CurlStatus 1; Echo "  Attempt 1/2 - Status: processing"; Sleep 2;
         CurlStatus 2; Echo "  Attempt 2/2 - Status: processing"; Sleep 2;
         Echo "";
         Echo "✗ Timeout: Job did not complete within expected time";
         Echo "  You can check the status later using:";
         Echo ("  curl -X GET " ++ dq ++ "https://creolecentric.com/api/v1/tts/jobs/J1/"
                 ++ dq ++ " \");
         Echo ("    -H " ++ dq ++ "Authorization: ApiKey $CREOLECENTRIC_API_KEY" ++ dq)])
  /\ (exists lines,
        List.length lines = 2
        /\ Client.waitForJob 3 Client.fails_third "J1" 300 2
           = (Some (Normal (Client.status_body "failed")),
              flat_map (fun l => [Client.StatusQuery "J1"; Client.ConsoleLog l;
                                  Client.SetTimeout (2 * 1000)])
                       lines
              +++ [Client.StatusQuery "J1"]))
  /\ (exists lines,
        List.length lines = 1
        /\ Client.waitForJob 3 ClientApi.steady "J1" 4 2
           = (Some (Throw (Client.timeout_error "J1" 4)),
              flat_map (fun l => [Client.StatusQuery "J1"; Client.ConsoleLog l;
                                  Client.SetTimeout (2 * 1000)])
                       lines)).
Proof.
  split; [| split].
  - refine (proj1 (proj2 (proj1 polling_budgets (always (answer "processing" ""))
                            "https://creolecentric.com/api/v1" "J1" 2 2)) _).
    intros k Hk. reflexivity.
  - refine (proj1 (proj1 (proj2 polling_budgets) Client.fails_third "J1" 300%Z 2%Z) 2
              (Client.status_body "failed") 0 _).
    split; [| split; [| split]].
    + intros k Hk. destruct k as [| [| [| k]]]; [reflexivity | reflexivity | reflexivity | lia].
    + intros k Hk. exists (Client.status_body "processing"), (JStr "processing"), "processing".
      destruct k as [| [| k]]; [repeat split | repeat split | lia].
    + reflexivity.
    + exists (JStr "failed"). split; reflexivity.
  - refine (proj1 (proj2 (proj1 (proj2 polling_budgets) ClientApi.steady "J1" 4%Z 2%Z)) 1 1 _).
    split.
    + intros k Hk. destruct k as [| k]; [| lia].
      split; [reflexivity |].
      exists (Client.status_body "processing"), (JStr "processing"), "processing".
      repeat split.
    + vm_compute. discriminate.
Defined.

(** C7, as the code has it.
    - Webhook receiver: a [tts_failed] request starts no download; when its
      body is truthy with printable fields, all it does is log the reception
      and the error line with [error_message], or ['Unknown error'].  This
      is said of the request, not of the job: the receiver keeps nothing
      about a job, and a later [tts_delivered] for it is handled as any
      other.
    - Polling script: when the first terminal status is [failed] or
      [cancelled], the exit status is 1 and nothing is downloaded.  On
      [failed] the run ends with the failure notice, followed by the line
      [Error: <message>] exactly when [ERROR_MESSAGE] is neither empty nor
      [null].  On [cancelled] the run ends with the cancellation notice:
      what is printed does not depend on [ERROR_MESSAGE]. *)
Theorem failed_and_cancelled_runs :
  (forall t data s,
     strict_eq_string (Webhook.eventType_of data) "tts_failed" = true ->
     Webhook.requests (snd (Webhook.post_webhook t data s)) = []
     /\ (truthy data = true -> Webhook.fields_print data = true ->
         snd (Webhook.post_webhook t data s)
         = [Webhook.Console Webhook.Log
              (Webhook.nl ++ "📨 Received webhook: tts_failed for job "
                 ++ Webhook.shown (Webhook.jobId_of data)
                 ++ " (status: " ++ Webhook.shown (Webhook.status_of data) ++ ")");
            Webhook.Console Webhook.Error
              ("❌ Job " ++ Webhook.shown (Webhook.prop data "job_id") ++ " failed: "
                 ++ Webhook.shown (js_or (Webhook.prop data "error_message")
                                         (JStr "Unknown error")))]))
  /\ (forall w u j max interval k,
        k <= max -> first_terminal w k ->
        let v := status_response w k in
        let before :=
          flat_map (fun a => [CurlStatus a;
                              Echo (attempt_line max a (status_response w a));
                              Sleep interval])
                   (seq 1 (k - 1)) in
        (STATUS v = "failed" ->
         poll w u j max interval
         = (1, before
               +++ [CurlStatus k; Echo (attempt_line max k v);
                    Echo ""; Echo "✗ Job failed!"]
               +++ (if present (ERROR_MESSAGE v)
                    then [Echo ("  Error: " ++ ERROR_MESSAGE v)] else []))
         /\ downloads (snd (poll w u j max interval)) = [])
        /\ (STATUS v = "cancelled" ->
            poll w u j max interval
            = (1, before
                  +++ [CurlStatus k; Echo (attempt_line max k v);
                       Echo ""; Echo "✗ Job was cancelled"])
            /\ downloads (snd (poll w u j max interval)) = [])).
Proof.
  split.
  - intros t data s He.
    destruct (WebhookFacts.failed_event_handling t data s He) as [Hreq Htrace].
    split; [exact Hreq |]. intros Ht Hf. rewrite (Htrace Ht Hf).
    unfold Webhook.received_line, Webhook.failed_line.
    destruct (Webhook.eventType_of data) as [| | | | x | |]; try discriminate.
    cbn in He. apply String.eqb_eq in He. subst x. reflexivity.
  - intros w u j max interval k Hk Hfirst v before. subst v before. split.
    + intros Hst.
      assert (Hrun := poll_unsuccessful w u j max interval k Hk Hfirst).
      rewrite Hst in Hrun. specialize (Hrun ltac:(discriminate)).
      cbn [String.eqb Ascii.eqb Bool.eqb] in Hrun.
      rewrite Hrun. unfold failed_branch, opt_line. cbn [snd]. split.
      * now destruct (present (ERROR_MESSAGE (status_response w k))).
      * rewrite downloads_rounds. now destruct (present (ERROR_MESSAGE (status_response w k))).
    + intros Hst.
      assert (Hrun := poll_unsuccessful w u j max interval k Hk Hfirst).
      rewrite Hst in Hrun. specialize (Hrun ltac:(discriminate)).
      cbn [String.eqb Ascii.eqb Bool.eqb] in Hrun.
      rewrite Hrun. unfold cancelled_branch. cbn [snd]. split.
      * reflexivity.
      * now rewrite downloads_rounds.
Qed.

Lemma failed_and_cancelled_runs_witness :
  Webhook.requests (snd (Webhook.post_webhook "12:00:10" Samples.failed_J1
                           Webhook.empty_server)) = []
  /\ poll (always (answer "failed" "synthesis error"))
          "https://creolecentric.com/api/v1" "J1" 30 2
     = (1, [CurlStatus 1; Echo "  Attempt 1/30 - Status: failed";
            Echo ""; Echo "✗ Job failed!"; Echo "  Error: synthesis error"])
  /\ poll (mkWorld (fun a => if Nat.eqb a 2 then answer "cancelled" "quota exceeded"
                             else answer "processing" "") true None)
          "https://creolecentric.com/api/v1" "J1" 30 2
     = (1, [CurlStatus 1; Echo "  Attempt 1/30 - Status: processing"; Sleep 2;
            CurlStatus 2; Echo "  Attempt 2/30 - Status: cancelled";
            Echo ""; Echo "✗ Job was cancelled"]).
Proof.
  split; [| split].
  - exact (proj1 (proj1 failed_and_cancelled_runs "12:00:10" Samples.failed_J1
                    Webhook.empty_server eq_refl)).
  - refine (proj1 (proj1 (proj2 failed_and_cancelled_runs
                            (always (answer "failed" "synthesis error"))
                            "https://creolecentric.com/api/v1" "J1" 30 2 1 _ _) eq_refl)).
    + lia.
    + split; [lia | split; [reflexivity | intros a Ha; lia]].
  - refine (proj1 (proj2 (proj2 failed_and_cancelled_runs
                            (mkWorld (fun a => if Nat.eqb a 2
                                               then answer "cancelled" "quota exceeded"
                                               else answer "processing" "") true None)
                            "https://creolecentric.com/api/v1" "J1" 30 2 2 _ _) eq_refl)).
    + lia.
    + split; [lia | split; [reflexivity |]].
      intros a Ha. assert (a = 1) by lia. subst a. reflexivity.
Defined.

End PollingFacts.
